(** * compose: the docker-compose generator for dgraph clusters

    A shallow embedding of [compose/compose.go] and the properties of its
    topology builder, option checks and port derivation.

    Conventions of the embedding:
    - Go's [int] is a 64-bit signed integer: values are in [Z] and every
      addition and subtraction of the source goes through [wrap64];
    - [float64] values are [spec_float] at precision 53 and exponent bound
      1024 (binary64), with the division of [SpecFloat];
    - [map\[string\]T] is [gmap string T];
    - the global [opts] is passed to the functions that read it;
    - output on the error stream and [os.Exit] are the effects of the
      [Proc] monad; the operating system (current user, file creation) is
      an explicit [Env]. *)

From Stdlib Require Import ZArith String Ascii DecimalString DecimalZ DecimalPos.
From Stdlib Require Import Floats.SpecFloat.
From stdpp Require Import gmap strings list.

Local Open Scope Z_scope.

#[local] Arguments String.append !s1 s2 : simpl nomatch.

(** ** Machine integers *)

Definition min_int64 : Z := - 2 ^ 63.
Definition max_int64 : Z := 2 ^ 63 - 1.

Definition wrap64 (z : Z) : Z := (z + 2 ^ 63) mod 2 ^ 64 - 2 ^ 63.

Definition int_add (a b : Z) : Z := wrap64 (a + b).
Definition int_sub (a b : Z) : Z := wrap64 (a - b).

Definition is_int64 (z : Z) : Prop := min_int64 <= z <= max_int64.

(** ** Formatting ([fmt.Sprintf]) *)

(** The verb [%d] at an [int]. *)
Definition fmt_d (z : Z) : string := NilZero.string_of_int (Z.to_int z).

(** [strings.Join]. *)
Fixpoint join (sep : string) (l : list string) : string :=
  match l with
  | [] => ""
  | [s] => s
  | s :: l' => s +:+ sep +:+ join sep l'
  end.

(** The verb [%v] at a [\[\]string]. *)
Definition fmt_v (l : list string) : string := "[" +:+ join " " l +:+ "]".

(** [contains sub s]: [sub] occurs in [s] as a run of consecutive
    characters ([strings.Contains s sub]). *)
Fixpoint contains (sub s : string) : bool :=
  String.prefix sub s ||
  match s with
  | EmptyString => false
  | String _ s' => contains sub s'
  end.

(** ** binary64 arithmetic *)

Definition prec : Z := 53.
Definition emax : Z := 1024.

(** The conversion [float64(i)] of an [int]. *)
Definition float64_of_int (i : Z) : spec_float :=
  binary_normalize prec emax i 0 false.

Definition float64_div (x y : spec_float) : spec_float := SFdiv prec emax x y.

(** [math.Ceil]: the least integral value greater than or equal to [x];
    infinities, NaN and zeros are returned as they are. *)
Definition math_Ceil (x : spec_float) : spec_float :=
  match x with
  | S754_finite s m e =>
      if 0 <=? e then x
      else
        let n := if s then - (Z.pos m / 2 ^ (- e))
                 else - ((- Z.pos m) / 2 ^ (- e)) in
        binary_normalize prec emax n 0 s
  | _ => x
  end.

(** The conversion [int(f)]: the fraction is discarded. Where the value does
    not fit (also for infinities and NaN) the language leaves the result to
    the implementation; the amd64 instruction yields the least [int]. *)
Definition int_of_float64 (x : spec_float) : Z :=
  match x with
  | S754_zero _ => 0
  | S754_finite s m e =>
      let a := if 0 <=? e then Z.pos m * 2 ^ e else Z.pos m / 2 ^ (- e) in
      let v := if s then - a else a in
      if (min_int64 <=? v) && (v <=? max_int64) then v else min_int64
  | _ => min_int64
  end.

(** ** Data model *)

Record Volume := {
  Type_ : string;
  Source : string;
  Target : string;
  ReadOnly : bool
}.

Record Service := {
  svc_name : string;
  Image : string;
  ContainerName : string;
  WorkingDir : string;
  DependsOn : list string;
  Labels : gmap string string;
  Environment : list string;
  Ports : list string;
  Volumes : list Volume;
  TempFS : list string;
  User : string;
  Command : string
}.

Record ComposeConfig := {
  Version : string;
  Services : gmap string Service;
  cfg_Volumes : gmap string (gmap string string)
}.

Record Options := {
  NumZeros : Z;
  NumAlphas : Z;
  NumGroups : Z;
  LruSizeMB : Z;
  EnterpriseMode : bool;
  AclSecret : string;
  DataDir : string;
  DataVol : bool;
  opt_TempFS : bool;
  UserOwnership : bool;
  Jaeger : bool;
  TestPortRange : bool;
  Verbosity : Z;
  OutFile : string
}.

Definition set_EnterpriseMode (b : bool) (o : Options) : Options :=
  {| NumZeros := NumZeros o; NumAlphas := NumAlphas o; NumGroups := NumGroups o;
     LruSizeMB := LruSizeMB o; EnterpriseMode := b; AclSecret := AclSecret o;
     DataDir := DataDir o; DataVol := DataVol o; opt_TempFS := opt_TempFS o;
     UserOwnership := UserOwnership o; Jaeger := Jaeger o;
     TestPortRange := TestPortRange o; Verbosity := Verbosity o;
     OutFile := OutFile o |}.

Definition set_AclSecret (s : string) (o : Options) : Options :=
  {| NumZeros := NumZeros o; NumAlphas := NumAlphas o; NumGroups := NumGroups o;
     LruSizeMB := LruSizeMB o; EnterpriseMode := EnterpriseMode o; AclSecret := s;
     DataDir := DataDir o; DataVol := DataVol o; opt_TempFS := opt_TempFS o;
     UserOwnership := UserOwnership o; Jaeger := Jaeger o;
     TestPortRange := TestPortRange o; Verbosity := Verbosity o;
     OutFile := OutFile o |}.

(** Updates of single fields of a service ([svc.F = ...], [svc.F += ...]). *)
Definition upd_WorkingDir (w : string) (s : Service) : Service :=
  {| svc_name := svc_name s; Image := Image s; ContainerName := ContainerName s;
     WorkingDir := w; DependsOn := DependsOn s; Labels := Labels s;
     Environment := Environment s; Ports := Ports s; Volumes := Volumes s;
     TempFS := TempFS s; User := User s; Command := Command s |}.

Definition upd_User (u : string) (s : Service) : Service :=
  {| svc_name := svc_name s; Image := Image s; ContainerName := ContainerName s;
     WorkingDir := WorkingDir s; DependsOn := DependsOn s; Labels := Labels s;
     Environment := Environment s; Ports := Ports s; Volumes := Volumes s;
     TempFS := TempFS s; User := u; Command := Command s |}.

Definition upd_Volumes (v : list Volume) (s : Service) : Service :=
  {| svc_name := svc_name s; Image := Image s; ContainerName := ContainerName s;
     WorkingDir := WorkingDir s; DependsOn := DependsOn s; Labels := Labels s;
     Environment := Environment s; Ports := Ports s; Volumes := v;
     TempFS := TempFS s; User := User s; Command := Command s |}.

Definition upd_TempFS (t : list string) (s : Service) : Service :=
  {| svc_name := svc_name s; Image := Image s; ContainerName := ContainerName s;
     WorkingDir := WorkingDir s; DependsOn := DependsOn s; Labels := Labels s;
     Environment := Environment s; Ports := Ports s; Volumes := Volumes s;
     TempFS := t; User := User s; Command := Command s |}.

Definition upd_Command (c : string) (s : Service) : Service :=
  {| svc_name := svc_name s; Image := Image s; ContainerName := ContainerName s;
     WorkingDir := WorkingDir s; DependsOn := DependsOn s; Labels := Labels s;
     Environment := Environment s; Ports := Ports s; Volumes := Volumes s;
     TempFS := TempFS s; User := User s; Command := c |}.

(** [svc.Command += s] *)
Definition add_Command (s : string) (svc : Service) : Service :=
  upd_Command (Command svc +:+ s) svc.

(** ** Effects: the error stream and process exit *)

Inductive result (A : Type) : Type :=
  | Ok (a : A)
  | Err (msg : string).
Arguments Ok {A} a.
Arguments Err {A} msg.

(** How a computation ends: with a value, by [os.Exit(1)], or aborted by
    [x.CheckfNoTrace]. *)
Inductive outcome (A : Type) : Type :=
  | Return (a : A)
  | Exit1
  | Aborted.
Arguments Return {A} a.
Arguments Exit1 {A}.
Arguments Aborted {A}.

(** A computation: what it wrote to the error stream, and how it ended. *)
Definition Proc (A : Type) : Type := list string * outcome A.

Definition ret {A} (a : A) : Proc A := ([], Return a).

Definition bind {A B} (m : Proc A) (f : A -> Proc B) : Proc B :=
  match m with
  | (w, Return a) => let '(w', r) := f a in ((w ++ w')%list, r)
  | (w, Exit1) => (w, Exit1)
  | (w, Aborted) => (w, Aborted)
  end.

#[global] Instance Proc_ret : MRet Proc := @ret.
#[global] Instance Proc_bind : MBind Proc := fun A B f m => bind m f.

Definition stderr_of {A} (m : Proc A) : list string := fst m.
Definition outcome_of {A} (m : Proc A) : outcome A := snd m.

(** [when c m]: an [if c { m }] whose body returns nothing. *)
Definition when (c : bool) (m : Proc unit) : Proc unit :=
  if c then m else ret tt.

Definition warning (str : string) : Proc unit :=
  (["compose: " +:+ str +:+ "
"], Return tt).

Definition fatal {A} (err : string) : Proc A :=
  (["compose: " +:+ err +:+ "
"], Exit1).

(** Modelled from the spec: [x.CheckfNoTrace] of package [x], which is not
    part of the sources at hand. On an error the run is aborted at once: one
    diagnostic line and a nonzero exit status. *)
Definition CheckfNoTrace {A} (err : string) : Proc A := ([err], Aborted).

(** The operating system as the program sees it. *)
Record Env := {
  (** [user.Current()]: the [Uid] of the current user, or the error *)
  user_Current : result string;
  (** [os.Create]: [None] when the file could be opened, or the error *)
  os_Create : string -> option string
}.

(** ** The program *)

Definition zeroBasePort : Z := 5080.
Definition alphaBasePort : Z := 7080.

Definition name (prefix : string) (idx : Z) : string := prefix +:+ fmt_d idx.

Definition toExposedPort (i : Z) : string := fmt_d i +:+ ":" +:+ fmt_d i.

Definition gobin_volume : Volume :=
  {| Type_ := "bind"; Source := "$GOPATH/bin"; Target := "/gobin";
     ReadOnly := true |}.

Definition data_volume : Volume :=
  {| Type_ := "volume"; Source := "data"; Target := "/data";
     ReadOnly := false |}.

Definition data_dir_volume (dir : string) : Volume :=
  {| Type_ := "bind"; Source := dir; Target := "/data"; ReadOnly := false |}.

Definition secret_volume (secret : string) : Volume :=
  {| Type_ := "bind"; Source := secret; Target := "/secret/hmac";
     ReadOnly := true |}.

Definition initService (env : Env) (opts : Options)
    (basename : string) (idx grpcPort : Z) : Proc Service :=
  let svc :=
    {| svc_name := name basename idx;
       Image := "dgraph/dgraph:latest";
       ContainerName := name basename idx;
       WorkingDir := "/data/" +:+ name basename idx;
       DependsOn :=
         if 1 <? idx then [name basename (int_sub idx 1)] else [];
       Labels := {[ "cluster" := "test" ]};
       Environment := [];
       Ports := [toExposedPort grpcPort;
                 toExposedPort (int_add grpcPort 1000)];
       Volumes :=
         (gobin_volume ::
          if DataVol opts then [data_volume]
          else if bool_decide (DataDir opts ≠ "")
               then [data_dir_volume (DataDir opts)]
               else [])%list;
       TempFS := [];
       User := "";
       Command := "/gobin/dgraph" |} in
  svc ←
    (if UserOwnership opts then
       match user_Current env with
       | Err err =>
           CheckfNoTrace ("unable to get current user: " +:+ err)
       | Ok uid =>
           mret (add_Command (" --cwd=/data/" +:+ svc_name svc)
                   (upd_WorkingDir ("/working/" +:+ svc_name svc)
                      (upd_User ("${UID:-" +:+ uid +:+ "}") svc)))
       end
     else mret svc);
  mret (if Jaeger opts
        then add_Command " --jaeger.collector=http://jaeger:14268" svc
        else svc).

Definition getOffset (idx : Z) : Z := if idx =? 1 then 0 else idx.

(** The replica factor of the zeros:
    [int(math.Ceil(float64(opts.NumAlphas) / float64(opts.NumGroups)))]. *)
Definition replicas (opts : Options) : Z :=
  int_of_float64
    (math_Ceil (float64_div (float64_of_int (NumAlphas opts))
                            (float64_of_int (NumGroups opts)))).

Definition zero_grpcPort (idx : Z) : Z := int_add zeroBasePort (getOffset idx).

Definition getZero (env : Env) (opts : Options) (idx : Z) : Proc Service :=
  let basename := "zero" in
  let grpcPort := zero_grpcPort idx in
  svc ← initService env opts basename idx grpcPort;
  let svc :=
    if opt_TempFS opts
    then upd_TempFS (TempFS svc ++ ["/data/" +:+ svc_name svc +:+ "/zw"])%list svc
    else svc in
  let svc := add_Command (" zero -o " +:+ fmt_d (int_sub idx 1) +:+
                          " --idx=" +:+ fmt_d idx) svc in
  let svc := add_Command (" --my=" +:+ svc_name svc +:+ ":" +:+
                          fmt_d grpcPort) svc in
  let svc := add_Command (" --replicas=" +:+ fmt_d (replicas opts)) svc in
  let svc := add_Command (" --logtostderr -v=" +:+
                          fmt_d (Verbosity opts)) svc in
  mret (if idx =? 1
        then add_Command " --bindall" svc
        else add_Command (" --peer=" +:+ name basename 1 +:+ ":" +:+
                          fmt_d zeroBasePort) svc).

Definition alpha_baseOffset (opts : Options) : Z :=
  if TestPortRange opts then int_add 0 100 else 0.

Definition alpha_internalPort (opts : Options) (idx : Z) : Z :=
  int_add (int_add alphaBasePort (alpha_baseOffset opts)) (getOffset idx).

Definition alpha_grpcPort (opts : Options) (idx : Z) : Z :=
  int_add (alpha_internalPort opts idx) 1000.

Definition getAlpha (env : Env) (opts : Options) (idx : Z) : Proc Service :=
  let baseOffset := alpha_baseOffset opts in
  let basename := "alpha" in
  let internalPort := alpha_internalPort opts idx in
  let grpcPort := alpha_grpcPort opts idx in
  svc ← initService env opts basename idx grpcPort;
  let svc :=
    if opt_TempFS opts
    then upd_TempFS (TempFS svc ++ ["/data/" +:+ svc_name svc +:+ "/w"])%list svc
    else svc in
  let svc := add_Command (" alpha -o " +:+
                          fmt_d (int_sub (int_add baseOffset idx) 1)) svc in
  let svc := add_Command (" --my=" +:+ svc_name svc +:+ ":" +:+
                          fmt_d internalPort) svc in
  let svc := add_Command (" --lru_mb=" +:+ fmt_d (LruSizeMB opts)) svc in
  let svc := add_Command (" --zero=zero1:" +:+ fmt_d zeroBasePort) svc in
  let svc := add_Command (" --logtostderr -v=" +:+
                          fmt_d (Verbosity opts)) svc in
  let svc := add_Command
               " --whitelist=10.0.0.0/8,172.16.0.0/12,192.168.0.0/16" svc in
  mret (if EnterpriseMode opts then
          let svc := add_Command " --enterprise_features" svc in
          if bool_decide (AclSecret opts ≠ "") then
            upd_Volumes (Volumes svc ++ [secret_volume (AclSecret opts)])%list
              (add_Command
                 " --acl_secret_file=/secret/hmac --acl_access_ttl 10s" svc)
          else svc
        else svc).

Definition getJaeger : Service :=
  {| svc_name := "";
     Image := "jaegertracing/all-in-one:latest";
     ContainerName := "jaeger";
     WorkingDir := "/working/jaeger";
     DependsOn := [];
     Labels := ∅;
     Environment := ["COLLECTOR_ZIPKIN_HTTP_PORT=9411"];
     Ports := [toExposedPort 16686];
     Volumes := [];
     TempFS := [];
     User := "";
     Command := "--memory.max-traces=1000000" |}.

(** The sanity checks of [main], in the order of the source. The value is
    the option set as the rest of the run reads it. *)
Definition sanity_checks (opts : Options) : Proc Options :=
  when ((NumZeros opts <? 1) || (99 <? NumZeros opts))
    (fatal "number of zeros must be 1-99");;
  when ((NumAlphas opts <? 1) || (99 <? NumAlphas opts))
    (fatal "number of alphas must be 1-99");;
  when (LruSizeMB opts <? 1024)
    (fatal "LRU cache size must be >= 1024 MB");;
  opts ←
    (if bool_decide (AclSecret opts ≠ "") && negb (EnterpriseMode opts) then
       warning "adding --enterprise because it is required by ACL feature";;
       mret (set_EnterpriseMode true opts)
     else mret opts);
  when (DataVol opts && bool_decide (DataDir opts ≠ ""))
    (fatal "only one of --data_vol and --data_dir may be used at a time");;
  when (UserOwnership opts && bool_decide (DataDir opts = ""))
    (fatal "--user option requires --data_dir=<path>");;
  mret opts.

(** A loop [for i := lo; ...; i++ { services\[svc.name\] = svc }] over the
    indices [idxs], with [get i] for the service of index [i]. *)
Fixpoint add_services (get : Z -> Proc Service) (idxs : list Z)
    (services : gmap string Service) : Proc (gmap string Service) :=
  match idxs with
  | [] => mret services
  | i :: idxs' =>
      svc ← get i;
      add_services get idxs' (<[svc_name svc := svc]> services)
  end.

(** The topology builder: the part of [main] between the sanity checks and
    the serializer. [cfg.Services] and the local [services] are one map, so
    the tracing sidecar, added after [cfg] is made, is part of [cfg]. *)
Definition build (env : Env) (opts : Options) : Proc ComposeConfig :=
  let services : gmap string Service := ∅ in
  services ← add_services (getZero env opts) (seqZ 1 (NumZeros opts)) services;
  services ← add_services (getAlpha env opts) (seqZ 1 (NumAlphas opts)) services;
  let volumes : gmap string (gmap string string) :=
    if DataVol opts then {[ "data" := ∅ ]} else ∅ in
  let services :=
    if Jaeger opts then <["jaeger" := getJaeger]> services else services in
  mret {| Version := "3.5"; Services := services; cfg_Volumes := volumes |}.

(** Where the document goes. *)
Inductive Dest :=
  | Stdout
  | File (path : string).

Record Output := { dest : Dest; content : string }.

Definition header (args : list string) : string :=
  "# Auto-generated with: " +:+ fmt_v args +:+ "
#
".

Section Main.
(** [yaml.Marshal] of the external package [gopkg.in/yaml.v2]. *)
Variable yaml_Marshal : ComposeConfig -> result string.

(** The serializer: the end of [main], from [yaml.Marshal] on. *)
Definition serialize (env : Env) (args : list string) (opts : Options)
    (cfg : ComposeConfig) : Proc Output :=
  yml ← match yaml_Marshal cfg with
        | Ok yml => mret yml
        | Err err => CheckfNoTrace err
        end;
  out ←
    (if bool_decide (OutFile opts = "-") then mret Stdout
     else
       (["writing file: " +:+ OutFile opts +:+ "
"], Return tt);;
       match os_Create env (OutFile opts) with
       | Some err => fatal ("unable to open file for writing: " +:+ err)
       | None => mret (File (OutFile opts))
       end);
  mret {| dest := out; content := header args +:+ yml |}.

(** [main] after the flags have been parsed into [opts]; [args] is
    [os.Args]. *)
Definition main (env : Env) (args : list string) (opts : Options)
    : Proc Output :=
  opts ← sanity_checks opts;
  cfg ← build env opts;
  serialize env args opts cfg.
End Main.

(** * Properties *)

(** ** Machine integers in range *)

Lemma wrap64_id (z : Z) : is_int64 z -> wrap64 z = z.
Proof.
  unfold is_int64, min_int64, max_int64, wrap64. intros Hz.
  rewrite Z.mod_small; lia.
Qed.

Lemma int_add_small (a b : Z) :
  - 2 ^ 61 <= a <= 2 ^ 61 -> - 2 ^ 61 <= b <= 2 ^ 61 -> int_add a b = a + b.
Proof.
  intros Ha Hb. apply wrap64_id. unfold is_int64, min_int64, max_int64. lia.
Qed.

Lemma int_sub_small (a b : Z) :
  - 2 ^ 61 <= a <= 2 ^ 61 -> - 2 ^ 61 <= b <= 2 ^ 61 -> int_sub a b = a - b.
Proof.
  intros Ha Hb. apply wrap64_id. unfold is_int64, min_int64, max_int64. lia.
Qed.

(** ** Strings *)

Lemma str_app_assoc (s1 s2 s3 : string) :
  (s1 +:+ s2) +:+ s3 = s1 +:+ s2 +:+ s3.
Proof. induction s1 as [|c s1 IH]; simpl; [reflexivity | now rewrite IH]. Qed.

Lemma str_app_nil_r (s : string) : s +:+ "" = s.
Proof. induction s as [|c s IH]; simpl; [reflexivity | now rewrite IH]. Qed.

Lemma prefix_app (p s : string) : String.prefix p (p +:+ s) = true.
Proof.
  induction p as [|c p IH]; simpl.
  - now destruct s.
  - destruct (ascii_dec c c); [exact IH | congruence].
Qed.

Lemma prefix_app_l (p s t : string) :
  String.prefix p s = true -> String.prefix p (s +:+ t) = true.
Proof.
  revert s. induction p as [|c p IH]; intros s H.
  - now destruct (s +:+ t).
  - destruct s as [|d s]; simpl in *; [discriminate|].
    destruct (ascii_dec c d); [now apply IH | discriminate].
Qed.

Lemma prefix_split (p s : string) :
  String.prefix p s = true -> exists t, s = p +:+ t.
Proof.
  revert s. induction p as [|c p IH]; intros s H.
  - now exists s.
  - destruct s as [|d s]; simpl in H; [discriminate|].
    destruct (ascii_dec c d) as [->|]; [|discriminate].
    destruct (IH s H) as [t ->]. now exists t.
Qed.

Lemma contains_unfold (p s : string) :
  contains p s =
  String.prefix p s ||
  match s with EmptyString => false | String _ s' => contains p s' end.
Proof. destruct s; reflexivity. Qed.

Lemma contains_prefix (p s : string) :
  String.prefix p s = true -> contains p s = true.
Proof. intros H. rewrite contains_unfold, H. reflexivity. Qed.

Lemma contains_here (p s : string) : contains p (p +:+ s) = true.
Proof. apply contains_prefix, prefix_app. Qed.

Lemma contains_cons (p : string) (c : ascii) (s : string) :
  contains p s = true -> contains p (String c s) = true.
Proof. intros H. rewrite contains_unfold, H. apply orb_true_r. Qed.

Lemma contains_app_l (p s t : string) :
  contains p s = true -> contains p (s +:+ t) = true.
Proof.
  induction s as [|c s IH]; rewrite contains_unfold; intros H.
  - rewrite orb_false_r in H. apply contains_prefix.
    now apply (prefix_app_l p "" t).
  - apply orb_true_iff in H as [H|H].
    + apply contains_prefix. now apply (prefix_app_l p (String c s) t).
    + change (String c s +:+ t) with (String c (s +:+ t)).
      now apply contains_cons, IH.
Qed.

Lemma contains_app_r (p s t : string) :
  contains p t = true -> contains p (s +:+ t) = true.
Proof.
  intros H. induction s as [|c s IH]; [exact H|].
  change (String c s +:+ t) with (String c (s +:+ t)).
  now apply contains_cons.
Qed.

(** [contains] decides occurrence as a substring. *)
Lemma contains_iff (p s : string) :
  contains p s = true <-> exists pre post, s = pre +:+ p +:+ post.
Proof.
  split.
  - induction s as [|c s IH]; rewrite contains_unfold; intros H.
    + rewrite orb_false_r in H.
      apply prefix_split in H as [t Ht]. now exists "", t.
    + apply orb_true_iff in H as [H|H].
      * apply prefix_split in H as [t Ht]. now exists "", t.
      * destruct (IH H) as (pre & post & ->).
        now exists (String c pre), post.
  - intros (pre & post & ->). apply contains_app_r, contains_here.
Qed.

(** *** Decimal numerals *)

Definition is_digit (c : ascii) : bool :=
  match c with
  | "0" | "1" | "2" | "3" | "4" | "5" | "6" | "7" | "8" | "9" => true
  | _ => false
  end%char.

Fixpoint all_chars (P : ascii -> bool) (s : string) : bool :=
  match s with
  | EmptyString => true
  | String c s' => P c && all_chars P s'
  end.

Lemma digits_string_of_uint (d : Decimal.uint) :
  all_chars is_digit (NilEmpty.string_of_uint d) = true.
Proof. induction d; simpl; auto. Qed.

Lemma digits_string_of_uint0 (d : Decimal.uint) :
  all_chars is_digit (NilZero.string_of_uint d) = true
  /\ NilZero.string_of_uint d <> "".
Proof.
  destruct d; simpl; (split; [|discriminate]);
    try reflexivity; apply digits_string_of_uint.
Qed.

(** A numeral is a nonempty run of digits, after a minus sign for the
    negative numbers. *)
Lemma fmt_d_shape (z : Z) :
  exists s, all_chars is_digit s = true /\ s <> ""
            /\ fmt_d z = (if z <? 0 then "-" else "") +:+ s.
Proof.
  unfold fmt_d. destruct z as [|p|p]; simpl.
  - exists "0". repeat split; discriminate.
  - exists (NilZero.string_of_uint (Pos.to_uint p)).
    destruct (digits_string_of_uint0 (Pos.to_uint p)). auto.
  - exists (NilZero.string_of_uint (Pos.to_uint p)).
    destruct (digits_string_of_uint0 (Pos.to_uint p)). auto.
Qed.

Lemma to_int_not_nil (z : Z) :
  Z.to_int z <> Decimal.Pos Decimal.Nil /\ Z.to_int z <> Decimal.Neg Decimal.Nil.
Proof.
  destruct z as [|p|p]; simpl; split; try discriminate;
    intros [= H]; now apply Unsigned.to_uint_nonnil in H.
Qed.

Lemma fmt_d_inj (a b : Z) : fmt_d a = fmt_d b -> a = b.
Proof.
  unfold fmt_d. intros H. apply to_int_inj.
  destruct (to_int_not_nil a) as [Ha1 Ha2], (to_int_not_nil b) as [Hb1 Hb2].
  pose proof (NilZero.isi _ Ha1 Ha2) as Ia.
  pose proof (NilZero.isi _ Hb1 Hb2) as Ib.
  rewrite H in Ia. congruence.
Qed.

Lemma all_chars_app_inj (P : ascii -> bool) (c : ascii) (s t x y : string) :
  P c = false -> all_chars P s = true -> all_chars P t = true ->
  s +:+ String c x = t +:+ String c y -> s = t /\ x = y.
Proof.
  intros Hc. revert t. induction s as [|a s IH]; intros [|b t] Hs Ht E;
    simpl in *.
  - now injection E.
  - injection E as -> _. apply andb_true_iff in Ht as [Ht _]. congruence.
  - injection E as -> _. apply andb_true_iff in Hs as [Hs _]. congruence.
  - injection E as -> E.
    apply andb_true_iff in Hs as [_ Hs]. apply andb_true_iff in Ht as [_ Ht].
    destruct (IH t Hs Ht E) as [-> ->]. auto.
Qed.

Definition is_num_char (c : ascii) : bool := is_digit c || Ascii.eqb c "-".

Lemma all_chars_weaken (P Q : ascii -> bool) (s : string) :
  (forall c, P c = true -> Q c = true) ->
  all_chars P s = true -> all_chars Q s = true.
Proof.
  intros HPQ. induction s as [|c s IH]; simpl; [auto|].
  intros [H1 H2]%andb_true_iff. rewrite (HPQ _ H1), (IH H2). reflexivity.
Qed.

Lemma fmt_d_num_chars (z : Z) : all_chars is_num_char (fmt_d z) = true.
Proof.
  destruct (fmt_d_shape z) as (s & Hs & _ & ->).
  assert (all_chars is_num_char s = true) as H.
  { revert Hs. apply all_chars_weaken. intros c Hc. unfold is_num_char.
    now rewrite Hc. }
  destruct (z <? 0); simpl; exact H.
Qed.

(** ** Names and exposed ports *)

Lemma name_inj (prefix : string) (i j : Z) :
  name prefix i = name prefix j -> i = j.
Proof.
  unfold name. intros H. apply fmt_d_inj. revert H.
  induction prefix as [|c p IH]; simpl; [auto|]. intros [= H]. auto.
Qed.

Lemma name_zero_alpha (i j : Z) : name "zero" i <> name "alpha" j.
Proof. discriminate. Qed.

Lemma name_zero_jaeger (i : Z) : name "zero" i <> "jaeger".
Proof. discriminate. Qed.

Lemma name_alpha_jaeger (i : Z) : name "alpha" i <> "jaeger".
Proof. discriminate. Qed.

Lemma toExposedPort_inj (p q : Z) : toExposedPort p = toExposedPort q -> p = q.
Proof.
  unfold toExposedPort. intros H. apply fmt_d_inj.
  apply (all_chars_app_inj is_num_char ":"%char
           (fmt_d p) (fmt_d q) (fmt_d p) (fmt_d q));
    auto using fmt_d_num_chars.
Qed.

(** ** The service records *)

(** The current user is known whenever the options make the run ask for it. *)
Definition user_known (env : Env) (opts : Options) : Prop :=
  UserOwnership opts = true -> exists uid, user_Current env = Ok uid.

(** The command line of a fresh service, before the role adds its part. *)
Definition init_Command (opts : Options) (svcname : string) : string :=
  let c := "/gobin/dgraph" in
  let c := if UserOwnership opts then c +:+ " --cwd=/data/" +:+ svcname else c in
  if Jaeger opts then c +:+ " --jaeger.collector=http://jaeger:14268" else c.

Definition init_Volumes (opts : Options) : list Volume :=
  gobin_volume ::
  (if DataVol opts then [data_volume]
   else if bool_decide (DataDir opts ≠ "")
        then [data_dir_volume (DataDir opts)]
        else []).

Lemma initService_returns env opts basename idx grpcPort :
  user_known env opts ->
  exists svc,
    initService env opts basename idx grpcPort = ([], Return svc)
    /\ svc_name svc = name basename idx
    /\ ContainerName svc = name basename idx
    /\ Ports svc = [toExposedPort grpcPort;
                    toExposedPort (int_add grpcPort 1000)]
    /\ Volumes svc = init_Volumes opts
    /\ Command svc = init_Command opts (name basename idx).
Proof.
  intros Hu. unfold initService, init_Command, init_Volumes, user_known in *.
  destruct (UserOwnership opts).
  - destruct Hu as [uid ->]; [reflexivity|].
    destruct (Jaeger opts); eexists; (split; [reflexivity|]);
      cbn; repeat split; try reflexivity.
  - destruct (Jaeger opts); eexists; (split; [reflexivity|]);
      cbn; repeat split; reflexivity.
Qed.

(** The command line of zero [idx], as [getZero] appends it. *)
Definition zero_Command (opts : Options) (idx : Z) : string :=
  ((((init_Command opts (name "zero" idx)
      +:+ (" zero -o " +:+ fmt_d (int_sub idx 1) +:+ " --idx=" +:+ fmt_d idx))
     +:+ (" --my=" +:+ name "zero" idx +:+ ":" +:+ fmt_d (zero_grpcPort idx)))
    +:+ (" --replicas=" +:+ fmt_d (replicas opts)))
   +:+ (" --logtostderr -v=" +:+ fmt_d (Verbosity opts)))
  +:+ (if idx =? 1 then " --bindall"
       else " --peer=" +:+ name "zero" 1 +:+ ":" +:+ fmt_d zeroBasePort).

Lemma getZero_returns env opts idx :
  user_known env opts ->
  exists svc,
    getZero env opts idx = ([], Return svc)
    /\ svc_name svc = name "zero" idx
    /\ Ports svc = [toExposedPort (zero_grpcPort idx);
                    toExposedPort (int_add (zero_grpcPort idx) 1000)]
    /\ Volumes svc = init_Volumes opts
    /\ Command svc = zero_Command opts idx.
Proof.
  intros Hu. unfold getZero, zero_Command.
  destruct (initService_returns env opts "zero" idx (zero_grpcPort idx) Hu)
    as (svc & -> & Hn & _ & Hp & Hv & Hc).
  destruct svc; cbn in *; subst.
  destruct (opt_TempFS opts), (idx =? 1); eexists;
    (split; [reflexivity|]); cbn; repeat split; reflexivity.
Qed.

(** The command line of alpha [idx], as [getAlpha] appends it. *)
Definition alpha_Command (opts : Options) (idx : Z) : string :=
  let c :=
    (((((init_Command opts (name "alpha" idx)
         +:+ (" alpha -o " +:+
              fmt_d (int_sub (int_add (alpha_baseOffset opts) idx) 1)))
        +:+ (" --my=" +:+ name "alpha" idx +:+ ":" +:+
             fmt_d (alpha_internalPort opts idx)))
       +:+ (" --lru_mb=" +:+ fmt_d (LruSizeMB opts)))
      +:+ (" --zero=zero1:" +:+ fmt_d zeroBasePort))
     +:+ (" --logtostderr -v=" +:+ fmt_d (Verbosity opts)))
    +:+ " --whitelist=10.0.0.0/8,172.16.0.0/12,192.168.0.0/16" in
  if EnterpriseMode opts then
    let c := c +:+ " --enterprise_features" in
    if bool_decide (AclSecret opts ≠ "")
    then c +:+ " --acl_secret_file=/secret/hmac --acl_access_ttl 10s"
    else c
  else c.

Definition alpha_Volumes (opts : Options) : list Volume :=
  if EnterpriseMode opts && bool_decide (AclSecret opts ≠ "")
  then (init_Volumes opts ++ [secret_volume (AclSecret opts)])%list
  else init_Volumes opts.

Lemma getAlpha_returns env opts idx :
  user_known env opts ->
  exists svc,
    getAlpha env opts idx = ([], Return svc)
    /\ svc_name svc = name "alpha" idx
    /\ Ports svc = [toExposedPort (alpha_grpcPort opts idx);
                    toExposedPort (int_add (alpha_grpcPort opts idx) 1000)]
    /\ Volumes svc = alpha_Volumes opts
    /\ Command svc = alpha_Command opts idx.
Proof.
  intros Hu. unfold getAlpha, alpha_Command, alpha_Volumes.
  destruct (initService_returns env opts "alpha" idx
              (alpha_grpcPort opts idx) Hu)
    as (svc & -> & Hn & _ & Hp & Hv & Hc).
  destruct svc; cbn in *; subst.
  destruct (opt_TempFS opts), (EnterpriseMode opts),
    (bool_decide (AclSecret opts ≠ "")); eexists;
    (split; [reflexivity|]); cbn; repeat split; reflexivity.
Qed.

(** ** The topology builder *)

(** [kv] is the entry of the service map for index [i] of a role. *)
Definition record_of (get : Z -> Proc Service) (role : string)
    (i : Z) (kv : string * Service) : Prop :=
  kv.1 = name role i /\ svc_name kv.2 = name role i
  /\ get i = ([], Return kv.2).

Lemma add_services_spec get role idxs (m : gmap string Service) :
  (forall i, i ∈ idxs ->
     exists s, get i = ([], Return s) /\ svc_name s = name role i) ->
  NoDup idxs ->
  (forall i, i ∈ idxs -> m !! name role i = None) ->
  exists (m' : gmap string Service) (kvs : list (string * Service)),
    add_services get idxs m = ([], Return m')
    /\ Forall2 (record_of get role) idxs kvs
    /\ map_to_list m' ≡ₚ (kvs ++ map_to_list m)%list
    /\ (forall i s, i ∈ idxs -> get i = ([], Return s) ->
          m' !! name role i = Some s)
    /\ (forall k, (forall i, i ∈ idxs -> k <> name role i) ->
          m' !! k = m !! k).
Proof.
  revert m. induction idxs as [|i idxs IH]; intros m Hget Hnd Hfresh.
  - exists m, []. repeat split; auto.
    intros i s Hi. now apply elem_of_nil in Hi.
  - destruct (Hget i) as (s & Hs & Hname); [left|].
    apply NoDup_cons in Hnd as [Hi Hnd].
    destruct (IH (<[name role i := s]> m)) as (m' & kvs & Hrun & Hrec & Hperm & Hin & Hout).
    + intros j Hj. apply Hget. now right.
    + exact Hnd.
    + intros j Hj. rewrite lookup_insert_ne.
      * apply Hfresh. now right.
      * intros E. apply name_inj in E. congruence.
    + exists m', ((name role i, s) :: kvs).
      split; [|split; [|split; [|split]]].
      * cbn. rewrite Hs. cbn. rewrite Hname, Hrun. reflexivity.
      * constructor; [|exact Hrec]. repeat split; auto.
      * rewrite Hperm, map_to_list_insert by (apply Hfresh; left).
        cbn. now rewrite Permutation_middle.
      * intros j s' [->|Hj]%elem_of_cons Hs'.
        -- rewrite Hout.
           ++ rewrite lookup_insert_eq. congruence.
           ++ intros j Hj E. apply name_inj in E. congruence.
        -- now apply Hin.
      * intros k Hk. rewrite Hout.
        -- apply lookup_insert_ne. intros E. symmetry in E.
           revert E. apply Hk. left.
        -- intros j Hj. apply Hk. now right.
Qed.

Definition jaeger_records (opts : Options) : list (string * Service) :=
  if Jaeger opts then [("jaeger", getJaeger)] else [].

Lemma build_spec env opts :
  user_known env opts ->
  exists cfg zs als,
    build env opts = ([], Return cfg)
    /\ Forall2 (record_of (getZero env opts) "zero")
         (seqZ 1 (NumZeros opts)) zs
    /\ Forall2 (record_of (getAlpha env opts) "alpha")
         (seqZ 1 (NumAlphas opts)) als
    /\ map_to_list (Services cfg) ≡ₚ (zs ++ als ++ jaeger_records opts)%list
    /\ (forall i z, 1 <= i <= NumZeros opts ->
          getZero env opts i = ([], Return z) ->
          Services cfg !! name "zero" i = Some z)
    /\ (forall i a, 1 <= i <= NumAlphas opts ->
          getAlpha env opts i = ([], Return a) ->
          Services cfg !! name "alpha" i = Some a)
    /\ Services cfg !! "jaeger"
       = (if Jaeger opts then Some getJaeger else None).
Proof.
  intros Hu. unfold build.
  destruct (add_services_spec (getZero env opts) "zero"
              (seqZ 1 (NumZeros opts)) ∅)
    as (m1 & zs & Hrun1 & Hrec1 & Hperm1 & Hin1 & Hout1).
  { intros i _. destruct (getZero_returns env opts i Hu) as (s & ? & ? & _).
    eauto. }
  { apply NoDup_seqZ. }
  { intros i _. apply lookup_empty. }
  destruct (add_services_spec (getAlpha env opts) "alpha"
              (seqZ 1 (NumAlphas opts)) m1)
    as (m2 & als & Hrun2 & Hrec2 & Hperm2 & Hin2 & Hout2).
  { intros i _. destruct (getAlpha_returns env opts i Hu) as (s & ? & ? & _).
    eauto. }
  { apply NoDup_seqZ. }
  { intros i _. rewrite Hout1; [apply lookup_empty|].
    intros j _ E. symmetry in E. now apply name_zero_alpha in E. }
  assert (m2 !! "jaeger" = None) as Hj.
  { rewrite Hout2, Hout1; [apply lookup_empty| |].
    - intros j _ E. symmetry in E. now apply name_zero_jaeger in E.
    - intros j _ E. symmetry in E. now apply name_alpha_jaeger in E. }
  rewrite map_to_list_empty, app_nil_r in Hperm1.
  eexists _, zs, als. cbn. rewrite Hrun1. cbn. rewrite Hrun2. cbn.
  split; [reflexivity|]. cbn.
  split; [exact Hrec1|]. split; [exact Hrec2|].
  unfold jaeger_records.
  split; [|split; [|split]].
  - destruct (Jaeger opts).
    + rewrite map_to_list_insert, Hperm2, Hperm1 by exact Hj.
      rewrite (Permutation_app_comm als zs), Permutation_cons_append.
      now rewrite <- app_assoc.
    + rewrite Hperm2, Hperm1, app_nil_r. apply Permutation_app_comm.
  - intros i z Hi Hz.
    assert (m2 !! name "zero" i = Some z) as Hm2.
    { rewrite Hout2.
      - apply Hin1; [|exact Hz]. apply elem_of_seqZ. lia.
      - intros j _. apply name_zero_alpha. }
    destruct (Jaeger opts); [|exact Hm2].
    rewrite lookup_insert_ne; [exact Hm2|].
    intros E. symmetry in E. now apply name_zero_jaeger in E.
  - intros i a Hi Ha.
    assert (m2 !! name "alpha" i = Some a) as Hm2.
    { apply Hin2; [|exact Ha]. apply elem_of_seqZ. lia. }
    destruct (Jaeger opts); [|exact Hm2].
    rewrite lookup_insert_ne; [exact Hm2|].
    intros E. symmetry in E. now apply name_alpha_jaeger in E.
  - destruct (Jaeger opts); [apply lookup_insert_eq | exact Hj].
Qed.

(** The option sets that pass every fatal check of [main]. *)
Definition valid (opts : Options) : Prop :=
  1 <= NumZeros opts <= 99
  /\ 1 <= NumAlphas opts <= 99
  /\ 1024 <= LruSizeMB opts
  /\ (DataVol opts = true -> DataDir opts = "")
  /\ (UserOwnership opts = true -> DataDir opts <> "").

(** The flag defaults of the command line, and a system with a known user
    on which every file can be created. *)
Definition default_opts : Options :=
  {| NumZeros := 3; NumAlphas := 3; NumGroups := 1; LruSizeMB := 1024;
     EnterpriseMode := false; AclSecret := ""; DataDir := "";
     DataVol := false; opt_TempFS := false; UserOwnership := false;
     Jaeger := false; TestPortRange := true; Verbosity := 2;
     OutFile := "./docker-compose.yml" |}.

Definition env0 : Env :=
  {| user_Current := Ok "1000"; os_Create := fun _ => None |}.

Lemma valid_default_opts : valid default_opts.
Proof. unfold valid; cbn. repeat split; try lia; discriminate. Defined.

Lemma user_known_env0 (opts : Options) : user_known env0 opts.
Proof. intros _. exists "1000". reflexivity. Defined.

(** C1: for every valid option set (node counts in 1..99) the builder
    returns a document whose service map holds exactly one record per zero
    index 1..NumZeros, named [zero<i>], exactly one per alpha index
    1..NumAlphas, named [alpha<i>], and the [jaeger] record exactly when the
    Jaeger toggle is set; the names are pairwise distinct. *)
Theorem builder_emits_one_record_per_node env opts :
  valid opts -> user_known env opts ->
  exists cfg zs als,
    build env opts = ([], Return cfg)
    /\ map_to_list (Services cfg) ≡ₚ (zs ++ als ++ jaeger_records opts)%list
    /\ Forall2 (record_of (getZero env opts) "zero")
         (seqZ 1 (NumZeros opts)) zs
    /\ Forall2 (record_of (getAlpha env opts) "alpha")
         (seqZ 1 (NumAlphas opts)) als
    /\ Z.of_nat (length zs) = NumZeros opts
    /\ Z.of_nat (length als) = NumAlphas opts
    /\ jaeger_records opts
       = (if Jaeger opts then [("jaeger", getJaeger)] else [])
    /\ NoDup (zs ++ als ++ jaeger_records opts).*1
    /\ Z.of_nat (size (Services cfg))
       = NumZeros opts + NumAlphas opts + (if Jaeger opts then 1 else 0).
Proof.
  intros (Hz & Ha & _) Hu.
  destruct (build_spec env opts Hu)
    as (cfg & zs & als & Hrun & Hzs & Hals & Hperm & _).
  exists cfg, zs, als.
  assert (Z.of_nat (length zs) = NumZeros opts) as Lz.
  { rewrite <- (Forall2_length _ _ _ Hzs), length_seqZ. lia. }
  assert (Z.of_nat (length als) = NumAlphas opts) as La.
  { rewrite <- (Forall2_length _ _ _ Hals), length_seqZ. lia. }
  repeat split; auto.
  - rewrite <- Hperm. apply NoDup_fst_map_to_list.
  - rewrite <- length_map_to_list, Hperm, !length_app.
    unfold jaeger_records. destruct (Jaeger opts); cbn [length]; lia.
Qed.

Lemma builder_emits_one_record_per_node_witness :
  exists cfg zs als,
    build env0 default_opts = ([], Return cfg)
    /\ map_to_list (Services cfg)
       ≡ₚ (zs ++ als ++ jaeger_records default_opts)%list
    /\ Forall2 (record_of (getZero env0 default_opts) "zero")
         (seqZ 1 (NumZeros default_opts)) zs
    /\ Forall2 (record_of (getAlpha env0 default_opts) "alpha")
         (seqZ 1 (NumAlphas default_opts)) als
    /\ Z.of_nat (length zs) = NumZeros default_opts
    /\ Z.of_nat (length als) = NumAlphas default_opts
    /\ jaeger_records default_opts
       = (if Jaeger default_opts then [("jaeger", getJaeger)] else [])
    /\ NoDup (zs ++ als ++ jaeger_records default_opts).*1
    /\ Z.of_nat (size (Services cfg))
       = NumZeros default_opts + NumAlphas default_opts
         + (if Jaeger default_opts then 1 else 0).
Proof.
  apply (builder_emits_one_record_per_node env0 default_opts).
  - exact valid_default_opts.
  - exact (user_known_env0 default_opts).
Defined.

(** ** Ports *)

Lemma contains_refl (p : string) : contains p p = true.
Proof. rewrite <- (str_app_nil_r p) at 2. apply contains_here. Qed.

(** Walks down the appends of a command line, looking for the piece that
    is the flag or, when both are literals, contains it. *)
Ltac is_literal s :=
  lazymatch s with
  | EmptyString => idtac
  | String _ ?s' => is_literal s'
  end.

Ltac contains_search :=
  lazymatch goal with
  | |- contains ?p ?p = true => apply contains_refl
  | |- contains ?p (?s +:+ ?t) = true =>
      first [ constr_eq t p; apply contains_app_r, contains_refl
            | is_literal p; is_literal t; apply contains_app_r; reflexivity
            | apply contains_app_l; contains_search ]
  | |- contains ?p ?t = true => is_literal p; is_literal t; reflexivity
  end.

Lemma getOffset_range (i : Z) : 1 <= i <= 99 -> 0 <= getOffset i <= 99.
Proof. unfold getOffset. destruct (Z.eqb_spec i 1); lia. Qed.

Lemma zero_grpcPort_eq (i : Z) :
  1 <= i <= 99 -> zero_grpcPort i = 5080 + (if i =? 1 then 0 else i).
Proof.
  intros Hi. pose proof (getOffset_range i Hi) as Ho.
  unfold zero_grpcPort, zeroBasePort. rewrite int_add_small by lia.
  reflexivity.
Qed.

Lemma alpha_baseOffset_eq (opts : Options) :
  alpha_baseOffset opts = if TestPortRange opts then 100 else 0.
Proof. unfold alpha_baseOffset. now destruct (TestPortRange opts). Qed.

Lemma alpha_internalPort_eq (opts : Options) (i : Z) :
  1 <= i <= 99 ->
  alpha_internalPort opts i
  = 7080 + (if TestPortRange opts then 100 else 0)
    + (if i =? 1 then 0 else i).
Proof.
  intros Hi. pose proof (getOffset_range i Hi) as Ho.
  unfold alpha_internalPort, alphaBasePort. rewrite alpha_baseOffset_eq.
  unfold getOffset in *.
  destruct (TestPortRange opts), (i =? 1);
    (rewrite (int_add_small 7080) by lia); (rewrite ?int_add_small by lia);
    lia.
Qed.

Lemma alpha_grpcPort_eq (opts : Options) (i : Z) :
  1 <= i <= 99 -> alpha_grpcPort opts i = alpha_internalPort opts i + 1000.
Proof.
  intros Hi. unfold alpha_grpcPort.
  rewrite (alpha_internalPort_eq opts i Hi).
  destruct (TestPortRange opts), (i =? 1); rewrite int_add_small; lia.
Qed.

(** C2: for each role and index [i] in 1..99 the port of the service is its
    role's base (5080 for zeros, 7080 for alphas) plus 0 for index 1 and [i]
    for a later index, and for alphas plus 100 under the test port range.
    This is the port of the [--my] flag. A zero exposes it and the port 1000
    above it; an alpha exposes the ports 1000 and 2000 above it. *)
Theorem port_derivation env opts i :
  user_known env opts -> 1 <= i <= 99 ->
  let offset := if i =? 1 then 0 else i in
  let zport := 5080 + offset in
  let aport := 7080 + (if TestPortRange opts then 100 else 0) + offset in
  (exists z,
     getZero env opts i = ([], Return z)
     /\ contains (" --my=" +:+ name "zero" i +:+ ":" +:+ fmt_d zport)
          (Command z) = true
     /\ Ports z = [toExposedPort zport; toExposedPort (zport + 1000)])
  /\ (exists a,
     getAlpha env opts i = ([], Return a)
     /\ contains (" --my=" +:+ name "alpha" i +:+ ":" +:+ fmt_d aport)
          (Command a) = true
     /\ Ports a = [toExposedPort (aport + 1000);
                   toExposedPort (aport + 1000 + 1000)]).
Proof.
  intros Hu Hi offset zport aport.
  assert (0 <= offset <= 99) as Ho by (apply (getOffset_range i Hi)).
  split.
  - destruct (getZero_returns env opts i Hu) as (z & Hz & _ & Hp & _ & Hc).
    exists z. split; [exact Hz|].
    rewrite Hp, Hc. unfold zero_Command.
    rewrite (zero_grpcPort_eq i Hi). fold offset. fold zport. split.
    + contains_search.
    + rewrite int_add_small by (unfold zport; lia). reflexivity.
  - destruct (getAlpha_returns env opts i Hu) as (a & Hz & _ & Hp & _ & Hc).
    exists a. split; [exact Hz|].
    rewrite Hp, Hc, (alpha_grpcPort_eq opts i Hi). unfold alpha_Command.
    rewrite (alpha_internalPort_eq opts i Hi). fold offset. fold aport.
    assert (7080 <= aport <= 7279) as Hr
      by (unfold aport; destruct (TestPortRange opts); lia).
    split.
    + destruct (EnterpriseMode opts), (bool_decide (AclSecret opts ≠ ""));
        contains_search.
    + rewrite int_add_small by lia. reflexivity.
Qed.

Lemma port_derivation_witness :
  (exists z,
     getZero env0 default_opts 2 = ([], Return z)
     /\ contains " --my=zero2:5082" (Command z) = true
     /\ Ports z = ["5082:5082"; "6082:6082"])
  /\ (exists a,
     getAlpha env0 default_opts 2 = ([], Return a)
     /\ contains " --my=alpha2:7182" (Command a) = true
     /\ Ports a = ["8182:8182"; "9182:9182"]).
Proof.
  apply (port_derivation env0 default_opts 2).
  - exact (user_known_env0 default_opts).
  - lia.
Defined.

Lemma exposed_ports_disjoint (p q : Z) (r : string) (ps qs : list string) :
  ps = [toExposedPort p; toExposedPort (p + 1000)] ->
  qs = [toExposedPort q; toExposedPort (q + 1000)] ->
  -999 <= p - q <= 999 ->
  r ∈ ps -> r ∈ qs -> p = q.
Proof.
  intros -> -> Hpq Hp Hq.
  apply elem_of_cons in Hp as [->|Hp]; [|apply list_elem_of_singleton in Hp as ->];
    (apply elem_of_cons in Hq as [Hq|Hq];
     [|apply list_elem_of_singleton in Hq]);
    apply toExposedPort_inj in Hq; lia.
Qed.

(** C3: with node counts in 1..99 and any toggles, distinct zero indices get
    distinct ports, and so do distinct alpha indices: the derived port
    numbers are injective in the index, and the exposed port lists of two
    records of one role share no entry unless the indices are equal. *)
Theorem ports_injective env opts i j :
  user_known env opts ->
  1 <= NumZeros opts <= 99 -> 1 <= NumAlphas opts <= 99 ->
  (1 <= i <= NumZeros opts -> 1 <= j <= NumZeros opts ->
   (zero_grpcPort i = zero_grpcPort j -> i = j)
   /\ exists zi zj,
        getZero env opts i = ([], Return zi)
        /\ getZero env opts j = ([], Return zj)
        /\ forall p, p ∈ Ports zi -> p ∈ Ports zj -> i = j)
  /\ (1 <= i <= NumAlphas opts -> 1 <= j <= NumAlphas opts ->
   (alpha_internalPort opts i = alpha_internalPort opts j -> i = j)
   /\ (alpha_grpcPort opts i = alpha_grpcPort opts j -> i = j)
   /\ exists ai aj,
        getAlpha env opts i = ([], Return ai)
        /\ getAlpha env opts j = ([], Return aj)
        /\ forall p, p ∈ Ports ai -> p ∈ Ports aj -> i = j).
Proof.
  intros Hu Hz Ha. split.
  - intros Hi Hj.
    assert (1 <= i <= 99) as Hi' by lia. assert (1 <= j <= 99) as Hj' by lia.
    pose proof (zero_grpcPort_eq i Hi') as Ei.
    pose proof (zero_grpcPort_eq j Hj') as Ej.
    assert (zero_grpcPort i = zero_grpcPort j -> i = j) as Hinj.
    { rewrite Ei, Ej.
      destruct (Z.eqb_spec i 1), (Z.eqb_spec j 1); lia. }
    split; [exact Hinj|].
    destruct (getZero_returns env opts i Hu) as (zi & Hzi & _ & Hpi & _).
    destruct (getZero_returns env opts j Hu) as (zj & Hzj & _ & Hpj & _).
    exists zi, zj. repeat split; auto. intros p Hp Hq. apply Hinj.
    rewrite int_add_small in Hpi, Hpj
      by (rewrite ?Ei, ?Ej; destruct (i =? 1), (j =? 1); lia).
    apply (exposed_ports_disjoint _ _ p _ _ Hpi Hpj); auto.
    rewrite Ei, Ej. destruct (i =? 1), (j =? 1); lia.
  - intros Hi Hj.
    assert (1 <= i <= 99) as Hi' by lia. assert (1 <= j <= 99) as Hj' by lia.
    pose proof (alpha_internalPort_eq opts i Hi') as Ei.
    pose proof (alpha_internalPort_eq opts j Hj') as Ej.
    pose proof (alpha_grpcPort_eq opts i Hi') as Gi.
    pose proof (alpha_grpcPort_eq opts j Hj') as Gj.
    assert (alpha_internalPort opts i = alpha_internalPort opts j -> i = j)
      as Hinj.
    { rewrite Ei, Ej.
      destruct (Z.eqb_spec i 1), (Z.eqb_spec j 1); lia. }
    split; [exact Hinj|]. split; [rewrite Gi, Gj; intros; apply Hinj; lia|].
    destruct (getAlpha_returns env opts i Hu) as (ai & Hai & _ & Hpi & _).
    destruct (getAlpha_returns env opts j Hu) as (aj & Haj & _ & Hpj & _).
    exists ai, aj. repeat split; auto. intros p Hp Hq. apply Hinj.
    assert (7080 <= alpha_internalPort opts i <= 7279
            /\ 7080 <= alpha_internalPort opts j <= 7279) as [Ri Rj].
    { rewrite Ei, Ej.
      destruct (TestPortRange opts), (i =? 1), (j =? 1); lia. }
    rewrite int_add_small in Hpi, Hpj by lia.
    pose proof (exposed_ports_disjoint _ _ p _ _ Hpi Hpj) as D.
    lapply D; [intros D'; specialize (D' Hp Hq)|]; lia.
Qed.

Lemma ports_injective_witness :
  ((zero_grpcPort 2 = zero_grpcPort 3 -> 2 = 3)
   /\ exists zi zj,
        getZero env0 default_opts 2 = ([], Return zi)
        /\ getZero env0 default_opts 3 = ([], Return zj)
        /\ forall p, p ∈ Ports zi -> p ∈ Ports zj -> 2 = 3)
  /\ ((alpha_internalPort default_opts 2 = alpha_internalPort default_opts 3
       -> 2 = 3)
   /\ (alpha_grpcPort default_opts 2 = alpha_grpcPort default_opts 3
       -> 2 = 3)
   /\ exists ai aj,
        getAlpha env0 default_opts 2 = ([], Return ai)
        /\ getAlpha env0 default_opts 3 = ([], Return aj)
        /\ forall p, p ∈ Ports ai -> p ∈ Ports aj -> 2 = 3).
Proof.
  assert (1 <= 3 <= 99) as H3 by lia.
  assert (1 <= 2 <= 3) as H23 by lia.
  assert (1 <= 3 <= 3) as H33 by lia.
  destruct (ports_injective env0 default_opts 2 3
              (user_known_env0 default_opts) H3 H3) as [Hz Ha].
  split; [exact (Hz H23 H33) | exact (Ha H23 H33)].
Defined.

(** C10: for every valid option set and every alpha index [i] in
    1..NumAlphas, the record of alpha [i] in the document has a command line
    that contains [--zero=zero1:5080], whatever NumZeros, [i] and the test
    port range are. *)
Theorem every_alpha_points_to_zero1 env opts i :
  valid opts -> user_known env opts -> 1 <= i <= NumAlphas opts ->
  exists cfg a,
    build env opts = ([], Return cfg)
    /\ Services cfg !! name "alpha" i = Some a
    /\ getAlpha env opts i = ([], Return a)
    /\ contains "--zero=zero1:5080" (Command a) = true.
Proof.
  intros _ Hu Hi.
  destruct (build_spec env opts Hu)
    as (cfg & zs & als & Hrun & _ & _ & _ & _ & Hal & _).
  destruct (getAlpha_returns env opts i Hu) as (a & Ha & _ & _ & _ & Hc).
  exists cfg, a. repeat split; auto.
  rewrite Hc. unfold alpha_Command.
  change (" --zero=zero1:" +:+ fmt_d zeroBasePort) with " --zero=zero1:5080".
  destruct (EnterpriseMode opts), (bool_decide (AclSecret opts ≠ ""));
    contains_search.
Qed.

Lemma every_alpha_points_to_zero1_witness :
  exists cfg a,
    build env0 default_opts = ([], Return cfg)
    /\ Services cfg !! name "alpha" 3 = Some a
    /\ getAlpha env0 default_opts 3 = ([], Return a)
    /\ contains "--zero=zero1:5080" (Command a) = true.
Proof.
  apply (every_alpha_points_to_zero1 env0 default_opts 3).
  - exact valid_default_opts.
  - exact (user_known_env0 default_opts).
  - cbn. lia.
Defined.

(** ** Option resolution *)

Definition acl_forces_enterprise (opts : Options) : bool :=
  bool_decide (AclSecret opts ≠ "") && negb (EnterpriseMode opts).

(** The option set the builder reads after the sanity checks. *)
Definition resolved (opts : Options) : Options :=
  if acl_forces_enterprise opts then set_EnterpriseMode true opts else opts.

Definition acl_warning : string :=
  "compose: adding --enterprise because it is required by ACL feature
".

Definition acl_warnings (opts : Options) : list string :=
  if acl_forces_enterprise opts then [acl_warning] else [].

Definition fatal_line (msg : string) : string := "compose: " +:+ msg +:+ "
".

Definition msg_zeros : string := "number of zeros must be 1-99".
Definition msg_alphas : string := "number of alphas must be 1-99".
Definition msg_lru : string := "LRU cache size must be >= 1024 MB".
Definition msg_volumes : string :=
  "only one of --data_vol and --data_dir may be used at a time".
Definition msg_user : string := "--user option requires --data_dir=<path>".

Definition fatal_messages : list string :=
  [msg_zeros; msg_alphas; msg_lru; msg_volumes; msg_user].

(** The sanity checks as a decision table. *)
Lemma sanity_checks_table (opts : Options) :
  sanity_checks opts =
  if (NumZeros opts <? 1) || (99 <? NumZeros opts)
  then ([fatal_line msg_zeros], Exit1)
  else if (NumAlphas opts <? 1) || (99 <? NumAlphas opts)
  then ([fatal_line msg_alphas], Exit1)
  else if LruSizeMB opts <? 1024
  then ([fatal_line msg_lru], Exit1)
  else if DataVol opts && bool_decide (DataDir opts ≠ "")
  then ((acl_warnings opts ++ [fatal_line msg_volumes])%list, Exit1)
  else if UserOwnership opts && bool_decide (DataDir opts = "")
  then ((acl_warnings opts ++ [fatal_line msg_user])%list, Exit1)
  else (acl_warnings opts, Return (resolved opts)).
Proof.
  unfold sanity_checks, acl_warnings, resolved, acl_forces_enterprise.
  destruct ((NumZeros opts <? 1) || (99 <? NumZeros opts)); [reflexivity|].
  destruct ((NumAlphas opts <? 1) || (99 <? NumAlphas opts)); [reflexivity|].
  destruct (LruSizeMB opts <? 1024); [reflexivity|].
  destruct (bool_decide (AclSecret opts ≠ "") && negb (EnterpriseMode opts));
    cbn;
    destruct (DataVol opts && bool_decide (DataDir opts ≠ "")); try reflexivity;
    destruct (UserOwnership opts && bool_decide (DataDir opts = ""));
    reflexivity.
Qed.

Lemma valid_tests (opts : Options) :
  valid opts ->
  (NumZeros opts <? 1) || (99 <? NumZeros opts) = false
  /\ (NumAlphas opts <? 1) || (99 <? NumAlphas opts) = false
  /\ (LruSizeMB opts <? 1024) = false
  /\ DataVol opts && bool_decide (DataDir opts ≠ "") = false
  /\ UserOwnership opts && bool_decide (DataDir opts = "") = false.
Proof.
  intros (Hz & Ha & Hl & Hd & Hu).
  repeat split.
  - apply orb_false_iff; split; apply Z.ltb_ge; lia.
  - apply orb_false_iff; split; apply Z.ltb_ge; lia.
  - apply Z.ltb_ge; lia.
  - destruct (DataVol opts); [|reflexivity].
    cbn. apply bool_decide_eq_false. intros H. now apply H, Hd.
  - destruct (UserOwnership opts); [|reflexivity].
    cbn. apply bool_decide_eq_false. now apply Hu.
Qed.

Lemma sanity_checks_valid (opts : Options) :
  valid opts ->
  sanity_checks opts = (acl_warnings opts, Return (resolved opts)).
Proof.
  intros Hv. destruct (valid_tests opts Hv) as (T1 & T2 & T3 & T4 & T5).
  rewrite sanity_checks_table, T1, T2, T3, T4, T5. reflexivity.
Qed.

Lemma valid_resolved (opts : Options) : valid opts -> valid (resolved opts).
Proof.
  unfold resolved. destruct (acl_forces_enterprise opts); auto.
Qed.

Lemma user_known_resolved env (opts : Options) :
  user_known env opts -> user_known env (resolved opts).
Proof.
  unfold resolved. destruct (acl_forces_enterprise opts); auto.
Qed.

(** The option sets of C5: both volume sources, a node count out of range,
    or user ownership without a host data directory. *)
Definition rejected (opts : Options) : Prop :=
  (DataVol opts = true /\ DataDir opts <> "")
  \/ ~ (1 <= NumZeros opts <= 99)
  \/ ~ (1 <= NumAlphas opts <= 99)
  \/ (UserOwnership opts = true /\ DataDir opts = "").

Lemma sanity_checks_rejected (opts : Options) :
  rejected opts ->
  exists w msg,
    sanity_checks opts = ((w ++ [fatal_line msg])%list, Exit1)
    /\ msg ∈ fatal_messages
    /\ (w = [] \/ w = [acl_warning])
    /\ (~ (1 <= NumZeros opts <= 99) -> w = [] /\ msg = msg_zeros)
    /\ (1 <= NumZeros opts <= 99 -> ~ (1 <= NumAlphas opts <= 99) ->
        w = [] /\ msg = msg_alphas)
    /\ (1 <= NumZeros opts <= 99 -> 1 <= NumAlphas opts <= 99 ->
        1024 <= LruSizeMB opts ->
        DataVol opts = true -> DataDir opts <> "" -> msg = msg_volumes)
    /\ (1 <= NumZeros opts <= 99 -> 1 <= NumAlphas opts <= 99 ->
        1024 <= LruSizeMB opts ->
        ~ (DataVol opts = true /\ DataDir opts <> "") ->
        UserOwnership opts = true -> DataDir opts = "" -> msg = msg_user).
Proof.
  intros Hr. rewrite sanity_checks_table. unfold fatal_messages.
  assert (forall m : string, m ∈ [msg_zeros; msg_alphas; msg_lru; msg_volumes;
                                  msg_user]
          <-> m = msg_zeros \/ m = msg_alphas \/ m = msg_lru
              \/ m = msg_volumes \/ m = msg_user) as Hmem.
  { intros m. rewrite !elem_of_cons, elem_of_nil. tauto. }
  assert (acl_warnings opts = [] \/ acl_warnings opts = [acl_warning]) as Hw.
  { unfold acl_warnings. destruct (acl_forces_enterprise opts); auto. }
  destruct (Z.ltb_spec (NumZeros opts) 1); cbn [orb].
  { exists [], msg_zeros. rewrite Hmem.
    repeat split; try solve [auto | intros; lia | intros; split; reflexivity]. }
  destruct (Z.ltb_spec 99 (NumZeros opts)); cbn [orb].
  { exists [], msg_zeros. rewrite Hmem.
    repeat split; try solve [auto | intros; lia | intros; split; reflexivity]. }
  destruct (Z.ltb_spec (NumAlphas opts) 1); cbn [orb].
  { exists [], msg_alphas. rewrite Hmem.
    repeat split; try solve [auto | intros; lia | intros; split; reflexivity]. }
  destruct (Z.ltb_spec 99 (NumAlphas opts)); cbn [orb].
  { exists [], msg_alphas. rewrite Hmem.
    repeat split; try solve [auto | intros; lia | intros; split; reflexivity]. }
  destruct (Z.ltb_spec (LruSizeMB opts) 1024).
  { exists [], msg_lru. rewrite Hmem.
    repeat split; try solve [auto 6 | intros; lia]. }
  destruct (DataVol opts) eqn:Ev; cbn [andb].
  - destruct (bool_decide (DataDir opts ≠ "")) eqn:Ed.
    + apply bool_decide_eq_true in Ed.
      exists (acl_warnings opts), msg_volumes. rewrite Hmem.
      repeat split;
        try solve [auto 6 | intros; lia | intros; intuition congruence].
    + apply bool_decide_eq_false in Ed.
      assert (DataDir opts = "") as Ee
        by (destruct (decide (DataDir opts = "")); tauto).
      destruct (UserOwnership opts) eqn:Eu; cbn [andb].
      * rewrite bool_decide_eq_true_2 by exact Ee.
        exists (acl_warnings opts), msg_user. rewrite Hmem.
        repeat split;
          try solve [auto 6 | intros; lia | intros; intuition congruence].
      * exfalso. destruct Hr as [[_ ?]|[?|[?|[? _]]]];
          try congruence; lia.
  - destruct (UserOwnership opts) eqn:Eu; cbn [andb].
    + destruct (bool_decide (DataDir opts = "")) eqn:Ed.
      * exists (acl_warnings opts), msg_user. rewrite Hmem.
        repeat split;
          try solve [auto 6 | intros; lia | intros; intuition congruence].
      * apply bool_decide_eq_false in Ed. exfalso.
        destruct Hr as [[? _]|[?|[?|[_ ?]]]]; try congruence; lia.
    + exfalso. destruct Hr as [[? _]|[?|[?|[? _]]]]; try congruence; lia.
Qed.

(** *** Flags that do not occur *)

(** [p] and [s] differ at a position that both have. *)
Fixpoint mismatch (p s : string) : bool :=
  match p, s with
  | String a p', String b s' => if Ascii.eqb a b then mismatch p' s' else true
  | _, _ => false
  end.

(** No occurrence of [p] starts inside [s], whatever follows [s]. *)
Fixpoint skippable (p s : string) : bool :=
  match s with
  | EmptyString => true
  | String _ s' => mismatch p s && skippable p s'
  end.

(** No occurrence of [p] starts inside a numeral: [p] does not start with a
    digit, nor with a minus sign followed by a digit. *)
Definition starts_no_numeral (p : string) : bool :=
  match p with
  | EmptyString => false
  | String a EmptyString => negb (is_num_char a)
  | String a (String b _) =>
      negb (is_digit a) && (negb (Ascii.eqb a "-") || negb (is_digit b))
  end.

Lemma mismatch_prefix (p s t : string) :
  mismatch p s = true -> String.prefix p (s +:+ t) = false.
Proof.
  revert s. induction p as [|a p IH]; intros [|b s] H; try discriminate.
  cbn in *. destruct (Ascii.eqb_spec a b) as [->|Hab].
  - destruct (ascii_dec b b); [auto | congruence].
  - destruct (ascii_dec a b); [congruence | reflexivity].
Qed.

Lemma contains_skip (p s t : string) :
  skippable p s = true -> contains p (s +:+ t) = contains p t.
Proof.
  induction s as [|c s IH]; [reflexivity|].
  intros [Hm Hs]%andb_true_iff.
  change (String c s +:+ t) with (String c (s +:+ t)).
  rewrite contains_unfold.
  change (String c (s +:+ t)) with (String c s +:+ t).
  rewrite (mismatch_prefix _ _ t Hm). cbn. auto.
Qed.

Lemma contains_skip_digits (p s t : string) :
  match p with String a _ => is_digit a = false | EmptyString => False end ->
  all_chars is_digit s = true ->
  contains p (s +:+ t) = contains p t.
Proof.
  intros Hp. induction s as [|d s IH]; [reflexivity|].
  intros [Hd Hs]%andb_true_iff.
  change (String d s +:+ t) with (String d (s +:+ t)).
  rewrite contains_unfold, (IH Hs).
  destruct p as [|a p]; [contradiction|]. cbn.
  destruct (ascii_dec a d) as [->|]; [congruence | reflexivity].
Qed.

Lemma contains_skip_fmt_d (p : string) (z : Z) (t : string) :
  starts_no_numeral p = true ->
  contains p (fmt_d z +:+ t) = contains p t.
Proof.
  intros Hp. destruct (fmt_d_shape z) as (s & Hs & Hne & ->).
  assert (match p with String a _ => is_digit a = false
                     | EmptyString => False end) as Hd.
  { destruct p as [|a [|b p]]; cbn in Hp; [discriminate| |].
    - unfold is_num_char in Hp. now destruct (is_digit a).
    - now destruct (is_digit a). }
  destruct (z <? 0); [|now apply contains_skip_digits].
  change ("-" +:+ s) with (String "-" s).
  change (String "-" s +:+ t) with (String "-" (s +:+ t)).
  rewrite contains_unfold, (contains_skip_digits p s t Hd Hs).
  replace (String.prefix p (String "-" (s +:+ t))) with false; [reflexivity|].
  destruct s as [|d s]; [congruence|].
  apply andb_true_iff in Hs as [Hs _].
  destruct p as [|a [|b p]]; cbn in Hp |- *; [discriminate| |].
  - destruct (ascii_dec a "-") as [->|]; [discriminate | reflexivity].
  - destruct (ascii_dec a "-") as [->|]; [|reflexivity].
    cbn in Hp. destruct (ascii_dec b d) as [->|]; [|reflexivity].
    rewrite Hs in Hp. discriminate.
Qed.

Lemma contains_skip_fmt_d_end (p : string) (z : Z) :
  starts_no_numeral p = true -> contains p (fmt_d z) = contains p "".
Proof.
  intros Hp. rewrite <- (str_app_nil_r (fmt_d z)).
  now apply contains_skip_fmt_d.
Qed.

(** Decides that a flag does not occur in a command line made of literal
    pieces and numerals. *)
Ltac contains_none_step :=
  lazymatch goal with
  | |- contains ?p (fmt_d ?z +:+ ?t) = false =>
      rewrite (contains_skip_fmt_d p z t) by reflexivity
  | |- contains ?p (fmt_d ?z) = false =>
      rewrite (contains_skip_fmt_d_end p z) by reflexivity
  | |- contains ?p (?s +:+ ?t) = false =>
      is_literal s; rewrite (contains_skip p s t) by reflexivity
  end.

Ltac contains_none :=
  unfold name; rewrite ?str_app_assoc;
  repeat contains_none_step;
  lazymatch goal with
  | |- contains ?p ?s = false => is_literal s; reflexivity
  end.

(** C5: an option set with both volume sources, with a node count outside
    1..99, or with user ownership but no host data directory is rejected:
    [main] writes one diagnostic line of a failed check to the error stream
    (after at most the ACL warning) and exits with status 1; it returns no
    output. The diagnostic is that of the first check that fails. *)
Theorem rejected_options_are_fatal yaml_Marshal env args opts :
  rejected opts ->
  exists w msg,
    main yaml_Marshal env args opts = ((w ++ [fatal_line msg])%list, Exit1)
    /\ msg ∈ fatal_messages
    /\ (w = [] \/ w = [acl_warning])
    /\ (~ (1 <= NumZeros opts <= 99) -> w = [] /\ msg = msg_zeros)
    /\ (1 <= NumZeros opts <= 99 -> ~ (1 <= NumAlphas opts <= 99) ->
        w = [] /\ msg = msg_alphas)
    /\ (1 <= NumZeros opts <= 99 -> 1 <= NumAlphas opts <= 99 ->
        1024 <= LruSizeMB opts ->
        DataVol opts = true -> DataDir opts <> "" -> msg = msg_volumes)
    /\ (1 <= NumZeros opts <= 99 -> 1 <= NumAlphas opts <= 99 ->
        1024 <= LruSizeMB opts ->
        ~ (DataVol opts = true /\ DataDir opts <> "") ->
        UserOwnership opts = true -> DataDir opts = "" -> msg = msg_user).
Proof.
  intros Hr.
  destruct (sanity_checks_rejected opts Hr) as (w & msg & Hs & H).
  exists w, msg. split; [|exact H].
  unfold main. rewrite Hs. reflexivity.
Qed.

(** Both [--data_vol] and [--data_dir=/srv/dgraph]. *)
Definition both_volumes_opts : Options :=
  {| NumZeros := 3; NumAlphas := 3; NumGroups := 1; LruSizeMB := 1024;
     EnterpriseMode := false; AclSecret := ""; DataDir := "/srv/dgraph";
     DataVol := true; opt_TempFS := false; UserOwnership := false;
     Jaeger := false; TestPortRange := true; Verbosity := 2;
     OutFile := "-" |}.

Lemma rejected_options_are_fatal_witness :
  exists w msg,
    main (fun _ => Ok "") env0 ["compose"] both_volumes_opts
    = ((w ++ [fatal_line msg])%list, Exit1)
    /\ msg ∈ fatal_messages
    /\ (w = [] \/ w = [acl_warning])
    /\ (~ (1 <= NumZeros both_volumes_opts <= 99) ->
        w = [] /\ msg = msg_zeros)
    /\ (1 <= NumZeros both_volumes_opts <= 99 ->
        ~ (1 <= NumAlphas both_volumes_opts <= 99) ->
        w = [] /\ msg = msg_alphas)
    /\ (1 <= NumZeros both_volumes_opts <= 99 ->
        1 <= NumAlphas both_volumes_opts <= 99 ->
        1024 <= LruSizeMB both_volumes_opts ->
        DataVol both_volumes_opts = true ->
        DataDir both_volumes_opts <> "" -> msg = msg_volumes)
    /\ (1 <= NumZeros both_volumes_opts <= 99 ->
        1 <= NumAlphas both_volumes_opts <= 99 ->
        1024 <= LruSizeMB both_volumes_opts ->
        ~ (DataVol both_volumes_opts = true
           /\ DataDir both_volumes_opts <> "") ->
        UserOwnership both_volumes_opts = true ->
        DataDir both_volumes_opts = "" -> msg = msg_user).
Proof.
  apply (rejected_options_are_fatal (fun _ => Ok "") env0 ["compose"]
           both_volumes_opts).
  left. split; [reflexivity | discriminate].
Defined.

(** An ACL secret, enterprise mode off, and no zero at all. *)
Definition acl_no_zeros_opts : Options :=
  {| NumZeros := 0; NumAlphas := 3; NumGroups := 1; LruSizeMB := 1024;
     EnterpriseMode := false; AclSecret := "/tmp/hmac"; DataDir := "";
     DataVol := false; opt_TempFS := false; UserOwnership := false;
     Jaeger := false; TestPortRange := true; Verbosity := 2;
     OutFile := "-" |}.

(** C4, as stated, fails where an earlier check rejects the options: with
    an ACL secret, enterprise mode off and NumZeros = 0 the run ends at the
    first check; no warning is written and no option set is returned. *)
Lemma acl_warning_not_reached_counterexample :
  AclSecret acl_no_zeros_opts <> ""
  /\ EnterpriseMode acl_no_zeros_opts = false
  /\ sanity_checks acl_no_zeros_opts = ([fatal_line msg_zeros], Exit1)
  /\ acl_warning ∉ stderr_of (sanity_checks acl_no_zeros_opts).
Proof.
  split; [discriminate|]. split; [reflexivity|]. split; [reflexivity|].
  cbn. intros H. apply list_elem_of_singleton in H. discriminate H.
Qed.

Definition acl_flags : string :=
  " --acl_secret_file=/secret/hmac --acl_access_ttl 10s".

(** C4, amended: for every option set with an ACL secret and enterprise
    mode off that passes the node-count and cache-size checks, the sanity
    checks write the warning first; when the remaining checks pass too they
    write nothing else and return the options with enterprise mode on, and
    every alpha record of the document built from them has a command line
    with [--enterprise_features] and the ACL flags, and mounts the secret
    read-only. *)
Theorem acl_secret_forces_enterprise env opts :
  AclSecret opts <> "" -> EnterpriseMode opts = false ->
  1 <= NumZeros opts <= 99 -> 1 <= NumAlphas opts <= 99 ->
  1024 <= LruSizeMB opts ->
  (exists rest, stderr_of (sanity_checks opts) = acl_warning :: rest)
  /\ (valid opts -> user_known env opts ->
      sanity_checks opts
      = ([acl_warning], Return (set_EnterpriseMode true opts))
      /\ exists cfg,
           build env (set_EnterpriseMode true opts) = ([], Return cfg)
           /\ forall i, 1 <= i <= NumAlphas opts ->
                exists a,
                  Services cfg !! name "alpha" i = Some a
                  /\ contains " --enterprise_features" (Command a) = true
                  /\ contains acl_flags (Command a) = true
                  /\ secret_volume (AclSecret opts) ∈ Volumes a
                  /\ ReadOnly (secret_volume (AclSecret opts)) = true).
Proof.
  intros Hs He Hz Ha Hl.
  assert (acl_forces_enterprise opts = true) as Hf.
  { unfold acl_forces_enterprise. rewrite He.
    now rewrite bool_decide_eq_true_2. }
  split.
  - rewrite sanity_checks_table. unfold acl_warnings. rewrite Hf.
    destruct (Z.ltb_spec (NumZeros opts) 1); [lia|].
    destruct (Z.ltb_spec 99 (NumZeros opts)); [lia|].
    destruct (Z.ltb_spec (NumAlphas opts) 1); [lia|].
    destruct (Z.ltb_spec 99 (NumAlphas opts)); [lia|].
    destruct (Z.ltb_spec (LruSizeMB opts) 1024); [lia|]. cbn [orb].
    destruct (DataVol opts && _); [cbn; eauto|].
    destruct (UserOwnership opts && _); cbn; eauto.
  - intros Hv Hu. split.
    + rewrite (sanity_checks_valid opts Hv). unfold acl_warnings, resolved.
      now rewrite Hf.
    + set (opts' := set_EnterpriseMode true opts).
      assert (user_known env opts') as Hu' by exact Hu.
      destruct (build_spec env opts' Hu')
        as (cfg & zs & als & Hrun & _ & _ & _ & _ & Hal & _).
      exists cfg. split; [exact Hrun|]. intros i Hi.
      destruct (getAlpha_returns env opts' i Hu')
        as (a & Hga & _ & _ & Hvol & Hc).
      exists a. split; [now apply Hal|].
      rewrite Hc, Hvol. unfold alpha_Command, alpha_Volumes, acl_flags.
      cbn [EnterpriseMode AclSecret opts' set_EnterpriseMode andb].
      rewrite bool_decide_eq_true_2 by exact Hs.
      repeat split; try contains_search.
      apply elem_of_app. right. now left.
Qed.

Definition acl_opts : Options := set_AclSecret "/tmp/hmac" default_opts.

Lemma valid_acl_opts : valid acl_opts.
Proof. unfold valid; cbn. repeat split; try lia; discriminate. Defined.

Lemma acl_secret_forces_enterprise_witness :
  (exists rest, stderr_of (sanity_checks acl_opts) = acl_warning :: rest)
  /\ sanity_checks acl_opts
     = ([acl_warning], Return (set_EnterpriseMode true acl_opts))
  /\ exists cfg,
       build env0 (set_EnterpriseMode true acl_opts) = ([], Return cfg)
       /\ forall i, 1 <= i <= NumAlphas acl_opts ->
            exists a,
              Services cfg !! name "alpha" i = Some a
              /\ contains " --enterprise_features" (Command a) = true
              /\ contains acl_flags (Command a) = true
              /\ secret_volume (AclSecret acl_opts) ∈ Volumes a
              /\ ReadOnly (secret_volume (AclSecret acl_opts)) = true.
Proof.
  assert (AclSecret acl_opts <> "") as Hs by discriminate.
  assert (1 <= 3 <= 99) as H3 by lia.
  assert (1024 <= 1024) as Hl by lia.
  destruct (acl_secret_forces_enterprise env0 acl_opts Hs eq_refl H3 H3 Hl)
    as [Hw Hrest].
  split; [exact Hw|].
  exact (Hrest valid_acl_opts (user_known_env0 acl_opts)).
Defined.

(** ** Zeros *)

(** [getZero] reads neither the ACL secret nor the enterprise toggle. *)
Lemma getZero_ext env (o1 o2 : Options) (i : Z) :
  NumAlphas o1 = NumAlphas o2 -> NumGroups o1 = NumGroups o2 ->
  DataDir o1 = DataDir o2 -> DataVol o1 = DataVol o2 ->
  opt_TempFS o1 = opt_TempFS o2 -> UserOwnership o1 = UserOwnership o2 ->
  Jaeger o1 = Jaeger o2 -> Verbosity o1 = Verbosity o2 ->
  getZero env o1 i = getZero env o2 i.
Proof.
  intros H1 H2 H3 H4 H5 H6 H7 H8. unfold getZero, initService, replicas.
  rewrite H1, H2, H3, H4, H5, H6, H7, H8. reflexivity.
Qed.

Lemma getZero_resolved_secret env (opts : Options) (s1 s2 : string) (i : Z) :
  getZero env (resolved (set_AclSecret s1 opts)) i
  = getZero env (resolved (set_AclSecret s2 opts)) i.
Proof.
  apply getZero_ext; unfold resolved;
    destruct (acl_forces_enterprise (set_AclSecret s1 opts)),
             (acl_forces_enterprise (set_AclSecret s2 opts)); reflexivity.
Qed.

Lemma init_Volumes_no_secret (opts : Options) (v : Volume) :
  v ∈ init_Volumes opts -> Target v <> "/secret/hmac".
Proof.
  unfold init_Volumes. intros [->|H]%elem_of_cons; [discriminate|].
  destruct (DataVol opts).
  - apply list_elem_of_singleton in H as ->. discriminate.
  - destruct (bool_decide (DataDir opts ≠ "")).
    + apply list_elem_of_singleton in H as ->. discriminate.
    + now apply elem_of_nil in H.
Qed.

Lemma zero_Command_no_acl (opts : Options) (i : Z) :
  contains "--acl_secret_file" (zero_Command opts i) = false
  /\ contains "--enterprise_features" (zero_Command opts i) = false.
Proof.
  unfold zero_Command, init_Command.
  destruct (UserOwnership opts), (Jaeger opts), (i =? 1);
    split; contains_none.
Qed.

Lemma zero1_Command_no_peer (opts : Options) :
  contains "--peer" (zero_Command opts 1) = false.
Proof.
  unfold zero_Command, init_Command. change (1 =? 1) with true. cbn iota.
  destruct (UserOwnership opts), (Jaeger opts); contains_none.
Qed.

Lemma valid_set_AclSecret (s : string) (opts : Options) :
  valid opts -> valid (set_AclSecret s opts).
Proof. auto. Qed.

(** C9: an ACL secret changes alpha records only. For every valid option
    set, [getZero] returns the same record with the secret as without it,
    the zero records of the two documents agree, and a zero record has no
    mount at [/secret/hmac] and neither the ACL flag nor the
    enterprise flag on its command line. *)
Theorem acl_secret_leaves_zeros_alone env opts secret i :
  valid opts -> user_known env opts -> 1 <= i <= NumZeros opts ->
  let with_secret := resolved (set_AclSecret secret opts) in
  let without := resolved (set_AclSecret "" opts) in
  outcome_of (sanity_checks (set_AclSecret secret opts)) = Return with_secret
  /\ outcome_of (sanity_checks (set_AclSecret "" opts)) = Return without
  /\ getZero env with_secret i = getZero env without i
  /\ exists cfg1 cfg2 z,
       build env with_secret = ([], Return cfg1)
       /\ build env without = ([], Return cfg2)
       /\ Services cfg1 !! name "zero" i = Some z
       /\ Services cfg2 !! name "zero" i = Some z
       /\ (forall v, v ∈ Volumes z -> Target v <> "/secret/hmac")
       /\ contains "--acl_secret_file" (Command z) = false
       /\ contains "--enterprise_features" (Command z) = false.
Proof.
  intros Hv Hu Hi with_secret without.
  assert (user_known env with_secret) as Hu1
    by (apply user_known_resolved; exact Hu).
  assert (user_known env without) as Hu2
    by (apply user_known_resolved; exact Hu).
  assert (NumZeros with_secret = NumZeros opts) as N1.
  { unfold with_secret, resolved.
    now destruct (acl_forces_enterprise (set_AclSecret secret opts)). }
  assert (NumZeros without = NumZeros opts) as N2.
  { unfold without, resolved.
    now destruct (acl_forces_enterprise (set_AclSecret "" opts)). }
  split; [now rewrite sanity_checks_valid by now apply valid_set_AclSecret|].
  split; [now rewrite sanity_checks_valid by now apply valid_set_AclSecret|].
  pose proof (getZero_resolved_secret env opts secret "" i) as Hsame.
  split; [exact Hsame|].
  destruct (build_spec env with_secret Hu1)
    as (cfg1 & _ & _ & Hrun1 & _ & _ & _ & Hz1 & _).
  destruct (build_spec env without Hu2)
    as (cfg2 & _ & _ & Hrun2 & _ & _ & _ & Hz2 & _).
  destruct (getZero_returns env with_secret i Hu1)
    as (z & Hz & _ & _ & Hvol & Hc).
  exists cfg1, cfg2, z. split; [exact Hrun1|]. split; [exact Hrun2|].
  split; [apply Hz1; [lia | exact Hz]|].
  split; [apply Hz2; [lia | fold with_secret without in Hsame; congruence]|].
  rewrite Hvol, Hc. split; [intros v; apply init_Volumes_no_secret|].
  apply zero_Command_no_acl.
Qed.

Lemma acl_secret_leaves_zeros_alone_witness :
  let with_secret := resolved (set_AclSecret "/tmp/hmac" default_opts) in
  let without := resolved (set_AclSecret "" default_opts) in
  outcome_of (sanity_checks (set_AclSecret "/tmp/hmac" default_opts))
  = Return with_secret
  /\ outcome_of (sanity_checks (set_AclSecret "" default_opts))
     = Return without
  /\ getZero env0 with_secret 2 = getZero env0 without 2
  /\ exists cfg1 cfg2 z,
       build env0 with_secret = ([], Return cfg1)
       /\ build env0 without = ([], Return cfg2)
       /\ Services cfg1 !! name "zero" 2 = Some z
       /\ Services cfg2 !! name "zero" 2 = Some z
       /\ (forall v, v ∈ Volumes z -> Target v <> "/secret/hmac")
       /\ contains "--acl_secret_file" (Command z) = false
       /\ contains "--enterprise_features" (Command z) = false.
Proof.
  apply (acl_secret_leaves_zeros_alone env0 default_opts "/tmp/hmac" 2).
  - exact valid_default_opts.
  - exact (user_known_env0 default_opts).
  - cbn. lia.
Defined.

(** C6: with NumZeros = 1 and NumAlphas = 1 the document holds exactly one
    zero record, [zero1], and exactly one alpha record, [alpha1] (and the
    jaeger record if asked for). The command line of [zero1] has
    [--my=zero1:5080] and [--bindall] and no [--peer]; that of [alpha1] has
    [--zero=zero1:5080]. *)
Theorem one_zero_one_alpha env opts :
  valid opts -> user_known env opts ->
  NumZeros opts = 1 -> NumAlphas opts = 1 ->
  exists cfg z a,
    build env opts = ([], Return cfg)
    /\ map_to_list (Services cfg)
       ≡ₚ ([("zero1", z); ("alpha1", a)] ++ jaeger_records opts)%list
    /\ getZero env opts 1 = ([], Return z)
    /\ getAlpha env opts 1 = ([], Return a)
    /\ Ports z = ["5080:5080"; "6080:6080"]
    /\ contains "--my=zero1:5080" (Command z) = true
    /\ contains "--bindall" (Command z) = true
    /\ contains "--peer" (Command z) = false
    /\ contains "--zero=zero1:5080" (Command a) = true.
Proof.
  intros _ Hu Hnz Hna.
  destruct (build_spec env opts Hu)
    as (cfg & zs & als & Hrun & Hzs & Hals & Hperm & _).
  rewrite Hnz in Hzs. rewrite Hna in Hals.
  change (seqZ 1 1) with [1] in Hzs, Hals.
  apply Forall2_cons_inv_l in Hzs as ([kz z] & zs' & (Ekz & _ & Hz) & Hnil & ->).
  apply Forall2_nil_inv_l in Hnil as ->.
  apply Forall2_cons_inv_l in Hals as ([ka a] & als' & (Eka & _ & Ha) & Hnil & ->).
  apply Forall2_nil_inv_l in Hnil as ->.
  cbn in Ekz, Eka, Hz, Ha. subst kz ka.
  change (name "zero" 1) with "zero1" in Hperm.
  change (name "alpha" 1) with "alpha1" in Hperm.
  exists cfg, z, a. split; [exact Hrun|]. split; [exact Hperm|].
  split; [exact Hz|]. split; [exact Ha|].
  destruct (getZero_returns env opts 1 Hu) as (z' & Hz' & _ & Hp & _ & Hc).
  destruct (getAlpha_returns env opts 1 Hu) as (a' & Ha' & _ & _ & _ & Hca).
  assert (z' = z) as -> by congruence. assert (a' = a) as -> by congruence.
  rewrite Hp, Hc, Hca. split; [reflexivity|].
  split; [|split; [|split]].
  - unfold zero_Command.
    change (" --my=" +:+ name "zero" 1 +:+ ":" +:+ fmt_d (zero_grpcPort 1))
      with " --my=zero1:5080".
    contains_search.
  - unfold zero_Command. change (1 =? 1) with true. cbn iota.
    contains_search.
  - apply zero1_Command_no_peer.
  - unfold alpha_Command.
    change (" --zero=zero1:" +:+ fmt_d zeroBasePort) with " --zero=zero1:5080".
    destruct (EnterpriseMode opts), (bool_decide (AclSecret opts ≠ ""));
      contains_search.
Qed.

Definition one_one_opts : Options :=
  {| NumZeros := 1; NumAlphas := 1; NumGroups := 1; LruSizeMB := 1024;
     EnterpriseMode := false; AclSecret := ""; DataDir := "";
     DataVol := false; opt_TempFS := false; UserOwnership := false;
     Jaeger := false; TestPortRange := true; Verbosity := 2;
     OutFile := "./docker-compose.yml" |}.

Lemma valid_one_one_opts : valid one_one_opts.
Proof. unfold valid; cbn. repeat split; try lia; discriminate. Defined.

Lemma one_zero_one_alpha_witness :
  exists cfg z a,
    build env0 one_one_opts = ([], Return cfg)
    /\ map_to_list (Services cfg)
       ≡ₚ ([("zero1", z); ("alpha1", a)] ++ jaeger_records one_one_opts)%list
    /\ getZero env0 one_one_opts 1 = ([], Return z)
    /\ getAlpha env0 one_one_opts 1 = ([], Return a)
    /\ Ports z = ["5080:5080"; "6080:6080"]
    /\ contains "--my=zero1:5080" (Command z) = true
    /\ contains "--bindall" (Command z) = true
    /\ contains "--peer" (Command z) = false
    /\ contains "--zero=zero1:5080" (Command a) = true.
Proof.
  apply (one_zero_one_alpha env0 one_one_opts).
  - exact valid_one_one_opts.
  - exact (user_known_env0 one_one_opts).
  - reflexivity.
  - reflexivity.
Defined.

(** ** Determinism *)








Lemma sanity_checks_returns opts w opts' :
  sanity_checks opts = (w, Return opts') ->
  opts' = resolved opts /\ w = acl_warnings opts.
Proof.
  rewrite sanity_checks_table.
  repeat match goal with
         | |- context [if ?c then _ else _] => destruct c; try discriminate
         end.
  now intros [= <- <-].
Qed.

Lemma OutFile_resolved opts : OutFile (resolved opts) = OutFile opts.
Proof. unfold resolved. now destruct (acl_forces_enterprise opts). Qed.





Lemma bind_Return {A B} (w : list string) (a : A) (f : A -> Proc B) :
  bind (w, Return a) f = ((w ++ stderr_of (f a))%list, outcome_of (f a)).
Proof. cbn. now destruct (f a). Qed.




(** The system of [env0], except that no file can be created. *)
Definition env0_readonly : Env :=
  {| user_Current := Ok "1000";
     os_Create := fun _ => Some "permission denied" |}.


(** * The document as a whole *)

(** ** The remaining fields of a record *)

Definition init_User (env : Env) (opts : Options) : string :=
  if UserOwnership opts then
    match user_Current env with
    | Ok uid => "${UID:-" +:+ uid +:+ "}"
    | Err _ => ""
    end
  else "".

Definition init_WorkingDir (opts : Options) (svcname : string) : string :=
  (if UserOwnership opts then "/working/" else "/data/") +:+ svcname.

Definition init_DependsOn (basename : string) (idx : Z) : list string :=
  if 1 <? idx then [name basename (int_sub idx 1)] else [].

Lemma initService_fields env opts basename idx grpcPort :
  user_known env opts ->
  exists svc,
    initService env opts basename idx grpcPort = ([], Return svc)
    /\ Image svc = "dgraph/dgraph:latest"
    /\ WorkingDir svc = init_WorkingDir opts (name basename idx)
    /\ DependsOn svc = init_DependsOn basename idx
    /\ Labels svc = {[ "cluster" := "test" ]}
    /\ Environment svc = []
    /\ TempFS svc = []
    /\ User svc = init_User env opts
    /\ svc_name svc = name basename idx
    /\ ContainerName svc = name basename idx.
Proof.
  intros Hu.
  unfold initService, init_User, init_WorkingDir, init_DependsOn,
    user_known in *.
  destruct (UserOwnership opts).
  - destruct Hu as [uid ->]; [reflexivity|].
    destruct (Jaeger opts); eexists; (split; [reflexivity|]);
      cbn; repeat split; reflexivity.
  - destruct (Jaeger opts); eexists; (split; [reflexivity|]);
      cbn; repeat split; reflexivity.
Qed.

Lemma getZero_fields env opts idx :
  user_known env opts ->
  exists z,
    getZero env opts idx = ([], Return z)
    /\ Image z = "dgraph/dgraph:latest"
    /\ WorkingDir z = init_WorkingDir opts (name "zero" idx)
    /\ DependsOn z = init_DependsOn "zero" idx
    /\ Labels z = {[ "cluster" := "test" ]}
    /\ Environment z = []
    /\ TempFS z = (if opt_TempFS opts
                   then ["/data/" +:+ name "zero" idx +:+ "/zw"] else [])
    /\ User z = init_User env opts
    /\ ContainerName z = name "zero" idx.
Proof.
  intros Hu. unfold getZero.
  destruct (initService_fields env opts "zero" idx (zero_grpcPort idx) Hu)
    as (svc & -> & Hi & Hw & Hd & Hl & He & Ht & Hus & Hn & Hcn).
  destruct svc; cbn in *; subst.
  destruct (opt_TempFS opts), (idx =? 1); eexists;
    (split; [reflexivity|]); cbn; repeat split; reflexivity.
Qed.

Lemma getAlpha_fields env opts idx :
  user_known env opts ->
  exists a,
    getAlpha env opts idx = ([], Return a)
    /\ Image a = "dgraph/dgraph:latest"
    /\ WorkingDir a = init_WorkingDir opts (name "alpha" idx)
    /\ DependsOn a = init_DependsOn "alpha" idx
    /\ Labels a = {[ "cluster" := "test" ]}
    /\ Environment a = []
    /\ TempFS a = (if opt_TempFS opts
                   then ["/data/" +:+ name "alpha" idx +:+ "/w"] else [])
    /\ User a = init_User env opts
    /\ ContainerName a = name "alpha" idx.
Proof.
  intros Hu. unfold getAlpha.
  destruct (initService_fields env opts "alpha" idx (alpha_grpcPort opts idx)
              Hu)
    as (svc & -> & Hi & Hw & Hd & Hl & He & Ht & Hus & Hn & Hcn).
  destruct svc; cbn in *; subst.
  destruct (opt_TempFS opts), (EnterpriseMode opts),
    (bool_decide (AclSecret opts ≠ "")); eexists;
    (split; [reflexivity|]); cbn; repeat split; reflexivity.
Qed.

(** ** The entries of the service map *)

(** [s] is the record that the builder stores under the key [k]. *)
Definition in_document (env : Env) (opts : Options)
    (k : string) (s : Service) : Prop :=
  (exists i, 1 <= i <= NumZeros opts /\ k = name "zero" i
             /\ getZero env opts i = ([], Return s))
  \/ (exists i, 1 <= i <= NumAlphas opts /\ k = name "alpha" i
                /\ getAlpha env opts i = ([], Return s))
  \/ (Jaeger opts = true /\ k = "jaeger" /\ s = getJaeger).

Lemma record_of_lookup get role (n : Z) kvs k s :
  Forall2 (record_of get role) (seqZ 1 n) kvs -> (k, s) ∈ kvs ->
  exists i, 1 <= i <= n /\ k = name role i /\ get i = ([], Return s).
Proof.
  intros HF Hin. apply list_elem_of_lookup in Hin as [j Hj].
  destruct (Forall2_lookup_r _ _ _ _ _ HF Hj) as (i & Hi & Hk & _ & Hg).
  apply lookup_seqZ in Hi as [-> Hlt]. cbn in Hk, Hg.
  exists (1 + Z.of_nat j). repeat split; auto; lia.
Qed.

Lemma build_Volumes env opts w cfg :
  build env opts = (w, Return cfg) ->
  Version cfg = "3.5"
  /\ cfg_Volumes cfg = (if DataVol opts then {[ "data" := ∅ ]} else ∅).
Proof.
  unfold build.
  destruct (add_services (getZero env opts) _ _) as [w1 [m1| |]]; cbn;
    try discriminate.
  destruct (add_services (getAlpha env opts) _ _) as [w2 [m2| |]]; cbn;
    try discriminate.
  intros [= _ <-]. split; reflexivity.
Qed.

(** The builder returns a document, and its service map holds exactly the
    records of the zeros, of the alphas and, if asked for, of jaeger. *)
Lemma build_services env opts :
  user_known env opts ->
  exists cfg,
    build env opts = ([], Return cfg)
    /\ Version cfg = "3.5"
    /\ cfg_Volumes cfg = (if DataVol opts then {[ "data" := ∅ ]} else ∅)
    /\ forall k s, Services cfg !! k = Some s <-> in_document env opts k s.
Proof.
  intros Hu.
  destruct (build_spec env opts Hu)
    as (cfg & zs & als & Hrun & Hzs & Hals & Hperm & Hz & Ha & Hj).
  destruct (build_Volumes env opts _ _ Hrun) as [Hver Hvol].
  exists cfg. repeat split; auto.
  - intros Hl. apply elem_of_map_to_list in Hl. rewrite Hperm in Hl.
    apply elem_of_app in Hl as [Hl|Hl]; [|apply elem_of_app in Hl as [Hl|Hl]].
    + left. eapply record_of_lookup; eauto.
    + right; left. eapply record_of_lookup; eauto.
    + right; right. unfold jaeger_records in Hl.
      destruct (Jaeger opts); [|now apply elem_of_nil in Hl].
      apply list_elem_of_singleton in Hl. now injection Hl as -> ->.
  - intros [(i & Hi & -> & Hg)|[(i & Hi & -> & Hg)|(Hjg & -> & ->)]].
    + now apply Hz.
    + now apply Ha.
    + now rewrite Hj, Hjg.
Qed.

Lemma getOffset_inj (i j : Z) :
  1 <= i -> 1 <= j -> getOffset i = getOffset j -> i = j.
Proof.
  unfold getOffset. destruct (Z.eqb_spec i 1), (Z.eqb_spec j 1); lia.
Qed.

(** The port numbers behind the exposed ports of a record. *)
Lemma document_ports env opts k s :
  valid opts -> user_known env opts -> in_document env opts k s ->
  (exists i, 1 <= i <= 99 /\ k = name "zero" i
     /\ Ports s = [toExposedPort (5080 + getOffset i);
                   toExposedPort (6080 + getOffset i)])
  \/ (exists i, 1 <= i <= 99 /\ k = name "alpha" i
     /\ Ports s =
        [toExposedPort (8080 + (if TestPortRange opts then 100 else 0)
                        + getOffset i);
         toExposedPort (9080 + (if TestPortRange opts then 100 else 0)
                        + getOffset i)])
  \/ (k = "jaeger" /\ Ports s = [toExposedPort 16686]).
Proof.
  intros (Hz & Ha & _) Hu
    [(i & Hi & -> & Hg)|[(i & Hi & -> & Hg)|(Hjg & -> & ->)]].
  - left. exists i. split; [lia|]. split; [reflexivity|].
    destruct (getZero_returns env opts i Hu) as (z & Hz' & _ & Hp & _).
    assert (z = s) as -> by congruence. rewrite Hp.
    assert (1 <= i <= 99) as Hi' by lia.
    pose proof (getOffset_range i Hi').
    rewrite (zero_grpcPort_eq i Hi'). fold (getOffset i).
    rewrite int_add_small by lia. do 2 f_equal. f_equal. lia.
  - right; left. exists i. split; [lia|]. split; [reflexivity|].
    destruct (getAlpha_returns env opts i Hu) as (a & Ha' & _ & Hp & _).
    assert (a = s) as -> by congruence. rewrite Hp.
    assert (1 <= i <= 99) as Hi' by lia.
    pose proof (getOffset_range i Hi').
    rewrite (alpha_grpcPort_eq opts i Hi'), (alpha_internalPort_eq opts i Hi').
    fold (getOffset i).
    rewrite int_add_small by (destruct (TestPortRange opts); lia).
    f_equal; [f_equal; lia|]. f_equal. f_equal. lia.
  - right; right. split; reflexivity.
Qed.

(** Every toggle on, two groups, a host directory for the data. *)
Definition full_opts : Options :=
  {| NumZeros := 3; NumAlphas := 5; NumGroups := 2; LruSizeMB := 2048;
     EnterpriseMode := false; AclSecret := "/tmp/hmac";
     DataDir := "/srv/dgraph"; DataVol := false; opt_TempFS := true;
     UserOwnership := true; Jaeger := true; TestPortRange := true;
     Verbosity := 2; OutFile := "./docker-compose.yml" |}.

Lemma valid_full_opts : valid full_opts.
Proof. unfold valid; cbn. repeat split; try lia; discriminate. Defined.

(** X1: in the document built from valid options no host port is published
    twice: the ports of one record are distinct, two records that publish
    the same port are the same record, and every published port is a
    number between 5080 and 16686 mapped to itself. *)
Theorem host_ports_are_distinct env opts :
  valid opts -> user_known env opts ->
  exists cfg,
    build env opts = ([], Return cfg)
    /\ (forall k s, Services cfg !! k = Some s ->
          NoDup (Ports s)
          /\ forall p, p ∈ Ports s ->
               exists n, p = toExposedPort n /\ 5080 <= n <= 16686)
    /\ (forall k1 s1 k2 s2 p,
          Services cfg !! k1 = Some s1 -> Services cfg !! k2 = Some s2 ->
          p ∈ Ports s1 -> p ∈ Ports s2 -> k1 = k2).
Proof.
  intros Hv Hu.
  destruct (build_services env opts Hu) as (cfg & Hrun & _ & _ & Hdoc).
  exists cfg. split; [exact Hrun|].
  assert (forall k s, Services cfg !! k = Some s ->
            exists ns,
              Ports s = toExposedPort <$> ns
              /\ NoDup ns
              /\ forall n, n ∈ ns ->
                   (exists i, 1 <= i <= 99 /\ k = name "zero" i
                      /\ (n = 5080 + getOffset i \/ n = 6080 + getOffset i))
                   \/ (exists i, 1 <= i <= 99 /\ k = name "alpha" i
                      /\ (n = 8080 + (if TestPortRange opts then 100 else 0)
                              + getOffset i
                          \/ n = 9080 + (if TestPortRange opts then 100 else 0)
                                 + getOffset i))
                   \/ (k = "jaeger" /\ n = 16686)) as Hports.
  { intros k s Hl. apply Hdoc in Hl.
    destruct (document_ports env opts k s Hv Hu Hl)
      as [(i & Hi & -> & Hp)|[(i & Hi & -> & Hp)|(-> & Hp)]];
      rewrite Hp.
    - exists [5080 + getOffset i; 6080 + getOffset i].
      split; [reflexivity|]. split.
      + apply NoDup_cons. split; [|apply NoDup_singleton].
        intros H%list_elem_of_singleton. lia.
      + intros n Hn. left. exists i. split; [exact Hi|].
        split; [reflexivity|].
        apply elem_of_cons in Hn as [->|Hn%list_elem_of_singleton]; auto.
    - exists [8080 + (if TestPortRange opts then 100 else 0) + getOffset i;
              9080 + (if TestPortRange opts then 100 else 0) + getOffset i].
      split; [reflexivity|]. split.
      + apply NoDup_cons. split; [|apply NoDup_singleton].
        intros H%list_elem_of_singleton. lia.
      + intros n Hn. right; left. exists i. split; [exact Hi|].
        split; [reflexivity|].
        apply elem_of_cons in Hn as [->|Hn%list_elem_of_singleton]; auto.
    - exists [16686]. split; [reflexivity|]. split.
      + apply NoDup_singleton.
      + intros n Hn%list_elem_of_singleton. right; right. auto. }
  assert (forall i, 1 <= i <= 99 -> 0 <= getOffset i <= 99) as Hoff
    by exact getOffset_range.
  split.
  - intros k s Hl. destruct (Hports k s Hl) as (ns & -> & Hnd & Hcls). split.
    + apply NoDup_fmap_2; [|exact Hnd]. intros x y. apply toExposedPort_inj.
    + intros p (n & -> & Hn)%list_elem_of_fmap. exists n. split; [reflexivity|].
      destruct (Hcls n Hn) as [(i & Hi & _ & Hn')|[(i & Hi & _ & Hn')|[_ ->]]];
        [| |lia]; specialize (Hoff i Hi);
        destruct (TestPortRange opts); lia.
  - intros k1 s1 k2 s2 p Hl1 Hl2 Hp1 Hp2.
    destruct (Hports k1 s1 Hl1) as (ns1 & E1 & _ & Hc1).
    destruct (Hports k2 s2 Hl2) as (ns2 & E2 & _ & Hc2).
    rewrite E1 in Hp1. rewrite E2 in Hp2.
    apply list_elem_of_fmap in Hp1 as (n1 & -> & Hn1).
    apply list_elem_of_fmap in Hp2 as (n2 & E & Hn2).
    apply toExposedPort_inj in E as <-.
    destruct (Hc1 n1 Hn1) as [(i & Hi & -> & Hn)|[(i & Hi & -> & Hn)|[-> Hn]]];
      destruct (Hc2 n1 Hn2) as [(j & Hj & -> & Hm)|[(j & Hj & -> & Hm)|[-> Hm]]];
      try reflexivity;
      try (pose proof (Hoff i Hi)); try (pose proof (Hoff j Hj));
      try (exfalso; destruct (TestPortRange opts); lia);
      f_equal; apply getOffset_inj; try lia;
      destruct (TestPortRange opts); lia.
Qed.

Lemma host_ports_are_distinct_witness :
  exists cfg,
    build env0 full_opts = ([], Return cfg)
    /\ (forall k s, Services cfg !! k = Some s ->
          NoDup (Ports s)
          /\ forall p, p ∈ Ports s ->
               exists n, p = toExposedPort n /\ 5080 <= n <= 16686)
    /\ (forall k1 s1 k2 s2 p,
          Services cfg !! k1 = Some s1 -> Services cfg !! k2 = Some s2 ->
          p ∈ Ports s1 -> p ∈ Ports s2 -> k1 = k2).
Proof.
  apply (host_ports_are_distinct env0 full_opts).
  - exact valid_full_opts.
  - exact (user_known_env0 full_opts).
Defined.

(** The fields of a dgraph node of role [role] and index [i]; [tmp] is the
    directory that goes to a tmpfs. *)
Definition dgraph_record (env : Env) (opts : Options) (role : string)
    (i : Z) (tmp : string) (s : Service) : Prop :=
  svc_name s = name role i
  /\ ContainerName s = name role i
  /\ Image s = "dgraph/dgraph:latest"
  /\ WorkingDir s = init_WorkingDir opts (name role i)
  /\ DependsOn s = init_DependsOn role i
  /\ Labels s = {[ "cluster" := "test" ]}
  /\ Environment s = []
  /\ TempFS s = (if opt_TempFS opts
                 then ["/data/" +:+ name role i +:+ tmp] else [])
  /\ User s = init_User env opts.

(** What the builder stores under a key: the record of a zero, of an alpha,
    or of jaeger. *)
Lemma document_record env opts k s :
  user_known env opts -> in_document env opts k s ->
  (exists i, 1 <= i <= NumZeros opts /\ k = name "zero" i
     /\ dgraph_record env opts "zero" i "/zw" s
     /\ Volumes s = init_Volumes opts
     /\ Command s = zero_Command opts i)
  \/ (exists i, 1 <= i <= NumAlphas opts /\ k = name "alpha" i
     /\ dgraph_record env opts "alpha" i "/w" s
     /\ Volumes s = alpha_Volumes opts
     /\ Command s = alpha_Command opts i)
  \/ (Jaeger opts = true /\ k = "jaeger" /\ s = getJaeger).
Proof.
  intros Hu [(i & Hi & -> & Hg)|[(i & Hi & -> & Hg)|H]]; [| |auto].
  - left. exists i. split; [exact Hi|]. split; [reflexivity|].
    destruct (getZero_returns env opts i Hu) as (z & Hz & Hn & _ & Hv & Hc).
    destruct (getZero_fields env opts i Hu)
      as (z' & Hz' & Him & Hw & Hd & Hl & He & Ht & Hus & Hcn).
    assert (z = s) as -> by congruence. assert (z' = s) as -> by congruence.
    unfold dgraph_record. repeat split; assumption.
  - right; left. exists i. split; [exact Hi|]. split; [reflexivity|].
    destruct (getAlpha_returns env opts i Hu) as (a & Ha & Hn & _ & Hv & Hc).
    destruct (getAlpha_fields env opts i Hu)
      as (a' & Ha' & Him & Hw & Hd & Hl & He & Ht & Hus & Hcn).
    assert (a = s) as -> by congruence. assert (a' = s) as -> by congruence.
    unfold dgraph_record. repeat split; assumption.
Qed.

(** The document of the builder, with the shape of each of its records. *)
Lemma build_document env opts :
  user_known env opts ->
  exists cfg,
    build env opts = ([], Return cfg)
    /\ cfg_Volumes cfg = (if DataVol opts then {[ "data" := ∅ ]} else ∅)
    /\ (forall k s, Services cfg !! k = Some s <-> in_document env opts k s)
    /\ (forall i, 1 <= i <= NumZeros opts ->
          is_Some (Services cfg !! name "zero" i))
    /\ (forall i, 1 <= i <= NumAlphas opts ->
          is_Some (Services cfg !! name "alpha" i)).
Proof.
  intros Hu.
  destruct (build_services env opts Hu) as (cfg & Hrun & _ & Hvol & Hdoc).
  exists cfg. repeat split; auto; try apply Hdoc.
  - intros i Hi.
    destruct (getZero_returns env opts i Hu) as (z & Hz & _).
    exists z. apply Hdoc. left. eauto.
  - intros i Hi.
    destruct (getAlpha_returns env opts i Hu) as (a & Ha & _).
    exists a. apply Hdoc. right; left. eauto.
Qed.

(** X2: in the document built from valid options a record depends on at
    most one other record: node [i] of a role, for [i] from 2 on, depends on
    node [i - 1] of the same role, which is in the document; the first zero,
    the first alpha and jaeger depend on nothing. *)
Theorem dependencies_stay_in_the_document env opts :
  valid opts -> user_known env opts ->
  exists cfg,
    build env opts = ([], Return cfg)
    /\ forall k s, Services cfg !! k = Some s ->
         (k = "zero1" \/ k = "alpha1" \/ k = "jaeger" -> DependsOn s = [])
         /\ (forall role i, role = "zero" \/ role = "alpha" -> 2 <= i ->
               k = name role i -> DependsOn s = [name role (i - 1)])
         /\ (forall d, d ∈ DependsOn s ->
               is_Some (Services cfg !! d)
               /\ exists role i,
                    (role = "zero" \/ role = "alpha") /\ 2 <= i
                    /\ k = name role i /\ d = name role (i - 1)).
Proof.
  intros (Hz & Ha & _) Hu.
  destruct (build_document env opts Hu)
    as (cfg & Hrun & _ & Hdoc & Hzs & Has).
  exists cfg. split; [exact Hrun|]. intros k s Hl. apply Hdoc in Hl.
  assert (forall role i, 1 <= i <= 99 ->
            init_DependsOn role i
            = if i =? 1 then [] else [name role (i - 1)]) as Hdep.
  { intros role i Hi. unfold init_DependsOn.
    rewrite int_sub_small by lia.
    destruct (Z.ltb_spec 1 i), (Z.eqb_spec i 1); try lia; reflexivity. }
  destruct (document_record env opts k s Hu Hl)
    as [(i & Hi & -> & Hrec & _)|[(i & Hi & -> & Hrec & _)|(_ & -> & ->)]].
  - destruct Hrec as (_ & _ & _ & _ & -> & _). rewrite Hdep by lia.
    split; [|split].
    + intros [E|[E|E]]; try discriminate E.
      apply (name_inj "zero" i 1) in E as ->. reflexivity.
    + intros role j [-> | ->] Hj E; [|discriminate E].
      apply name_inj in E as ->.
      destruct (Z.eqb_spec j 1); [lia | reflexivity].
    + intros d Hd. destruct (Z.eqb_spec i 1); [now apply elem_of_nil in Hd|].
      apply list_elem_of_singleton in Hd as ->.
      split; [apply Hzs; lia|]. exists "zero", i. repeat split; auto; lia.
  - destruct Hrec as (_ & _ & _ & _ & -> & _). rewrite Hdep by lia.
    split; [|split].
    + intros [E|[E|E]]; try discriminate E.
      apply (name_inj "alpha" i 1) in E as ->. reflexivity.
    + intros role j [-> | ->] Hj E; [discriminate E|].
      apply name_inj in E as ->.
      destruct (Z.eqb_spec j 1); [lia | reflexivity].
    + intros d Hd. destruct (Z.eqb_spec i 1); [now apply elem_of_nil in Hd|].
      apply list_elem_of_singleton in Hd as ->.
      split; [apply Has; lia|]. exists "alpha", i. repeat split; auto; lia.
  - split; [reflexivity|]. split.
    + intros role j [-> | ->] _ E; discriminate E.
    + intros d Hd. now apply elem_of_nil in Hd.
Qed.

Lemma dependencies_stay_in_the_document_witness :
  exists cfg,
    build env0 full_opts = ([], Return cfg)
    /\ forall k s, Services cfg !! k = Some s ->
         (k = "zero1" \/ k = "alpha1" \/ k = "jaeger" -> DependsOn s = [])
         /\ (forall role i, role = "zero" \/ role = "alpha" -> 2 <= i ->
               k = name role i -> DependsOn s = [name role (i - 1)])
         /\ (forall d, d ∈ DependsOn s ->
               is_Some (Services cfg !! d)
               /\ exists role i,
                    (role = "zero" \/ role = "alpha") /\ 2 <= i
                    /\ k = name role i /\ d = name role (i - 1)).
Proof.
  apply (dependencies_stay_in_the_document env0 full_opts).
  - exact valid_full_opts.
  - exact (user_known_env0 full_opts).
Defined.

(** X3: every record is stored under its container name. A dgraph node
    runs the dgraph image with the label [cluster=test], in [/data/<key>]
    or, under user ownership, in [/working/<key>], and its name field is
    its key. The jaeger record is stored under [jaeger] although its name
    field is empty. *)
Theorem records_are_stored_under_their_container_name env opts :
  user_known env opts ->
  exists cfg,
    build env opts = ([], Return cfg)
    /\ Version cfg = "3.5"
    /\ forall k s, Services cfg !! k = Some s ->
         ContainerName s = k
         /\ (k <> "jaeger" ->
             svc_name s = k
             /\ Image s = "dgraph/dgraph:latest"
             /\ Labels s !! "cluster" = Some "test"
             /\ WorkingDir s
                = (if UserOwnership opts then "/working/" else "/data/") +:+ k)
         /\ (k = "jaeger" ->
             svc_name s = ""
             /\ Image s = "jaegertracing/all-in-one:latest"
             /\ Labels s = ∅
             /\ WorkingDir s = "/working/jaeger").
Proof.
  intros Hu.
  destruct (build_services env opts Hu) as (cfg & Hrun & Hver & _ & Hdoc).
  exists cfg. split; [exact Hrun|]. split; [exact Hver|].
  intros k s Hl. apply Hdoc in Hl.
  destruct (document_record env opts k s Hu Hl)
    as [(i & Hi & -> & Hrec & _)|[(i & Hi & -> & Hrec & _)|(_ & -> & ->)]].
  - destruct Hrec as (Hn & Hc & Him & Hw & _ & Hlab & _).
    split; [exact Hc|]. split; [|intros E; discriminate E].
    intros _. rewrite Hlab. repeat split; auto.
  - destruct Hrec as (Hn & Hc & Him & Hw & _ & Hlab & _).
    split; [exact Hc|]. split; [|intros E; discriminate E].
    intros _. rewrite Hlab. repeat split; auto.
  - split; [reflexivity|]. split; [congruence|].
    intros _. repeat split.
Qed.

Lemma records_are_stored_under_their_container_name_witness :
  exists cfg,
    build env0 full_opts = ([], Return cfg)
    /\ Version cfg = "3.5"
    /\ forall k s, Services cfg !! k = Some s ->
         ContainerName s = k
         /\ (k <> "jaeger" ->
             svc_name s = k
             /\ Image s = "dgraph/dgraph:latest"
             /\ Labels s !! "cluster" = Some "test"
             /\ WorkingDir s
                = (if UserOwnership full_opts then "/working/" else "/data/")
                  +:+ k)
         /\ (k = "jaeger" ->
             svc_name s = ""
             /\ Image s = "jaegertracing/all-in-one:latest"
             /\ Labels s = ∅
             /\ WorkingDir s = "/working/jaeger").
Proof.
  apply (records_are_stored_under_their_container_name env0 full_opts).
  exact (user_known_env0 full_opts).
Defined.

(** ** Volumes *)

Lemma init_Volumes_cases (opts : Options) :
  init_Volumes opts =
  gobin_volume ::
  (if DataVol opts then [data_volume]
   else if bool_decide (DataDir opts ≠ "")
        then [data_dir_volume (DataDir opts)] else []).
Proof. reflexivity. Qed.

(** X4: the named volumes that the records mount are the ones the document
    declares. A mount of type [volume] is the mount of [data] at [/data],
    and [data] is then declared; the document declares no volume but
    [data], and it declares it exactly when the data volume is asked for,
    in which case every dgraph node mounts it. *)
Theorem named_volumes_are_declared env opts :
  user_known env opts ->
  exists cfg,
    build env opts = ([], Return cfg)
    /\ (forall k s v, Services cfg !! k = Some s -> v ∈ Volumes s ->
          Type_ v = "volume" ->
          v = data_volume /\ cfg_Volumes cfg !! Source v = Some ∅)
    /\ (forall x y, cfg_Volumes cfg !! x = Some y ->
          x = "data" /\ y = ∅ /\ DataVol opts = true
          /\ forall k s, Services cfg !! k = Some s -> k <> "jaeger" ->
               data_volume ∈ Volumes s)
    /\ (DataVol opts = true -> is_Some (cfg_Volumes cfg !! "data")).
Proof.
  intros Hu.
  destruct (build_document env opts Hu) as (cfg & Hrun & Hvol & Hdoc & _).
  exists cfg. split; [exact Hrun|].
  assert (forall v, v ∈ init_Volumes opts -> Type_ v = "volume" ->
            v = data_volume /\ DataVol opts = true) as Hinit.
  { intros v Hv Ht. rewrite init_Volumes_cases in Hv.
    apply elem_of_cons in Hv as [->|Hv]; [discriminate Ht|].
    destruct (DataVol opts).
    - apply list_elem_of_singleton in Hv. auto.
    - destruct (bool_decide (DataDir opts ≠ ""));
        [apply list_elem_of_singleton in Hv as ->; discriminate Ht
        |now apply elem_of_nil in Hv]. }
  assert (forall v, v ∈ alpha_Volumes opts -> Type_ v = "volume" ->
            v = data_volume /\ DataVol opts = true) as Halpha.
  { intros v Hv Ht. unfold alpha_Volumes in Hv.
    destruct (EnterpriseMode opts && bool_decide (AclSecret opts ≠ ""));
      [|now apply Hinit].
    apply elem_of_app in Hv as [Hv|Hv]; [now apply Hinit|].
    apply list_elem_of_singleton in Hv as ->. discriminate Ht. }
  split; [|split].
  - intros k s v Hl Hv Ht. apply Hdoc in Hl.
    assert (v = data_volume /\ DataVol opts = true) as [-> Hd].
    { destruct (document_record env opts k s Hu Hl)
        as [(i & _ & _ & _ & Hvs & _)|[(i & _ & _ & _ & Hvs & _)|(_ & _ & ->)]].
      - rewrite Hvs in Hv. now apply Hinit.
      - rewrite Hvs in Hv. now apply Halpha.
      - now apply elem_of_nil in Hv. }
    split; [reflexivity|]. rewrite Hvol, Hd. apply lookup_singleton_eq.
  - intros x y Hx. rewrite Hvol in Hx.
    destruct (DataVol opts) eqn:Hd; [|now rewrite lookup_empty in Hx].
    apply lookup_singleton_Some in Hx as [<- <-].
    repeat split. intros k s Hl Hk. apply Hdoc in Hl.
    assert (data_volume ∈ init_Volumes opts) as Hin.
    { rewrite init_Volumes_cases, Hd. right. left. }
    destruct (document_record env opts k s Hu Hl)
      as [(i & _ & _ & _ & Hvs & _)|[(i & _ & _ & _ & Hvs & _)|(_ & E & _)]];
      [| |contradiction]; rewrite Hvs; [exact Hin|].
    unfold alpha_Volumes.
    destruct (EnterpriseMode opts && bool_decide (AclSecret opts ≠ ""));
      [apply elem_of_app; left|]; exact Hin.
  - intros Hd. rewrite Hvol, Hd. exists ∅. apply lookup_singleton_eq.
Qed.

(** The data of the cluster in a named volume. *)
Definition data_vol_opts : Options :=
  {| NumZeros := 3; NumAlphas := 3; NumGroups := 1; LruSizeMB := 1024;
     EnterpriseMode := true; AclSecret := "/tmp/hmac"; DataDir := "";
     DataVol := true; opt_TempFS := false; UserOwnership := false;
     Jaeger := true; TestPortRange := true; Verbosity := 2;
     OutFile := "-" |}.

Lemma valid_data_vol_opts : valid data_vol_opts.
Proof. unfold valid; cbn. repeat split; try lia; discriminate. Defined.

Lemma named_volumes_are_declared_witness :
  exists cfg,
    build env0 data_vol_opts = ([], Return cfg)
    /\ (forall k s v, Services cfg !! k = Some s -> v ∈ Volumes s ->
          Type_ v = "volume" ->
          v = data_volume /\ cfg_Volumes cfg !! Source v = Some ∅)
    /\ (forall x y, cfg_Volumes cfg !! x = Some y ->
          x = "data" /\ y = ∅ /\ DataVol data_vol_opts = true
          /\ forall k s, Services cfg !! k = Some s -> k <> "jaeger" ->
               data_volume ∈ Volumes s)
    /\ (DataVol data_vol_opts = true -> is_Some (cfg_Volumes cfg !! "data")).
Proof.
  apply (named_volumes_are_declared env0 data_vol_opts).
  exact (user_known_env0 data_vol_opts).
Defined.

(** X5: the mounts of a record have pairwise distinct targets among
    [/gobin], [/data] and [/secret/hmac]; the mount at [/data] is the only
    writable one. Every dgraph node mounts the binaries first; jaeger
    mounts nothing. *)
Theorem mounts_have_distinct_targets env opts :
  user_known env opts ->
  exists cfg,
    build env opts = ([], Return cfg)
    /\ forall k s, Services cfg !! k = Some s ->
         NoDup (Target <$> Volumes s)
         /\ (forall v, v ∈ Volumes s ->
               Target v ∈ ["/gobin"; "/data"; "/secret/hmac"]
               /\ (ReadOnly v = false <-> Target v = "/data"))
         /\ (k <> "jaeger" -> head (Volumes s) = Some gobin_volume)
         /\ (k = "jaeger" -> Volumes s = []).
Proof.
  intros Hu.
  destruct (build_document env opts Hu) as (cfg & Hrun & _ & Hdoc & _).
  exists cfg. split; [exact Hrun|]. intros k s Hl. apply Hdoc in Hl.
  assert (forall vs,
            vs = init_Volumes opts \/ vs = alpha_Volumes opts ->
            NoDup (Target <$> vs)
            /\ (forall v, v ∈ vs ->
                  Target v ∈ ["/gobin"; "/data"; "/secret/hmac"]
                  /\ (ReadOnly v = false <-> Target v = "/data"))
            /\ head vs = Some gobin_volume) as Hvs.
  { intros vs Hvs.
    assert (exists l, vs = l /\
              (l = [gobin_volume] \/ l = [gobin_volume; data_volume]
               \/ l = [gobin_volume; data_dir_volume (DataDir opts)]
               \/ l = [gobin_volume; secret_volume (AclSecret opts)]
               \/ l = [gobin_volume; data_volume;
                       secret_volume (AclSecret opts)]
               \/ l = [gobin_volume; data_dir_volume (DataDir opts);
                       secret_volume (AclSecret opts)]))
      as (l & -> & Hl').
    { eexists. split; [reflexivity|].
      destruct Hvs as [->| ->]; unfold alpha_Volumes;
        rewrite ?init_Volumes_cases;
        destruct (DataVol opts), (bool_decide (DataDir opts ≠ ""));
        try destruct (EnterpriseMode opts && bool_decide (AclSecret opts ≠ ""));
        cbn; auto 10. }
    destruct Hl' as [->|[->|[->|[->|[->| ->]]]]]; cbn;
      (split; [solve [repeat apply NoDup_cons_2; try apply NoDup_nil_2;
                      rewrite ?elem_of_cons, ?elem_of_nil; intuition discriminate]|]);
      (split; [|reflexivity]);
      intros v Hv; rewrite ?elem_of_cons, ?elem_of_nil in Hv;
      rewrite ?elem_of_cons;
      intuition (subst; cbn; auto; try discriminate). }
  destruct (document_record env opts k s Hu Hl)
    as [(i & _ & -> & _ & -> & _)|[(i & _ & -> & _ & -> & _)|(_ & -> & ->)]].
  - destruct (Hvs (init_Volumes opts)) as (H1 & H2 & H3); [now left|].
    repeat split; auto; try apply H2; auto. intros E; discriminate E.
  - destruct (Hvs (alpha_Volumes opts)) as (H1 & H2 & H3); [now right|].
    repeat split; auto; try apply H2; auto. intros E; discriminate E.
  - cbn. split; [apply NoDup_nil_2|]. split; [|split; [congruence|auto]].
    intros v Hv. now apply elem_of_nil in Hv.
Qed.

Lemma mounts_have_distinct_targets_witness :
  exists cfg,
    build env0 data_vol_opts = ([], Return cfg)
    /\ forall k s, Services cfg !! k = Some s ->
         NoDup (Target <$> Volumes s)
         /\ (forall v, v ∈ Volumes s ->
               Target v ∈ ["/gobin"; "/data"; "/secret/hmac"]
               /\ (ReadOnly v = false <-> Target v = "/data"))
         /\ (k <> "jaeger" -> head (Volumes s) = Some gobin_volume)
         /\ (k = "jaeger" -> Volumes s = []).
Proof.
  apply (mounts_have_distinct_targets env0 data_vol_opts).
  exact (user_known_env0 data_vol_opts).
Defined.

(** ** Command lines *)

(** X6: user ownership in the document built from valid options. Without
    it a dgraph node has no user, works in [/data/<key>] and is given no
    [--cwd]. With it the node has the user [${UID:-<uid>}] for the id of
    the current user, works in [/working/<key>], is started with
    [--cwd=/data/<key>] and has the host data directory mounted at [/data].
    The jaeger record never has a user. *)
Theorem user_ownership_moves_the_working_directory env opts :
  valid opts -> user_known env opts ->
  exists cfg,
    build env opts = ([], Return cfg)
    /\ forall k s, Services cfg !! k = Some s ->
         (k = "jaeger" -> User s = "")
         /\ (k <> "jaeger" -> UserOwnership opts = false ->
             User s = "" /\ WorkingDir s = "/data/" +:+ k
             /\ contains "--cwd" (Command s) = false)
         /\ (k <> "jaeger" -> UserOwnership opts = true ->
             exists uid,
               user_Current env = Ok uid
               /\ User s = "${UID:-" +:+ uid +:+ "}"
               /\ WorkingDir s = "/working/" +:+ k
               /\ contains (" --cwd=/data/" +:+ k) (Command s) = true
               /\ DataDir opts <> ""
               /\ data_dir_volume (DataDir opts) ∈ Volumes s).
Proof.
  intros (_ & _ & _ & Hdv & Hud) Hu.
  destruct (build_document env opts Hu) as (cfg & Hrun & _ & Hdoc & _).
  exists cfg. split; [exact Hrun|]. intros k s Hl. apply Hdoc in Hl.
  assert (UserOwnership opts = true ->
          DataDir opts <> ""
          /\ data_dir_volume (DataDir opts) ∈ init_Volumes opts
          /\ data_dir_volume (DataDir opts) ∈ alpha_Volumes opts) as Hdir.
  { intros Ho. specialize (Hud Ho).
    assert (data_dir_volume (DataDir opts) ∈ init_Volumes opts) as Hin.
    { rewrite init_Volumes_cases.
      destruct (DataVol opts); [now specialize (Hdv eq_refl)|].
      rewrite bool_decide_eq_true_2 by exact Hud. right. left. }
    repeat split; auto. unfold alpha_Volumes.
    destruct (EnterpriseMode opts && bool_decide (AclSecret opts ≠ ""));
      [apply elem_of_app; left|]; exact Hin. }
  destruct (document_record env opts k s Hu Hl)
    as [(i & _ & -> & Hrec & Hvs & Hc)|[(i & _ & -> & Hrec & Hvs & Hc)
       |(_ & -> & ->)]].
  - destruct Hrec as (_ & _ & _ & Hw & _ & _ & _ & _ & Hus).
    rewrite Hw, Hus, Hc, Hvs.
    unfold init_User, init_WorkingDir, zero_Command, init_Command.
    split; [intros E; discriminate E|]. split; intros _ Ho; rewrite Ho.
    + repeat split. destruct (Jaeger opts), (i =? 1); contains_none.
    + destruct (Hu Ho) as [uid Huid]. exists uid. rewrite Huid.
      destruct (Hdir Ho) as (? & ? & _). repeat split; auto.
      destruct (Jaeger opts), (i =? 1); contains_search.
  - destruct Hrec as (_ & _ & _ & Hw & _ & _ & _ & _ & Hus).
    rewrite Hw, Hus, Hc, Hvs.
    unfold init_User, init_WorkingDir, alpha_Command, init_Command.
    split; [intros E; discriminate E|]. split; intros _ Ho; rewrite Ho.
    + repeat split.
      destruct (Jaeger opts), (EnterpriseMode opts),
        (bool_decide (AclSecret opts ≠ "")); contains_none.
    + destruct (Hu Ho) as [uid Huid]. exists uid. rewrite Huid.
      destruct (Hdir Ho) as (? & _ & ?). repeat split; auto.
      destruct (Jaeger opts), (EnterpriseMode opts),
        (bool_decide (AclSecret opts ≠ "")); contains_search.
  - split; [reflexivity|]. split; intros E; now contradiction E.
Qed.

Lemma user_ownership_moves_the_working_directory_witness :
  exists cfg,
    build env0 full_opts = ([], Return cfg)
    /\ forall k s, Services cfg !! k = Some s ->
         (k = "jaeger" -> User s = "")
         /\ (k <> "jaeger" -> UserOwnership full_opts = false ->
             User s = "" /\ WorkingDir s = "/data/" +:+ k
             /\ contains "--cwd" (Command s) = false)
         /\ (k <> "jaeger" -> UserOwnership full_opts = true ->
             exists uid,
               user_Current env0 = Ok uid
               /\ User s = "${UID:-" +:+ uid +:+ "}"
               /\ WorkingDir s = "/working/" +:+ k
               /\ contains (" --cwd=/data/" +:+ k) (Command s) = true
               /\ DataDir full_opts <> ""
               /\ data_dir_volume (DataDir full_opts) ∈ Volumes s).
Proof.
  apply (user_ownership_moves_the_working_directory env0 full_opts).
  - exact valid_full_opts.
  - exact (user_known_env0 full_opts).
Defined.

Definition jaeger_flag : string := "--jaeger.collector=http://jaeger:14268".

(** X7: the collector named on the command lines is in the document. The
    document has a record [jaeger], publishing port 16686, exactly when the
    Jaeger toggle is set, and exactly then the command line of every dgraph
    node names the collector at host [jaeger]. *)
Theorem jaeger_is_named_iff_present env opts :
  user_known env opts ->
  exists cfg,
    build env opts = ([], Return cfg)
    /\ (is_Some (Services cfg !! "jaeger") <-> Jaeger opts = true)
    /\ (forall s, Services cfg !! "jaeger" = Some s ->
          Ports s = ["16686:16686"] /\ DependsOn s = []
          /\ Environment s = ["COLLECTOR_ZIPKIN_HTTP_PORT=9411"]
          /\ Command s = "--memory.max-traces=1000000")
    /\ (forall k s, Services cfg !! k = Some s -> k <> "jaeger" ->
          contains jaeger_flag (Command s) = Jaeger opts).
Proof.
  intros Hu.
  destruct (build_document env opts Hu) as (cfg & Hrun & _ & Hdoc & _).
  exists cfg. split; [exact Hrun|].
  assert (forall s, Services cfg !! "jaeger" = Some s ->
            Jaeger opts = true /\ s = getJaeger) as Hj.
  { intros s Hl. apply Hdoc in Hl.
    destruct Hl as [(i & _ & E & _)|[(i & _ & E & _)|(? & _ & ?)]];
      [discriminate E | discriminate E | auto]. }
  split; [|split].
  - split.
    + intros [s Hs]. now apply Hj in Hs.
    + intros Hjg. exists getJaeger. apply Hdoc. right; right. auto.
  - intros s Hs. apply Hj in Hs as [_ ->]. repeat split.
  - intros k s Hl Hk. apply Hdoc in Hl. unfold jaeger_flag.
    destruct (document_record env opts k s Hu Hl)
      as [(i & _ & -> & _ & _ & ->)|[(i & _ & -> & _ & _ & ->)|(_ & E & _)]];
      [| |contradiction].
    + unfold zero_Command, init_Command.
      destruct (Jaeger opts); destruct (UserOwnership opts), (i =? 1);
        first [contains_search | contains_none].
    + unfold alpha_Command, init_Command.
      destruct (Jaeger opts); destruct (UserOwnership opts),
        (EnterpriseMode opts), (bool_decide (AclSecret opts ≠ ""));
        first [contains_search | contains_none].
Qed.

Lemma jaeger_is_named_iff_present_witness :
  exists cfg,
    build env0 full_opts = ([], Return cfg)
    /\ (is_Some (Services cfg !! "jaeger") <-> Jaeger full_opts = true)
    /\ (forall s, Services cfg !! "jaeger" = Some s ->
          Ports s = ["16686:16686"] /\ DependsOn s = []
          /\ Environment s = ["COLLECTOR_ZIPKIN_HTTP_PORT=9411"]
          /\ Command s = "--memory.max-traces=1000000")
    /\ (forall k s, Services cfg !! k = Some s -> k <> "jaeger" ->
          contains jaeger_flag (Command s) = Jaeger full_opts).
Proof.
  apply (jaeger_is_named_iff_present env0 full_opts).
  exact (user_known_env0 full_opts).
Defined.

(** X8: the zeros of the document built from valid options form one
    cluster around [zero1]. The record [zero1] is in the document; it
    advertises [zero1:5080], publishes port 5080 and is the only zero
    started with [--bindall]; every other zero is started with
    [--peer=zero1:5080] instead. *)
Theorem zeros_peer_with_the_first env opts :
  valid opts -> user_known env opts ->
  exists cfg z1,
    build env opts = ([], Return cfg)
    /\ Services cfg !! "zero1" = Some z1
    /\ contains " --my=zero1:5080 --replicas=" (Command z1) = true
    /\ "5080:5080" ∈ Ports z1
    /\ forall i z, 1 <= i <= NumZeros opts ->
         Services cfg !! name "zero" i = Some z ->
         contains "--bindall" (Command z) = (i =? 1)
         /\ contains "--peer" (Command z) = negb (i =? 1)
         /\ (i <> 1 -> contains " --peer=zero1:5080" (Command z) = true).
Proof.
  intros (Hz & _) Hu.
  destruct (build_document env opts Hu) as (cfg & Hrun & _ & Hdoc & _).
  destruct (getZero_returns env opts 1 Hu) as (z1 & Hz1 & _ & Hp1 & _ & Hc1).
  exists cfg, z1. split; [exact Hrun|].
  split; [apply (Hdoc "zero1"); left; exists 1; repeat split; auto; lia|].
  split; [|split].
  - rewrite Hc1. unfold zero_Command.
    change (" --my=" +:+ name "zero" 1 +:+ ":" +:+ fmt_d (zero_grpcPort 1))
      with " --my=zero1:5080".
    do 2 apply contains_app_l. apply contains_iff.
    exists (init_Command opts (name "zero" 1)
            +:+ " zero -o " +:+ fmt_d (int_sub 1 1) +:+ " --idx=" +:+ fmt_d 1),
      (fmt_d (replicas opts)).
    rewrite !str_app_assoc. reflexivity.
  - rewrite Hp1. left.
  - intros i z Hi Hl. apply Hdoc in Hl.
    destruct (document_record env opts _ z Hu Hl)
      as [(j & _ & E & _ & _ & ->)|[(j & _ & E & _)|(_ & E & _)]];
      [|discriminate E..].
    apply name_inj in E as <-.
    unfold zero_Command, init_Command.
    change (" --peer=" +:+ name "zero" 1 +:+ ":" +:+ fmt_d zeroBasePort)
      with " --peer=zero1:5080".
    destruct (Z.eqb_spec i 1) as [->|Hne]; cbn [negb].
    + split; [|split; [|congruence]];
        destruct (UserOwnership opts), (Jaeger opts);
        first [contains_search | contains_none].
    + split; [|split; [|intros _]];
        destruct (UserOwnership opts), (Jaeger opts);
        first [contains_search | contains_none].
Qed.

Lemma zeros_peer_with_the_first_witness :
  exists cfg z1,
    build env0 full_opts = ([], Return cfg)
    /\ Services cfg !! "zero1" = Some z1
    /\ contains " --my=zero1:5080 --replicas=" (Command z1) = true
    /\ "5080:5080" ∈ Ports z1
    /\ forall i z, 1 <= i <= NumZeros full_opts ->
         Services cfg !! name "zero" i = Some z ->
         contains "--bindall" (Command z) = (i =? 1)
         /\ contains "--peer" (Command z) = negb (i =? 1)
         /\ (i <> 1 -> contains " --peer=zero1:5080" (Command z) = true).
Proof.
  apply (zeros_peer_with_the_first env0 full_opts).
  - exact valid_full_opts.
  - exact (user_known_env0 full_opts).
Defined.

Lemma resolved_fields opts :
  NumZeros (resolved opts) = NumZeros opts
  /\ NumAlphas (resolved opts) = NumAlphas opts
  /\ NumGroups (resolved opts) = NumGroups opts
  /\ LruSizeMB (resolved opts) = LruSizeMB opts
  /\ AclSecret (resolved opts) = AclSecret opts
  /\ DataDir (resolved opts) = DataDir opts
  /\ DataVol (resolved opts) = DataVol opts
  /\ opt_TempFS (resolved opts) = opt_TempFS opts
  /\ UserOwnership (resolved opts) = UserOwnership opts
  /\ Jaeger (resolved opts) = Jaeger opts
  /\ TestPortRange (resolved opts) = TestPortRange opts
  /\ Verbosity (resolved opts) = Verbosity opts
  /\ OutFile (resolved opts) = OutFile opts
  /\ EnterpriseMode (resolved opts)
     = EnterpriseMode opts || bool_decide (AclSecret opts ≠ "").
Proof.
  unfold resolved, acl_forces_enterprise.
  destruct (bool_decide (AclSecret opts ≠ "")) eqn:Eb,
    (EnterpriseMode opts) eqn:Ee; cbn; rewrite ?Eb, ?Ee; repeat split.
Qed.

(** X9: in a run that passes the checks, the ACL flags follow the secret.
    In the document built from the resolved options every alpha has
    [--acl_secret_file] exactly when a secret is given, has
    [--enterprise_features] exactly when enterprise mode was asked for or
    a secret is given, and has a mount at [/secret/hmac] exactly when a
    secret is given, which then is the read-only bind mount of the
    secret. *)
Theorem acl_flags_follow_the_secret env opts :
  valid opts -> user_known env opts ->
  exists cfg,
    build env (resolved opts) = ([], Return cfg)
    /\ forall i a, 1 <= i <= NumAlphas opts ->
         Services cfg !! name "alpha" i = Some a ->
         contains "--acl_secret_file" (Command a)
         = bool_decide (AclSecret opts ≠ "")
         /\ contains "--enterprise_features" (Command a)
            = EnterpriseMode opts || bool_decide (AclSecret opts ≠ "")
         /\ ((exists v, v ∈ Volumes a /\ Target v = "/secret/hmac")
             <-> AclSecret opts <> "")
         /\ (forall v, v ∈ Volumes a -> Target v = "/secret/hmac" ->
               v = {| Type_ := "bind"; Source := AclSecret opts;
                      Target := "/secret/hmac"; ReadOnly := true |}).
Proof.
  intros Hv Hu. apply user_known_resolved in Hu.
  destruct (build_document env (resolved opts) Hu)
    as (cfg & Hrun & _ & Hdoc & _).
  exists cfg. split; [exact Hrun|]. intros i a Hi Hl. apply Hdoc in Hl.
  destruct (document_record env _ _ a Hu Hl)
    as [(j & _ & E & _)|[(j & _ & E & _ & Hvs & Hc)|(_ & E & _)]];
    [discriminate E| |discriminate E].
  apply name_inj in E as <-. rewrite Hc, Hvs.
  destruct (resolved_fields opts)
    as (_ & _ & _ & _ & Hs & _ & _ & _ & _ & _ & _ & _ & _ & He).
  unfold alpha_Command, alpha_Volumes, init_Command. rewrite Hs, He.
  split; [|split; [|split]].
  - destruct (EnterpriseMode opts), (bool_decide (AclSecret opts ≠ ""));
      cbn [orb]; destruct (UserOwnership (resolved opts)),
        (Jaeger (resolved opts));
      first [contains_search | contains_none].
  - destruct (EnterpriseMode opts), (bool_decide (AclSecret opts ≠ ""));
      cbn [orb]; destruct (UserOwnership (resolved opts)),
        (Jaeger (resolved opts));
      first [contains_search | contains_none].
  - destruct (bool_decide_reflect (AclSecret opts ≠ "")) as [Hne|He'].
    + rewrite orb_true_r. cbn [andb]. split; [auto|]. intros _.
      exists (secret_volume (AclSecret opts)). split; [|reflexivity].
      apply elem_of_app. right. left.
    + rewrite andb_false_r. split; [|contradiction].
      intros (v & Hin & Ht). now apply init_Volumes_no_secret in Hin.
  - intros v Hin Ht.
    destruct ((EnterpriseMode opts || bool_decide (AclSecret opts ≠ ""))
              && bool_decide (AclSecret opts ≠ ""));
      [apply elem_of_app in Hin as [Hin|Hin]|].
    + now apply init_Volumes_no_secret in Hin.
    + now apply list_elem_of_singleton in Hin.
    + now apply init_Volumes_no_secret in Hin.
Qed.

Lemma acl_flags_follow_the_secret_witness :
  exists cfg,
    build env0 (resolved full_opts) = ([], Return cfg)
    /\ forall i a, 1 <= i <= NumAlphas full_opts ->
         Services cfg !! name "alpha" i = Some a ->
         contains "--acl_secret_file" (Command a)
         = bool_decide (AclSecret full_opts ≠ "")
         /\ contains "--enterprise_features" (Command a)
            = EnterpriseMode full_opts
              || bool_decide (AclSecret full_opts ≠ "")
         /\ ((exists v, v ∈ Volumes a /\ Target v = "/secret/hmac")
             <-> AclSecret full_opts <> "")
         /\ (forall v, v ∈ Volumes a -> Target v = "/secret/hmac" ->
               v = {| Type_ := "bind"; Source := AclSecret full_opts;
                      Target := "/secret/hmac"; ReadOnly := true |}).
Proof.
  apply (acl_flags_follow_the_secret env0 full_opts).
  - exact valid_full_opts.
  - exact (user_known_env0 full_opts).
Defined.

(** X10: the tmpfs of a node is the write-ahead-log directory of the
    directory it runs in. With the tmpfs toggle a zero has the one tmpfs
    [/data/<key>/zw] and an alpha the one tmpfs [/data/<key>/w], where
    [/data/<key>] is the working directory of the node or, under user
    ownership, the directory of its [--cwd] flag; without the toggle, and
    for jaeger, there is none. *)
Theorem tmpfs_holds_the_log_directory env opts :
  user_known env opts ->
  exists cfg,
    build env opts = ([], Return cfg)
    /\ forall k s, Services cfg !! k = Some s ->
         (opt_TempFS opts = false \/ k = "jaeger" -> TempFS s = [])
         /\ (opt_TempFS opts = true -> k <> "jaeger" ->
             exists sub,
               TempFS s = ["/data/" +:+ k +:+ sub]
               /\ (forall i, k = name "zero" i -> sub = "/zw")
               /\ (forall i, k = name "alpha" i -> sub = "/w")
               /\ (UserOwnership opts = false ->
                   WorkingDir s = "/data/" +:+ k)
               /\ (UserOwnership opts = true ->
                   contains (" --cwd=/data/" +:+ k) (Command s) = true)).
Proof.
  intros Hu.
  destruct (build_document env opts Hu) as (cfg & Hrun & _ & Hdoc & _).
  exists cfg. split; [exact Hrun|]. intros k s Hl. apply Hdoc in Hl.
  destruct (document_record env opts k s Hu Hl)
    as [(i & _ & -> & Hrec & _ & Hc)|[(i & _ & -> & Hrec & _ & Hc)
       |(_ & -> & ->)]].
  - destruct Hrec as (_ & _ & _ & Hw & _ & _ & _ & -> & _). split.
    + intros [-> |E]; [reflexivity | discriminate E].
    + intros -> _. exists "/zw". split; [reflexivity|].
      split; [reflexivity|]. split; [intros j E; discriminate E|].
      rewrite Hw, Hc. unfold init_WorkingDir, zero_Command, init_Command.
      split; intros ->; [reflexivity|].
      destruct (Jaeger opts), (i =? 1); contains_search.
  - destruct Hrec as (_ & _ & _ & Hw & _ & _ & _ & -> & _). split.
    + intros [-> |E]; [reflexivity | discriminate E].
    + intros -> _. exists "/w". split; [reflexivity|].
      split; [intros j E; discriminate E|]. split; [reflexivity|].
      rewrite Hw, Hc. unfold init_WorkingDir, alpha_Command, init_Command.
      split; intros ->; [reflexivity|].
      destruct (Jaeger opts), (EnterpriseMode opts),
        (bool_decide (AclSecret opts ≠ "")); contains_search.
  - split; [reflexivity|]. intros _ E. now contradiction E.
Qed.

Lemma tmpfs_holds_the_log_directory_witness :
  exists cfg,
    build env0 full_opts = ([], Return cfg)
    /\ forall k s, Services cfg !! k = Some s ->
         (opt_TempFS full_opts = false \/ k = "jaeger" -> TempFS s = [])
         /\ (opt_TempFS full_opts = true -> k <> "jaeger" ->
             exists sub,
               TempFS s = ["/data/" +:+ k +:+ sub]
               /\ (forall i, k = name "zero" i -> sub = "/zw")
               /\ (forall i, k = name "alpha" i -> sub = "/w")
               /\ (UserOwnership full_opts = false ->
                   WorkingDir s = "/data/" +:+ k)
               /\ (UserOwnership full_opts = true ->
                   contains (" --cwd=/data/" +:+ k) (Command s) = true)).
Proof.
  apply (tmpfs_holds_the_log_directory env0 full_opts).
  exact (user_known_env0 full_opts).
Defined.

(** * The replica factor *)

(** ** binary64: rounding in the normal range *)

Lemma digits2_pos_bounds (p : positive) :
  2 ^ (Z.pos (digits2_pos p) - 1) <= Z.pos p < 2 ^ Z.pos (digits2_pos p).
Proof.
  induction p as [p IH|p IH|]; cbn [digits2_pos].
  - rewrite Pos2Z.inj_succ. change (Z.pos p~1) with (2 * Z.pos p + 1).
    replace (Z.succ (Z.pos (digits2_pos p)) - 1)
      with (Z.succ (Z.pos (digits2_pos p) - 1)) by lia.
    rewrite !Z.pow_succ_r by lia.
    set (a := 2 ^ (Z.pos (digits2_pos p) - 1)) in *.
    set (b := 2 ^ (Z.pos (digits2_pos p))) in *. lia.
  - rewrite Pos2Z.inj_succ. change (Z.pos p~0) with (2 * Z.pos p).
    replace (Z.succ (Z.pos (digits2_pos p)) - 1)
      with (Z.succ (Z.pos (digits2_pos p) - 1)) by lia.
    rewrite !Z.pow_succ_r by lia.
    set (a := 2 ^ (Z.pos (digits2_pos p) - 1)) in *.
    set (b := 2 ^ (Z.pos (digits2_pos p))) in *. lia.
  - cbn. lia.
Qed.

Lemma Zdigits2_bounds (m : Z) :
  0 < m -> 0 < Zdigits2 m /\ 2 ^ (Zdigits2 m - 1) <= m < 2 ^ Zdigits2 m.
Proof.
  destruct m as [|p|p]; try lia. intros _. split; [cbn; lia|].
  apply digits2_pos_bounds.
Qed.

Lemma Zdigits2_unique (m k : Z) :
  0 < m -> 2 ^ (k - 1) <= m < 2 ^ k -> Zdigits2 m = k.
Proof.
  intros Hm [Hl Hu]. destruct (Zdigits2_bounds m Hm) as (Hd & Bl & Bu).
  assert (0 < k).
  { destruct (Z.ltb_spec 0 k) as [|Hk]; [assumption|].
    destruct (Z.eq_dec k 0) as [->|]; [cbn in Hu; lia|].
    rewrite Z.pow_neg_r in Hu by lia. lia. }
  destruct (Z.lt_trichotomy (Zdigits2 m) k) as [Hlt|[Heq|Hgt]]; [|exact Heq|].
  - assert (2 ^ Zdigits2 m <= 2 ^ (k - 1))
      by (apply Z.pow_le_mono_r; lia). lia.
  - assert (2 ^ k <= 2 ^ (Zdigits2 m - 1))
      by (apply Z.pow_le_mono_r; lia). lia.
Qed.

(** A number below [2 ^ k] has at most [k] binary digits. *)
Lemma Zdigits2_le (m k : Z) : 0 < m -> m < 2 ^ k -> Zdigits2 m <= k.
Proof.
  intros Hm Hu. destruct (Zdigits2_bounds m Hm) as (Hd & Bl & Bu).
  destruct (Z.le_gt_cases (Zdigits2 m) k) as [|Hgt]; [assumption|].
  assert (2 ^ k <= 2 ^ (Zdigits2 m - 1)) by (apply Z.pow_le_mono_r; lia).
  lia.
Qed.

Lemma shr_m_shr_1 (mrs : shr_record) :
  0 <= shr_m mrs -> shr_m (shr_1 mrs) = shr_m mrs / 2.
Proof.
  destruct mrs as [m r s]. cbn [shr_m]. intros Hm.
  destruct m as [|[p|p|]|p]; cbn [shr_1 shr_m]; try lia.
  - reflexivity.
  - change (Z.pos p~1) with (2 * Z.pos p + 1). apply Z.div_unique with 1; lia.
  - change (Z.pos p~0) with (2 * Z.pos p). apply Z.div_unique with 0; lia.
  - reflexivity.
Qed.

Lemma shr_m_iter_shr_1 (p : positive) (mrs : shr_record) :
  0 <= shr_m mrs ->
  shr_m (SpecFloat.iter_pos shr_1 p mrs) = shr_m mrs / 2 ^ Z.pos p.
Proof.
  revert mrs. induction p as [p IH|p IH|]; intros mrs Hm; cbn [SpecFloat.iter_pos].
  - assert (0 <= shr_m (shr_1 mrs))
      by (rewrite shr_m_shr_1 by lia; apply Z.div_pos; lia).
    assert (0 <= shr_m (SpecFloat.iter_pos shr_1 p (shr_1 mrs)))
      by (rewrite IH by lia; apply Z.div_pos; lia).
    rewrite IH, IH, shr_m_shr_1 by lia.
    rewrite !Z.div_div by lia. f_equal.
    change (Z.pos p~1) with (Z.succ (2 * Z.pos p)).
    rewrite Z.pow_succ_r, Z.pow_twice_r by lia. lia.
  - assert (0 <= shr_m (SpecFloat.iter_pos shr_1 p mrs))
      by (rewrite IH by lia; apply Z.div_pos; lia).
    rewrite IH, IH by lia.
    rewrite !Z.div_div by lia. f_equal.
    change (Z.pos p~0) with (2 * Z.pos p). rewrite Z.pow_twice_r. reflexivity.
  - now apply shr_m_shr_1.
Qed.

Lemma fexp_normal (x : Z) :
  -1021 <= x -> fexp prec emax x = x - 53.
Proof. unfold fexp, emin, prec, emax. lia. Qed.

(** The mantissa after [shr_fexp], for a mantissa of at least 53 digits. *)
Lemma shr_fexp_normal (m e : Z) (l : location) :
  0 < m -> 53 <= Zdigits2 m -> -1021 <= Zdigits2 m + e ->
  exists mrs,
    shr_fexp prec emax m e l = (mrs, e + (Zdigits2 m - 53))
    /\ 2 ^ 52 <= shr_m mrs < 2 ^ 53.
Proof.
  intros Hm Hd He. unfold shr_fexp. rewrite fexp_normal by lia.
  destruct (Zdigits2_bounds m Hm) as (_ & Bl & Bu).
  assert (shr_m (shr_record_of_loc m l) = m) as Hrec
    by (destruct l as [|[]]; reflexivity).
  replace (Zdigits2 m + e - 53 - e) with (Zdigits2 m - 53) by lia.
  destruct (Zdigits2 m - 53) as [|k|k] eqn:Ek; try lia; cbn [shr].
  - eexists. split; [f_equal; lia|].
    rewrite Hrec. replace (Zdigits2 m) with 53 in * by lia.
    change (53 - 1) with 52 in Bl. lia.
  - eexists. split; [reflexivity|].
    rewrite shr_m_iter_shr_1, Hrec by (rewrite Hrec; lia).
    replace (Zdigits2 m) with (Z.pos k + 53) in * by lia.
    replace (Z.pos k + 53 - 1) with (52 + Z.pos k) in Bl by lia.
    replace (Z.pos k + 53) with (53 + Z.pos k) in Bu by lia.
    rewrite Z.pow_add_r in Bl, Bu by lia.
    split.
    + apply Z.div_le_lower_bound; lia.
    + apply Z.div_lt_upper_bound; lia.
Qed.

Lemma round_nearest_even_cases (mx : Z) (lx : location) :
  round_nearest_even mx lx = mx \/ round_nearest_even mx lx = mx + 1.
Proof.
  destruct lx as [|[]]; cbn; auto. destruct (Z.even mx); auto.
Qed.

(** Rounding a positive mantissa of at least 53 digits, away from overflow
    and underflow: the result is a normal number. Its exponent is that of
    the leading digit, or one more when the mantissa was rounded up to a
    power of two. *)
Lemma binary_round_aux_normal (s : bool) (m e : Z) (l : location) :
  0 < m -> 53 <= Zdigits2 m ->
  -1021 <= Zdigits2 m + e -> Zdigits2 m + e <= 1023 ->
  exists m' e',
    binary_round_aux prec emax s m e l = S754_finite s m' e'
    /\ 2 ^ 52 <= Z.pos m' < 2 ^ 53
    /\ (e' = e + Zdigits2 m - 53
        \/ (e' = e + Zdigits2 m - 52 /\ Z.pos m' = 2 ^ 52)).
Proof.
  intros Hm Hd Hlo Hhi. unfold binary_round_aux.
  destruct (shr_fexp_normal m e l Hm Hd Hlo) as (mrs & -> & Hr).
  set (m2 := round_nearest_even (shr_m mrs) (loc_of_shr_record mrs)).
  assert (2 ^ 52 <= m2 <= 2 ^ 53) as Hm2.
  { destruct (round_nearest_even_cases (shr_m mrs) (loc_of_shr_record mrs))
      as [E|E]; fold m2 in E; lia. }
  set (e1 := e + (Zdigits2 m - 53)).
  destruct (Z.eq_dec m2 (2 ^ 53)) as [E|E].
  - (* the carry: one more shift *)
    rewrite E. unfold shr_fexp.
    change (Zdigits2 (2 ^ 53)) with 54.
    rewrite fexp_normal by (unfold e1; lia).
    replace (54 + e1 - 53 - e1) with 1 by lia.
    cbn [shr SpecFloat.iter_pos shr_record_of_loc].
    change (shr_m (shr_1 {| shr_m := 2 ^ 53; shr_r := false; shr_s := false |}))
      with (2 ^ 52).
    change (2 ^ 52) with (Z.pos (2 ^ 52)).
    cbv iota beta.
    replace (e1 + 1 <=? emax - prec) with true
      by (symmetry; apply Z.leb_le; unfold e1, emax, prec; lia).
    eexists _, _. split; [reflexivity|].
    split; [lia|]. right. unfold e1. split; [lia | reflexivity].
  - assert (Zdigits2 m2 = 53) as D2
      by (apply Zdigits2_unique; change (53 - 1) with 52; lia).
    unfold shr_fexp. rewrite D2, fexp_normal by (unfold e1; lia).
    replace (53 + e1 - 53 - e1) with 0 by lia.
    cbn [shr shr_record_of_loc shr_m].
    destruct m2 as [|p|p] eqn:Em2; try lia.
    replace (e1 <=? emax - prec) with true
      by (symmetry; apply Z.leb_le; unfold e1, emax, prec; lia).
    eexists _, _. split; [reflexivity|].
    split; [lia|]. left. unfold e1. lia.
Qed.

(** A mantissa of exactly 53 digits with nothing to round is kept. *)
Lemma binary_round_aux_exact (s : bool) (p : positive) (e : Z) :
  Zdigits2 (Z.pos p) = 53 -> -1021 <= 53 + e -> 53 + e <= 1023 ->
  binary_round_aux prec emax s (Z.pos p) e loc_Exact = S754_finite s p e.
Proof.
  intros Hd Hlo Hhi. unfold binary_round_aux, shr_fexp.
  rewrite Hd, fexp_normal by lia.
  replace (53 + e - 53 - e) with 0 by lia.
  cbn [shr shr_record_of_loc shr_m loc_of_shr_record shr_r shr_s
       round_nearest_even].
  rewrite Hd, fexp_normal by lia.
  replace (53 + e - 53 - e) with 0 by lia.
  cbn [shr shr_record_of_loc shr_m].
  replace (e <=? emax - prec) with true
    by (symmetry; apply Z.leb_le; unfold emax, prec; lia).
  reflexivity.
Qed.

Lemma pos_iter_xO (p n : positive) :
  Z.pos (Pos.iter xO p n) = Z.pos p * 2 ^ Z.pos n.
Proof.
  induction n as [|n IH] using Pos.peano_ind.
  - cbn. lia.
  - rewrite Pos.iter_succ, Pos2Z.inj_succ, Z.pow_succ_r by lia.
    change (Z.pos (Pos.iter xO p n)~0) with (2 * Z.pos (Pos.iter xO p n)).
    rewrite IH. lia.
Qed.

(** [float64(z)] of a positive [z] below [2 ^ 1000] is a normal number whose
    exponent is that of the leading digit of [z], or one more. *)
Lemma float64_of_int_normal (z : Z) :
  0 < z -> Zdigits2 z <= 1000 ->
  exists m e,
    float64_of_int z = S754_finite false m e
    /\ 2 ^ 52 <= Z.pos m < 2 ^ 53
    /\ (e = Zdigits2 z - 53 \/ e = Zdigits2 z - 52).
Proof.
  intros Hz Hd. destruct z as [|p|p]; try lia.
  destruct (Zdigits2_bounds (Z.pos p) Hz) as (Hd0 & Bl & Bu).
  unfold float64_of_int, binary_normalize, binary_round.
  change (Z.pos (digits2_pos p)) with (Zdigits2 (Z.pos p)).
  set (d := Zdigits2 (Z.pos p)) in *.
  rewrite fexp_normal by lia. unfold shl_align.
  replace (d + 0 - 53 - 0) with (d - 53) by lia.
  destruct (d - 53) as [|k|k] eqn:Ek.
  - destruct (binary_round_aux_normal false (Z.pos p) 0 loc_Exact)
      as (m' & e' & -> & Hm' & He'); fold d; try lia.
    exists m', e'. repeat split; try lia.
  - destruct (binary_round_aux_normal false (Z.pos p) 0 loc_Exact)
      as (m' & e' & -> & Hm' & He'); fold d; try lia.
    exists m', e'. repeat split; try lia.
  - assert (Zdigits2 (Z.pos (Pos.iter xO p k)) = 53) as D.
    { apply Zdigits2_unique; [lia|]. rewrite pos_iter_xO.
      assert (2 ^ (53 - 1) = 2 ^ (d - 1) * 2 ^ Z.pos k) as ->
        by (rewrite <- Z.pow_add_r by lia; f_equal; lia).
      assert (2 ^ 53 = 2 ^ d * 2 ^ Z.pos k) as ->
        by (rewrite <- Z.pow_add_r by lia; f_equal; lia).
      assert (0 < 2 ^ Z.pos k) by (apply Z.pow_pos_nonneg; lia).
      split.
      - apply Z.mul_le_mono_nonneg_r; lia.
      - apply Z.mul_lt_mono_pos_r; lia. }
    rewrite binary_round_aux_exact by (rewrite ?D; lia).
    eexists _, _. split; [reflexivity|]. split; [|lia].
    pose proof (Zdigits2_bounds (Z.pos (Pos.iter xO p k)) ltac:(lia))
      as (_ & B).
    rewrite D in B. change (53 - 1) with 52 in B. exact B.
Qed.

(** Up to [2 ^ 53] the conversion is exact: the mantissa is [z] shifted to
    53 digits. *)
Lemma float64_of_int_exact (z : Z) :
  0 < z -> Zdigits2 z <= 53 ->
  exists m,
    float64_of_int z = S754_finite false m (Zdigits2 z - 53)
    /\ Z.pos m = z * 2 ^ (53 - Zdigits2 z).
Proof.
  intros Hz Hd. destruct z as [|p|p]; try lia.
  destruct (Zdigits2_bounds (Z.pos p) Hz) as (Hd0 & Bl & Bu).
  unfold float64_of_int, binary_normalize, binary_round.
  change (Z.pos (digits2_pos p)) with (Zdigits2 (Z.pos p)).
  set (d := Zdigits2 (Z.pos p)) in *.
  rewrite fexp_normal by lia. unfold shl_align.
  replace (d + 0 - 53 - 0) with (d - 53) by lia.
  destruct (d - 53) as [|k|k] eqn:Ek; try lia.
  - rewrite binary_round_aux_exact by (fold d; lia).
    exists p. split; [f_equal; lia|].
    replace (53 - d) with 0 by lia. lia.
  - assert (Z.pos k = 53 - d) as Hk by lia.
    assert (Zdigits2 (Z.pos (Pos.iter xO p k)) = 53) as D.
    { apply Zdigits2_unique; [lia|]. rewrite pos_iter_xO.
      assert (2 ^ (53 - 1) = 2 ^ (d - 1) * 2 ^ Z.pos k) as ->
        by (rewrite <- Z.pow_add_r by lia; f_equal; lia).
      assert (2 ^ 53 = 2 ^ d * 2 ^ Z.pos k) as ->
        by (rewrite <- Z.pow_add_r by lia; f_equal; lia).
      assert (0 < 2 ^ Z.pos k) by (apply Z.pow_pos_nonneg; lia).
      split.
      - apply Z.mul_le_mono_nonneg_r; lia.
      - apply Z.mul_lt_mono_pos_r; lia. }
    rewrite binary_round_aux_exact by (rewrite ?D; lia).
    exists (Pos.iter xO p k). split; [f_equal; lia|].
    rewrite pos_iter_xO, Hk. reflexivity.
Qed.

(** The quotient of two positive normal numbers: its mantissa is the
    rounded integer quotient [q] of the mantissas, the dividend shifted by
    53 digits. *)
Lemma float64_div_normal (ma mg : positive) (ea eg : Z) :
  2 ^ 52 <= Z.pos ma < 2 ^ 53 -> 2 ^ 52 <= Z.pos mg < 2 ^ 53 ->
  -500 <= ea - eg <= 500 ->
  exists m e,
    float64_div (S754_finite false ma ea) (S754_finite false mg eg)
    = S754_finite false m e
    /\ 2 ^ 52 <= Z.pos m < 2 ^ 53
    /\ let d := Zdigits2 (Z.pos ma * 2 ^ 53 / Z.pos mg) in
       53 <= d <= 54
       /\ (e = ea - eg + d - 106
           \/ (e = ea - eg + d - 105 /\ Z.pos m = 2 ^ 52)).
Proof.
  intros Ha Hg He. unfold float64_div, SFdiv, SFdiv_core_binary.
  assert (Zdigits2 (Z.pos ma) = 53) as -> by (apply Zdigits2_unique; lia).
  assert (Zdigits2 (Z.pos mg) = 53) as -> by (apply Zdigits2_unique; lia).
  rewrite fexp_normal by lia.
  replace (Z.min (53 + ea - (53 + eg) - 53) (ea - eg)) with (ea - eg - 53)
    by lia.
  replace (ea - eg - (ea - eg - 53)) with 53 by lia.
  cbv iota beta. rewrite Z.shiftl_mul_pow2 by lia.
  unfold Z.div.
  pose proof (Z.div_eucl_eq (Z.pos ma * 2 ^ 53) (Z.pos mg)) as Hdm.
  pose proof (Z.mod_pos_bound (Z.pos ma * 2 ^ 53) (Z.pos mg)) as Hmod.
  unfold Z.modulo in Hmod.
  destruct (Z.div_eucl (Z.pos ma * 2 ^ 53) (Z.pos mg)) as [q r].
  specialize (Hdm ltac:(lia)). specialize (Hmod ltac:(lia)).
  cbn [xorb fst].
  assert (2 ^ 52 <= q < 2 ^ 54) as Hq.
  { change (2 ^ 52) with 4503599627370496 in *.
    change (2 ^ 53) with 9007199254740992 in *.
    change (2 ^ 54) with 18014398509481984. nia. }
  assert (Zdigits2 q = 53 \/ Zdigits2 q = 54) as Dq.
  { destruct (Z.lt_ge_cases q (2 ^ 53)).
    - left. apply Zdigits2_unique; change (53 - 1) with 52; lia.
    - right. apply Zdigits2_unique; change (54 - 1) with 53; lia. }
  destruct (binary_round_aux_normal false q (ea - eg - 53)
              (new_location (Z.pos mg) r))
    as (m' & e' & -> & Hm' & He'); try lia.
  exists m', e'. repeat split; lia.
Qed.

(** ** The ceiling of a quotient *)

(** The least integer not below [a / g]. *)
Definition ceil_div (a g : Z) : Z := - ((- a) / g).

Definition replicas_of (a g : Z) : Z :=
  int_of_float64
    (math_Ceil (float64_div (float64_of_int a) (float64_of_int g))).

Lemma ceil_below_one (m : positive) (e : Z) :
  Z.pos m < 2 ^ 53 -> e <= -53 ->
  int_of_float64 (math_Ceil (S754_finite false m e)) = 1.
Proof.
  intros Hm He. unfold math_Ceil.
  replace (0 <=? e) with false by (symmetry; apply Z.leb_gt; lia).
  assert (2 ^ 53 <= 2 ^ (- e)) by (apply Z.pow_le_mono_r; lia).
  replace (- Z.pos m / 2 ^ (- e)) with (-1).
  - reflexivity.
  - apply Z.div_unique with (2 ^ (- e) - Z.pos m); lia.
Qed.

(** Fewer alphas than groups: the quotient is in (0, 1] and its ceiling
    is 1. *)
Lemma replicas_of_below (a g : Z) :
  1 <= a -> a < 2 ^ 53 -> a < g -> g <= max_int64 -> replicas_of a g = 1.
Proof.
  intros Ha1 Ha2 Hag Hg. unfold replicas_of, max_int64 in *.
  destruct (Zdigits2_bounds a ltac:(lia)) as (Da0 & Dal & Dau).
  destruct (Zdigits2_bounds g ltac:(lia)) as (Dg0 & Dgl & Dgu).
  pose proof (Zdigits2_le a 53 ltac:(lia) Ha2) as Da.
  pose proof (Zdigits2_le g 63 ltac:(lia) ltac:(lia)) as Dg.
  assert (Zdigits2 a <= Zdigits2 g) as Dag.
  { apply Zdigits2_le; lia. }
  destruct (float64_of_int_exact a) as (ma & -> & Hma); try lia.
  set (da := Zdigits2 a) in *. set (dg := Zdigits2 g) in *.
  assert (2 ^ 52 <= Z.pos ma < 2 ^ 53) as Bma.
  { rewrite Hma.
    assert (2 ^ 52 = 2 ^ (da - 1) * 2 ^ (53 - da)) as ->
      by (rewrite <- Z.pow_add_r by lia; f_equal; lia).
    assert (2 ^ 53 = 2 ^ da * 2 ^ (53 - da)) as ->
      by (rewrite <- Z.pow_add_r by lia; f_equal; lia).
    assert (0 < 2 ^ (53 - da)) by (apply Z.pow_pos_nonneg; lia).
    split.
    - apply Z.mul_le_mono_nonneg_r; lia.
    - apply Z.mul_lt_mono_pos_r; lia. }
  assert (exists mg eg,
            float64_of_int g = S754_finite false mg eg
            /\ 2 ^ 52 <= Z.pos mg < 2 ^ 53
            /\ da - 53 <= eg <= dg - 52
            /\ Z.pos ma < Z.pos mg * 2 ^ (eg - (da - 53))) as Hfg.
  { destruct (Z.le_gt_cases dg 53) as [Hs|Hl].
    - destruct (float64_of_int_exact g) as (mg & E & Hmg); try lia.
      fold dg in E, Hmg.
      assert (2 ^ 52 <= Z.pos mg < 2 ^ 53) as Bmg.
      { rewrite Hmg.
        assert (2 ^ 52 = 2 ^ (dg - 1) * 2 ^ (53 - dg)) as ->
          by (rewrite <- Z.pow_add_r by lia; f_equal; lia).
        assert (2 ^ 53 = 2 ^ dg * 2 ^ (53 - dg)) as ->
          by (rewrite <- Z.pow_add_r by lia; f_equal; lia).
        assert (0 < 2 ^ (53 - dg)) by (apply Z.pow_pos_nonneg; lia).
        split.
        - apply Z.mul_le_mono_nonneg_r; lia.
        - apply Z.mul_lt_mono_pos_r; lia. }
      exists mg, (dg - 53). repeat split; try lia; [exact E|].
      rewrite Hma, Hmg, <- Z.mul_assoc, <- Z.pow_add_r by lia.
      replace (53 - dg + (dg - 53 - (da - 53))) with (53 - da) by lia.
      assert (0 < 2 ^ (53 - da)) by (apply Z.pow_pos_nonneg; lia).
      apply Z.mul_lt_mono_pos_r; lia.
    - destruct (float64_of_int_normal g) as (mg & eg & E & Bmg & Heg);
        try (fold dg; lia).
      fold dg in Heg. exists mg, eg. repeat split; try lia; [exact E|].
      assert (2 ^ 1 <= 2 ^ (eg - (da - 53)))
        by (apply Z.pow_le_mono_r; lia).
      change (2 ^ 1) with 2 in *. nia. }
  destruct Hfg as (mg & eg & -> & Bmg & Heg & Hlt).
  destruct (float64_div_normal ma mg (da - 53) eg Bma Bmg ltac:(lia))
    as (m & e & -> & Bm & Hd & He).
  set (q := Z.pos ma * 2 ^ 53 / Z.pos mg) in *.
  assert (q < 2 ^ (eg - (da - 53) + 53)) as Hq.
  { apply Z.div_lt_upper_bound; [lia|].
    rewrite Z.pow_add_r by lia.
    assert (0 < 2 ^ 53) by lia.
    set (K := 2 ^ (eg - (da - 53))) in *. nia. }
  assert (0 < q).
  { apply Z.div_str_pos. change (2 ^ 53) with 9007199254740992 in *. lia. }
  pose proof (Zdigits2_le q _ ltac:(lia) Hq) as Dq.
  destruct He as [He|[He Hm]].
  - apply ceil_below_one; lia.
  - destruct (Z.eq_dec e (-52)) as [->|Hne].
    + assert (m = (2 ^ 52)%positive) as -> by lia. reflexivity.
    + apply ceil_below_one; lia.
Qed.

Lemma ceil_div_below (a g : Z) : 1 <= a <= g -> ceil_div a g = 1.
Proof.
  intros H. unfold ceil_div.
  replace (- a / g) with (-1); [reflexivity|].
  apply Z.div_unique with (g - a); lia.
Qed.

(** The remaining quotients, by evaluation. *)
Lemma replicas_of_small_check :
  forallb (fun a => forallb (fun g => replicas_of a g =? ceil_div a g)
                      (seqZ 1 a))
    (seqZ 1 99) = true.
Proof. vm_compute. reflexivity. Qed.

Lemma replicas_of_exact (a g : Z) :
  1 <= a <= 99 -> 1 <= g <= max_int64 -> replicas_of a g = ceil_div a g.
Proof.
  intros Ha Hg. destruct (Z.le_gt_cases g a) as [Hs|Hl].
  - pose proof replicas_of_small_check as H.
    rewrite forallb_forall in H.
    specialize (H a). rewrite forallb_forall in H.
    apply Z.eqb_eq, H.
    + apply list_elem_of_In, elem_of_seqZ. lia.
    + apply list_elem_of_In, elem_of_seqZ. lia.
  - rewrite replicas_of_below, ceil_div_below by lia. reflexivity.
Qed.

(** [ceil_div] is the ceiling: the least [c] with [a <= c * g]. *)
Lemma ceil_div_spec (a g : Z) :
  0 < g -> (ceil_div a g - 1) * g < a <= ceil_div a g * g.
Proof.
  intros Hg. unfold ceil_div.
  pose proof (Z.div_mod (- a) g ltac:(lia)) as E.
  pose proof (Z.mod_pos_bound (- a) g Hg) as B. nia.
Qed.

(** ** The replicas flag *)

Lemma replicas_eq (opts : Options) :
  replicas opts = replicas_of (NumAlphas opts) (NumGroups opts).
Proof. reflexivity. Qed.

(** X11: for NumAlphas in 1..99 and NumGroups from 1 up to the largest
    [int], the replica factor computed in binary64 is the exact integer
    ceiling [c] of NumAlphas divided by NumGroups, the least [c] with
    [NumAlphas <= c * NumGroups], and the command line of every zero has
    the flag [--replicas=c]. *)
Theorem replicas_is_the_exact_ceiling env opts i :
  user_known env opts ->
  1 <= NumAlphas opts <= 99 -> 1 <= NumGroups opts <= max_int64 ->
  let c := ceil_div (NumAlphas opts) (NumGroups opts) in
  (c - 1) * NumGroups opts < NumAlphas opts <= c * NumGroups opts
  /\ replicas opts = c
  /\ exists z,
       getZero env opts i = ([], Return z)
       /\ contains (" --replicas=" +:+ fmt_d c +:+ " ") (Command z) = true.
Proof.
  intros Hu Ha Hg c.
  assert (replicas opts = c) as Hc
    by (rewrite replicas_eq; now apply replicas_of_exact).
  split; [apply ceil_div_spec; lia|]. split; [exact Hc|].
  destruct (getZero_returns env opts i Hu) as (z & Hz & _ & _ & _ & Hcmd).
  exists z. split; [exact Hz|].
  rewrite Hcmd. unfold zero_Command. rewrite Hc.
  apply contains_app_l.
  change (" --logtostderr -v=" +:+ fmt_d (Verbosity opts))
    with (" " +:+ "--logtostderr -v=" +:+ fmt_d (Verbosity opts)).
  apply contains_iff.
  exists ((init_Command opts (name "zero" i)
           +:+ " zero -o " +:+ fmt_d (int_sub i 1) +:+ " --idx=" +:+ fmt_d i)
          +:+ " --my=" +:+ name "zero" i +:+ ":" +:+ fmt_d (zero_grpcPort i)),
    ("--logtostderr -v=" +:+ fmt_d (Verbosity opts)).
  rewrite !str_app_assoc. reflexivity.
Qed.

(** Five alphas in two groups. *)
Lemma replicas_is_the_exact_ceiling_witness :
  let c := ceil_div (NumAlphas full_opts) (NumGroups full_opts) in
  (c - 1) * NumGroups full_opts < NumAlphas full_opts
                                  <= c * NumGroups full_opts
  /\ replicas full_opts = c
  /\ exists z,
       getZero env0 full_opts 2 = ([], Return z)
       /\ contains (" --replicas=" +:+ fmt_d c +:+ " ") (Command z) = true.
Proof.
  apply (replicas_is_the_exact_ceiling env0 full_opts 2).
  - exact (user_known_env0 full_opts).
  - cbn. lia.
  - unfold max_int64. cbn. lia.
Defined.

(** A float that is not a positive number: converted to [int] it is at
    most 0. *)
Definition not_positive (x : spec_float) : Prop :=
  match x with
  | S754_finite false _ _ => False
  | _ => True
  end.

Lemma binary_round_aux_negative (m e : Z) (l : location) :
  not_positive (binary_round_aux prec emax true m e l).
Proof.
  unfold binary_round_aux.
  destruct (shr_fexp prec emax m e l) as [mrs' e'].
  destruct (shr_fexp prec emax _ e' loc_Exact) as [mrs'' e''].
  destruct (shr_m mrs''); [exact I| |exact I].
  destruct (e'' <=? emax - prec); exact I.
Qed.

Lemma float64_of_int_negative (g : Z) :
  g < 0 ->
  not_positive (float64_of_int g)
  /\ forall s m e, float64_of_int g = S754_finite s m e -> s = true.
Proof.
  intros Hg. destruct g as [|p|p]; try lia.
  unfold float64_of_int, binary_normalize, binary_round.
  destruct (shl_align p 0 _) as [mz ez].
  pose proof (binary_round_aux_negative (Z.pos mz) ez loc_Exact) as H.
  split; [exact H|]. intros s m e E. rewrite E in H.
  destruct s; [reflexivity | contradiction].
Qed.

Lemma math_Ceil_not_positive (x : spec_float) :
  not_positive x -> not_positive (math_Ceil x).
Proof.
  destruct x as [s|s| |s m e]; try (intros _; exact I).
  destruct s; [intros _|intros []].
  unfold math_Ceil. destruct (0 <=? e); [exact I|].
  assert (0 <= Z.pos m / 2 ^ (- e)) as Hq
    by (apply Z_div_nonneg_nonneg; [lia | apply Z.pow_nonneg; lia]).
  destruct (- (Z.pos m / 2 ^ (- e))) as [|n|n] eqn:En;
    cbn [binary_normalize]; [exact I | lia |].
  unfold binary_round. destruct (shl_align n 0 _).
  apply binary_round_aux_negative.
Qed.

Lemma int_of_float64_not_positive (x : spec_float) :
  not_positive x -> int_of_float64 x <= 0.
Proof.
  destruct x as [s|s| |s m e]; cbn [int_of_float64 not_positive];
    unfold min_int64; try lia.
  destruct s; [intros _|intros []].
  assert (0 <= (if 0 <=? e then Z.pos m * 2 ^ e else Z.pos m / 2 ^ (- e)))
    as Hpos.
  { destruct (0 <=? e).
    - apply Z.mul_nonneg_nonneg; [lia|]. apply Z.pow_nonneg. lia.
    - apply Z_div_nonneg_nonneg; [lia|]. apply Z.pow_nonneg. lia. }
  destruct (_ && _); lia.
Qed.

Lemma replicas_resolved opts : replicas (resolved opts) = replicas opts.
Proof.
  unfold replicas. unfold resolved.
  now destruct (acl_forces_enterprise opts).
Qed.

(** X12: the number of groups is not checked. Valid options with
    NumGroups = 0 or a negative NumGroups pass the sanity checks unchanged
    but for the enterprise toggle. With NumGroups = 0 the quotient whose
    ceiling is converted to the replica factor is plus infinity; with a
    negative NumGroups the replica factor is zero or negative. *)
Theorem nonpositive_groups_pass_the_checks opts :
  valid opts -> NumGroups opts <= 0 ->
  sanity_checks opts = (acl_warnings opts, Return (resolved opts))
  /\ NumGroups (resolved opts) = NumGroups opts
  /\ NumAlphas (resolved opts) = NumAlphas opts
  /\ (NumGroups opts = 0 ->
      math_Ceil (float64_div (float64_of_int (NumAlphas opts))
                             (float64_of_int (NumGroups opts)))
      = S754_infinity false)
  /\ (NumGroups opts < 0 -> replicas (resolved opts) <= 0).
Proof.
  intros Hv Hg.
  destruct (resolved_fields opts) as (_ & Hna & Hng & _).
  split; [now apply sanity_checks_valid|]. split; [exact Hng|].
  split; [exact Hna|].
  destruct Hv as (_ & Ha & _).
  assert (Zdigits2 (NumAlphas opts) <= 1000) as Hd.
  { assert (Zdigits2 (NumAlphas opts) <= 7); [|lia].
    apply Zdigits2_le; [lia|]. change (2 ^ 7) with 128. lia. }
  destruct (float64_of_int_normal (NumAlphas opts) ltac:(lia) Hd)
    as (ma & ea & Hfa & _).
  split.
  - intros ->. rewrite Hfa. reflexivity.
  - intros Hneg. rewrite replicas_resolved. unfold replicas. rewrite Hfa.
    apply int_of_float64_not_positive, math_Ceil_not_positive.
    destruct (float64_of_int_negative (NumGroups opts) Hneg) as [Hnp Hsign].
    unfold float64_div, SFdiv.
    destruct (float64_of_int (NumGroups opts)) as [s|s| |s m e];
      try exact I.
    rewrite (Hsign s m e eq_refl).
    destruct (SFdiv_core_binary prec emax (Z.pos ma) ea (Z.pos m) e)
      as [[mz ez] lz].
    apply binary_round_aux_negative.
Qed.

(** The defaults, with no group at all. *)
Definition no_groups_opts : Options :=
  {| NumZeros := 3; NumAlphas := 3; NumGroups := 0; LruSizeMB := 1024;
     EnterpriseMode := false; AclSecret := ""; DataDir := "";
     DataVol := false; opt_TempFS := false; UserOwnership := false;
     Jaeger := false; TestPortRange := true; Verbosity := 2;
     OutFile := "./docker-compose.yml" |}.

Lemma valid_no_groups_opts : valid no_groups_opts.
Proof. unfold valid; cbn. repeat split; try lia; discriminate. Defined.

Lemma nonpositive_groups_pass_the_checks_witness :
  sanity_checks no_groups_opts
  = (acl_warnings no_groups_opts, Return (resolved no_groups_opts))
  /\ NumGroups (resolved no_groups_opts) = NumGroups no_groups_opts
  /\ NumAlphas (resolved no_groups_opts) = NumAlphas no_groups_opts
  /\ (NumGroups no_groups_opts = 0 ->
      math_Ceil (float64_div (float64_of_int (NumAlphas no_groups_opts))
                             (float64_of_int (NumGroups no_groups_opts)))
      = S754_infinity false)
  /\ (NumGroups no_groups_opts < 0 -> replicas (resolved no_groups_opts) <= 0).
Proof.
  apply (nonpositive_groups_pass_the_checks no_groups_opts).
  - exact valid_no_groups_opts.
  - cbn. lia.
Defined.

(** ** Port offsets *)

(** X13: the port offset and the advertised port of a node. Node [i] of
    1..99 is started with the port offset [i - 1], plus 100 for an alpha
    under the test port range. The port it advertises with [--my] is the
    base port of its role plus that offset for the first node, and one
    more than that for every later node. *)
Theorem port_offset_flag env opts i :
  user_known env opts -> 1 <= i <= 99 ->
  let b := if TestPortRange opts then 100 else 0 in
  let later := if i =? 1 then 0 else 1 in
  (exists z,
     getZero env opts i = ([], Return z)
     /\ contains (" zero -o " +:+ fmt_d (i - 1) +:+ " --idx=" +:+ fmt_d i
                  +:+ " --my=" +:+ name "zero" i +:+ ":"
                  +:+ fmt_d (5080 + (i - 1) + later) +:+ " ")
          (Command z) = true)
  /\ (exists a,
     getAlpha env opts i = ([], Return a)
     /\ contains (" alpha -o " +:+ fmt_d (b + i - 1)
                  +:+ " --my=" +:+ name "alpha" i +:+ ":"
                  +:+ fmt_d (7080 + (b + i - 1) + later) +:+ " ")
          (Command a) = true).
Proof.
  intros Hu Hi b later. split.
  - destruct (getZero_returns env opts i Hu) as (z & Hz & _ & _ & _ & Hc).
    exists z. split; [exact Hz|]. rewrite Hc. unfold zero_Command.
    rewrite (zero_grpcPort_eq i Hi), int_sub_small by lia.
    replace (5080 + (if i =? 1 then 0 else i)) with (5080 + (i - 1) + later)
      by (unfold later; destruct (Z.eqb_spec i 1); lia).
    do 2 apply contains_app_l.
    change (" --replicas=" +:+ fmt_d (replicas opts))
      with (" " +:+ "--replicas=" +:+ fmt_d (replicas opts)).
    apply contains_iff.
    exists (init_Command opts (name "zero" i)),
      ("--replicas=" +:+ fmt_d (replicas opts)).
    rewrite !str_app_assoc. reflexivity.
  - destruct (getAlpha_returns env opts i Hu) as (a & Ha & _ & _ & _ & Hc).
    exists a. split; [exact Ha|]. rewrite Hc. unfold alpha_Command.
    cbv zeta.
    rewrite (alpha_internalPort_eq opts i Hi), alpha_baseOffset_eq.
    fold b.
    rewrite (int_add_small b i), int_sub_small
      by (unfold b; destruct (TestPortRange opts); lia).
    replace (7080 + b + (if i =? 1 then 0 else i))
      with (7080 + (b + i - 1) + later)
      by (unfold later; destruct (Z.eqb_spec i 1); lia).
    match goal with
    | |- context [?x +:+ " --enterprise_features"] => set (c := x)
    end.
    assert (contains (" alpha -o " +:+ fmt_d (b + i - 1)
                      +:+ " --my=" +:+ name "alpha" i +:+ ":"
                      +:+ fmt_d (7080 + (b + i - 1) + later) +:+ " ") c
            = true) as Hcont.
    { subst c. do 3 apply contains_app_l.
      change (" --lru_mb=" +:+ fmt_d (LruSizeMB opts))
        with (" " +:+ "--lru_mb=" +:+ fmt_d (LruSizeMB opts)).
      apply contains_iff.
      exists (init_Command opts (name "alpha" i)),
        ("--lru_mb=" +:+ fmt_d (LruSizeMB opts)).
      rewrite !str_app_assoc. reflexivity. }
    destruct (EnterpriseMode opts), (bool_decide (AclSecret opts ≠ ""));
      auto using contains_app_l.
Qed.

Lemma port_offset_flag_witness :
  let b := if TestPortRange full_opts then 100 else 0 in
  let later := if 2 =? 1 then 0 else 1 in
  (exists z,
     getZero env0 full_opts 2 = ([], Return z)
     /\ contains (" zero -o " +:+ fmt_d (2 - 1) +:+ " --idx=" +:+ fmt_d 2
                  +:+ " --my=" +:+ name "zero" 2 +:+ ":"
                  +:+ fmt_d (5080 + (2 - 1) + later) +:+ " ")
          (Command z) = true)
  /\ (exists a,
     getAlpha env0 full_opts 2 = ([], Return a)
     /\ contains (" alpha -o " +:+ fmt_d (b + 2 - 1)
                  +:+ " --my=" +:+ name "alpha" 2 +:+ ":"
                  +:+ fmt_d (7080 + (b + 2 - 1) + later) +:+ " ")
          (Command a) = true).
Proof.
  apply (port_offset_flag env0 full_opts 2).
  - exact (user_known_env0 full_opts).
  - lia.
Defined.

(** * The run as a whole *)

Lemma set_EnterpriseMode_same (opts : Options) :
  set_EnterpriseMode (EnterpriseMode opts) opts = opts.
Proof. now destruct opts. Qed.

(** X14: the sanity checks pass exactly for the valid option sets. For a
    valid option set they write at most the ACL warning and return the
    options unchanged but for the enterprise toggle, which is on when it
    was on or a secret is given. For any other option set they end the run
    with exit status 1 after one diagnostic of a failed check, preceded at
    most by the ACL warning. *)
Theorem checks_pass_exactly_for_valid_options opts :
  (valid opts <-> exists w o, sanity_checks opts = (w, Return o))
  /\ (forall w o, sanity_checks opts = (w, Return o) ->
        w = (if bool_decide (AclSecret opts ≠ "") && negb (EnterpriseMode opts)
             then [acl_warning] else [])
        /\ EnterpriseMode o
           = EnterpriseMode opts || bool_decide (AclSecret opts ≠ "")
        /\ set_EnterpriseMode (EnterpriseMode opts) o = opts)
  /\ (~ valid opts ->
      exists w msg,
        sanity_checks opts = ((w ++ [fatal_line msg])%list, Exit1)
        /\ msg ∈ fatal_messages
        /\ (w = [] \/ w = [acl_warning])).
Proof.
  assert (forall m : string, m ∈ fatal_messages
          <-> m = msg_zeros \/ m = msg_alphas \/ m = msg_lru
              \/ m = msg_volumes \/ m = msg_user) as Hmem.
  { intros m. unfold fatal_messages. rewrite !elem_of_cons, elem_of_nil.
    tauto. }
  assert (acl_warnings opts = [] \/ acl_warnings opts = [acl_warning]) as Hw.
  { unfold acl_warnings. destruct (acl_forces_enterprise opts); auto. }
  assert (~ valid opts ->
          exists w msg,
            sanity_checks opts = ((w ++ [fatal_line msg])%list, Exit1)
            /\ msg ∈ fatal_messages
            /\ (w = [] \/ w = [acl_warning])) as Hbad.
  { intros Hnv. rewrite sanity_checks_table.
    destruct (Z.ltb_spec (NumZeros opts) 1); cbn [orb];
      [exists [], msg_zeros; rewrite Hmem; auto|].
    destruct (Z.ltb_spec 99 (NumZeros opts)); cbn [orb];
      [exists [], msg_zeros; rewrite Hmem; auto|].
    destruct (Z.ltb_spec (NumAlphas opts) 1); cbn [orb];
      [exists [], msg_alphas; rewrite Hmem; auto|].
    destruct (Z.ltb_spec 99 (NumAlphas opts)); cbn [orb];
      [exists [], msg_alphas; rewrite Hmem; auto|].
    destruct (Z.ltb_spec (LruSizeMB opts) 1024);
      [exists [], msg_lru; rewrite Hmem; auto 6|].
    destruct (DataVol opts && bool_decide (DataDir opts ≠ "")) eqn:Ev;
      [exists (acl_warnings opts), msg_volumes; rewrite Hmem; auto 7|].
    destruct (UserOwnership opts && bool_decide (DataDir opts = "")) eqn:Eu;
      [exists (acl_warnings opts), msg_user; rewrite Hmem; auto 8|].
    exfalso. apply Hnv. unfold valid. repeat split; try lia.
    - intros Hd. rewrite Hd in Ev. cbn in Ev.
      apply bool_decide_eq_false in Ev.
      destruct (decide (DataDir opts = "")); tauto.
    - intros Ho. rewrite Ho in Eu. cbn in Eu.
      now apply bool_decide_eq_false in Eu. }
  split; [|split; [|exact Hbad]].
  - split.
    + intros Hv. rewrite (sanity_checks_valid opts Hv). eauto.
    + intros (w & o & Hs).
      destruct (decide (1 <= NumZeros opts <= 99
                        /\ 1 <= NumAlphas opts <= 99
                        /\ 1024 <= LruSizeMB opts
                        /\ (DataVol opts = true -> DataDir opts = "")
                        /\ (UserOwnership opts = true -> DataDir opts ≠ "")))
        as [Hv|Hnv]; [exact Hv|].
      destruct (Hbad Hnv) as (w' & msg & Hs' & _). congruence.
  - intros w o Hs. apply sanity_checks_returns in Hs as [-> ->].
    destruct (resolved_fields opts)
      as (_ & _ & _ & _ & _ & _ & _ & _ & _ & _ & _ & _ & _ & He).
    split; [reflexivity|]. split; [exact He|].
    unfold resolved. destruct (acl_forces_enterprise opts);
      [|apply set_EnterpriseMode_same].
    now destruct opts.
Qed.

(** X15: a cache below 1024 MB is fatal before anything else is said.
    With node counts in range and LruSizeMB below 1024 the run ends with
    exit status 1 and the one line of the cache check, also when an ACL
    secret would have caused the warning, and whatever the other options
    are. *)
Theorem small_cache_is_fatal yaml_Marshal env args opts :
  1 <= NumZeros opts <= 99 -> 1 <= NumAlphas opts <= 99 ->
  LruSizeMB opts < 1024 ->
  main yaml_Marshal env args opts
  = (["compose: LRU cache size must be >= 1024 MB
"], Exit1).
Proof.
  intros Hz Ha Hl. unfold main. rewrite sanity_checks_table.
  destruct (Z.ltb_spec (NumZeros opts) 1); [lia|].
  destruct (Z.ltb_spec 99 (NumZeros opts)); [lia|].
  destruct (Z.ltb_spec (NumAlphas opts) 1); [lia|].
  destruct (Z.ltb_spec 99 (NumAlphas opts)); [lia|].
  destruct (Z.ltb_spec (LruSizeMB opts) 1024); [|lia].
  reflexivity.
Qed.

(** An ACL secret and a cache of 1023 MB. *)
Definition small_cache_opts : Options :=
  {| NumZeros := 3; NumAlphas := 3; NumGroups := 1; LruSizeMB := 1023;
     EnterpriseMode := false; AclSecret := "/tmp/hmac"; DataDir := "";
     DataVol := false; opt_TempFS := false; UserOwnership := false;
     Jaeger := false; TestPortRange := true; Verbosity := 2;
     OutFile := "-" |}.

Lemma small_cache_is_fatal_witness :
  main (fun _ => Ok "") env0 ["compose"] small_cache_opts
  = (["compose: LRU cache size must be >= 1024 MB
"], Exit1).
Proof.
  apply (small_cache_is_fatal (fun _ => Ok "") env0 ["compose"]
           small_cache_opts); cbn; lia.
Defined.

(** A run that passes the checks goes on with the serializer, on the
    document built from the resolved options. *)
Lemma main_valid yaml_Marshal env args opts cfg :
  valid opts -> build env (resolved opts) = ([], Return cfg) ->
  main yaml_Marshal env args opts
  = ((acl_warnings opts
      ++ stderr_of (serialize yaml_Marshal env args (resolved opts) cfg))%list,
     outcome_of (serialize yaml_Marshal env args (resolved opts) cfg)).
Proof.
  intros Hv Hb. unfold main. rewrite (sanity_checks_valid opts Hv).
  unfold mbind, Proc_bind. rewrite bind_Return, Hb, bind_Return.
  reflexivity.
Qed.

(** X16: a run on valid options whose document the serializer accepts.
    The document is the one built from the resolved options. With [-] as
    the output file the run writes nothing to the error stream but the ACL
    warning, if due, and hands the provenance header followed by the
    serialized document to the standard output. With another output file
    that can be created it announces the file on the error stream and
    hands the same content to that file. *)
Theorem valid_run_writes_the_document yaml_Marshal env args opts :
  valid opts -> user_known env opts ->
  exists cfg,
    build env (resolved opts) = ([], Return cfg)
    /\ forall yml, yaml_Marshal cfg = Ok yml ->
         (OutFile opts = "-" ->
          main yaml_Marshal env args opts
          = (acl_warnings opts,
             Return {| dest := Stdout; content := header args +:+ yml |}))
         /\ (OutFile opts <> "-" -> os_Create env (OutFile opts) = None ->
             main yaml_Marshal env args opts
             = ((acl_warnings opts
                 ++ ["writing file: " +:+ OutFile opts +:+ "
"])%list,
                Return {| dest := File (OutFile opts);
                          content := header args +:+ yml |})).
Proof.
  intros Hv Hu. apply user_known_resolved in Hu.
  destruct (build_document env (resolved opts) Hu) as (cfg & Hrun & _).
  exists cfg. split; [exact Hrun|]. intros yml Hy.
  rewrite (main_valid yaml_Marshal env args opts cfg Hv Hrun).
  unfold serialize. rewrite Hy, OutFile_resolved. split.
  - intros ->. cbn. now rewrite app_nil_r.
  - intros Hne Hc. rewrite bool_decide_eq_false_2 by exact Hne.
    rewrite Hc. reflexivity.
Qed.

Lemma valid_run_writes_the_document_witness :
  exists cfg,
    build env0 (resolved full_opts) = ([], Return cfg)
    /\ forall yml, (fun _ => Ok "services: {}") cfg = Ok yml ->
         (OutFile full_opts = "-" ->
          main (fun _ => Ok "services: {}") env0 ["compose"; "-j"] full_opts
          = (acl_warnings full_opts,
             Return {| dest := Stdout;
                       content := header ["compose"; "-j"] +:+ yml |}))
         /\ (OutFile full_opts <> "-" ->
             os_Create env0 (OutFile full_opts) = None ->
             main (fun _ => Ok "services: {}") env0 ["compose"; "-j"]
               full_opts
             = ((acl_warnings full_opts
                 ++ ["writing file: " +:+ OutFile full_opts +:+ "
"])%list,
                Return {| dest := File (OutFile full_opts);
                          content := header ["compose"; "-j"] +:+ yml |})).
Proof.
  apply (valid_run_writes_the_document (fun _ => Ok "services: {}") env0
           ["compose"; "-j"] full_opts).
  - exact valid_full_opts.
  - exact (user_known_env0 full_opts).
Defined.

(** X17: an output file that cannot be created is fatal, after the
    document has been built and serialized. On valid options with an
    output file other than [-], the run announces the file, reports the
    error of [os.Create] and exits with status 1; it returns no output. *)
Theorem unwritable_output_file_is_fatal yaml_Marshal env args opts err :
  valid opts -> user_known env opts ->
  OutFile opts <> "-" -> os_Create env (OutFile opts) = Some err ->
  exists cfg,
    build env (resolved opts) = ([], Return cfg)
    /\ forall yml, yaml_Marshal cfg = Ok yml ->
         main yaml_Marshal env args opts
         = ((acl_warnings opts
             ++ ["writing file: " +:+ OutFile opts +:+ "
";
                 "compose: unable to open file for writing: " +:+ err +:+ "
"])%list, Exit1).
Proof.
  intros Hv Hu Hne Hc. apply user_known_resolved in Hu.
  destruct (build_document env (resolved opts) Hu) as (cfg & Hrun & _).
  exists cfg. split; [exact Hrun|]. intros yml Hy.
  rewrite (main_valid yaml_Marshal env args opts cfg Hv Hrun).
  unfold serialize. rewrite Hy, OutFile_resolved.
  rewrite bool_decide_eq_false_2 by exact Hne. rewrite Hc. reflexivity.
Qed.

Lemma unwritable_output_file_is_fatal_witness :
  exists cfg,
    build env0_readonly (resolved full_opts) = ([], Return cfg)
    /\ forall yml, (fun _ => Ok "services: {}") cfg = Ok yml ->
         main (fun _ => Ok "services: {}") env0_readonly ["compose"] full_opts
         = ((acl_warnings full_opts
             ++ ["writing file: " +:+ OutFile full_opts +:+ "
";
                 "compose: unable to open file for writing: "
                 +:+ "permission denied" +:+ "
"])%list, Exit1).
Proof.
  apply (unwritable_output_file_is_fatal (fun _ => Ok "services: {}")
           env0_readonly ["compose"] full_opts "permission denied").
  - exact valid_full_opts.
  - intros _. exists "1000". reflexivity.
  - discriminate.
  - reflexivity.
Defined.



(** X19: user ownership and the named data volume exclude each other.
    With node counts and cache size in range, a run that asks for both is
    always fatal: with a host data directory it fails the volume check,
    without one it fails the user check. It exits with status 1 after that
    diagnostic, preceded at most by the ACL warning. *)
Theorem user_ownership_excludes_the_data_volume yaml_Marshal env args opts :
  1 <= NumZeros opts <= 99 -> 1 <= NumAlphas opts <= 99 ->
  1024 <= LruSizeMB opts ->
  UserOwnership opts = true -> DataVol opts = true ->
  main yaml_Marshal env args opts
  = ((acl_warnings opts
      ++ [fatal_line (if bool_decide (DataDir opts ≠ "")
                      then msg_volumes else msg_user)])%list, Exit1).
Proof.
  intros Hz Ha Hl Hu Hd. unfold main. rewrite sanity_checks_table.
  destruct (Z.ltb_spec (NumZeros opts) 1); [lia|].
  destruct (Z.ltb_spec 99 (NumZeros opts)); [lia|].
  destruct (Z.ltb_spec (NumAlphas opts) 1); [lia|].
  destruct (Z.ltb_spec 99 (NumAlphas opts)); [lia|].
  destruct (Z.ltb_spec (LruSizeMB opts) 1024); [lia|].
  rewrite Hu, Hd. cbn [orb andb].
  destruct (bool_decide_reflect (DataDir opts ≠ "")) as [Hne|He].
  - reflexivity.
  - assert (DataDir opts = "") as E
      by (destruct (decide (DataDir opts = "")); tauto).
    rewrite bool_decide_eq_true_2 by exact E. reflexivity.
Qed.

(** The named data volume, run as the current user. *)
Definition user_data_vol_opts : Options :=
  {| NumZeros := 3; NumAlphas := 3; NumGroups := 1; LruSizeMB := 1024;
     EnterpriseMode := false; AclSecret := ""; DataDir := "";
     DataVol := true; opt_TempFS := false; UserOwnership := true;
     Jaeger := false; TestPortRange := true; Verbosity := 2;
     OutFile := "-" |}.

Lemma user_ownership_excludes_the_data_volume_witness :
  main (fun _ => Ok "") env0 ["compose"] user_data_vol_opts
  = ((acl_warnings user_data_vol_opts
      ++ [fatal_line (if bool_decide (DataDir user_data_vol_opts ≠ "")
                      then msg_volumes else msg_user)])%list, Exit1).
Proof.
  apply (user_ownership_excludes_the_data_volume (fun _ => Ok "") env0
           ["compose"] user_data_vol_opts); cbn; try lia; reflexivity.
Defined.

(** ** The provenance header *)

Definition is_newline (c : ascii) : bool := Ascii.eqb c "010".

(** [strings.Split(s, "\n")]. *)
Fixpoint lines (s : string) : list string :=
  match s with
  | EmptyString => [""]
  | String c s' =>
      if is_newline c then "" :: lines s'
      else match lines s' with
           | l :: ls => String c l :: ls
           | [] => [String c ""]
           end
  end.

Definition no_newline (s : string) : Prop :=
  all_chars (fun c => negb (is_newline c)) s = true.

Lemma lines_not_nil (s : string) : lines s <> [].
Proof.
  induction s as [|c s IH]; cbn; [discriminate|].
  destruct (is_newline c); [discriminate|].
  destruct (lines s); [contradiction | discriminate].
Qed.

Lemma lines_app (s t : string) :
  no_newline s ->
  lines (s +:+ t)
  = match lines t with l :: ls => (s +:+ l) :: ls | [] => [] end.
Proof.
  unfold no_newline. induction s as [|c s IH]; cbn.
  - intros _. now destruct (lines t).
  - intros [Hc Hs]%andb_true_iff. apply negb_true_iff in Hc.
    rewrite Hc, (IH Hs). pose proof (lines_not_nil t).
    destruct (lines t); [contradiction | reflexivity].
Qed.

Lemma no_newline_app (s t : string) :
  no_newline s -> no_newline t -> no_newline (s +:+ t).
Proof.
  unfold no_newline. induction s as [|c s IH]; cbn; [auto|].
  intros [Hc Hs]%andb_true_iff Ht. rewrite Hc. cbn. auto.
Qed.

Lemma no_newline_join (l : list string) :
  Forall no_newline l -> no_newline (join " " l).
Proof.
  induction 1 as [|s l Hs Hl IH]; [reflexivity|].
  destruct l as [|s' l]; [exact Hs|].
  change (join " " (s :: s' :: l)) with (s +:+ " " +:+ join " " (s' :: l)).
  apply no_newline_app; [exact Hs|]. now apply (no_newline_app " ").
Qed.

(** X20: the provenance header is two comment lines in front of the
    serialized document. When no argument of the invocation has a newline,
    the lines of the output are the line [# Auto-generated with: \[args\]],
    with the arguments separated by single spaces, the line [#], and then
    the lines of the serialized document, unchanged. *)
Theorem header_is_two_comment_lines (args : list string) (yml : string) :
  Forall no_newline args ->
  lines (header args +:+ yml)
  = ("# Auto-generated with: [" +:+ join " " args +:+ "]")
    :: "#" :: lines yml.
Proof.
  intros Hargs. unfold header, fmt_v.
  assert (no_newline ("# Auto-generated with: " +:+ "[" +:+ join " " args
                      +:+ "]")) as Hfirst.
  { apply (no_newline_app "# Auto-generated with: "); [reflexivity|].
    apply (no_newline_app "["); [reflexivity|].
    apply no_newline_app; [now apply no_newline_join | reflexivity]. }
  rewrite !str_app_assoc.
  replace ("# Auto-generated with: " +:+ "[" +:+ join " " args +:+ "]" +:+ "
#
" +:+ yml)
    with (("# Auto-generated with: " +:+ "[" +:+ join " " args +:+ "]")
          +:+ "
#
" +:+ yml) by (rewrite !str_app_assoc; reflexivity).
  rewrite (lines_app _ _ Hfirst).
  change ("
#
" +:+ yml) with (String "010" (String "#" (String "010" yml))).
  cbn [lines is_newline Ascii.eqb Bool.eqb].
  rewrite str_app_nil_r. reflexivity.
Qed.

Lemma header_is_two_comment_lines_witness :
  lines (header ["compose"; "--num_zeros=3"] +:+ "version: 3.5")
  = ("# Auto-generated with: [" +:+ join " " ["compose"; "--num_zeros=3"]
     +:+ "]")
    :: "#" :: lines "version: 3.5".
Proof.
  apply (header_is_two_comment_lines ["compose"; "--num_zeros=3"]
           "version: 3.5").
  repeat constructor.
Defined.
